(** * mesonbuild/dependencies.py: detection of external dependencies

    A shallow embedding of the dependency-resolution code of
    [mesonbuild/dependencies.py] and the properties of its resolution
    dispatcher, its pkg-config variant, its framework scan, its identity
    key and its external-program wrapper, and of the kinds that probe
    on their own: OpenGL, SDL2, wxWidgets, GNUstep and Python 3.

    Conventions of the embedding.
    - Python [str] is [string]; the text is taken to be ASCII, so that
      [str.lower] acts on the letters A-Z only.
    - Keyword arguments are a [gmap string value].
    - A call that may raise returns a [result]; code that reads or writes
      class attributes runs in the monad [M] over [State].
    - Everything the code asks of its host (processes, files, environment
      variables, the platform, the Python runtime) is a field of [World].
    - The calls of [mlog] write the log of the build and are left out;
      what is kept of them is the evaluation of an argument that can
      raise. *)

From Stdlib Require Import ZArith Ascii String.
From stdpp Require Import gmap strings list fin_maps.

Local Open Scope Z_scope.
Set Warnings "-register-all".

(** * The code *)

(** ** Python strings *)

Module Str.

Definition chr (n : nat) : ascii := ascii_of_nat n.
Definition of_char (c : ascii) : string := String c EmptyString.

Definition nl : string := of_char (chr 10).
Definition dquote : ascii := chr 34.
Definition squote : ascii := chr 39.
Definition backslash : ascii := chr 92.

Definition eqb (a b : string) : bool := bool_decide (a = b).
Definition ceqb (a b : ascii) : bool := bool_decide (a = b).

(** [str.lower] on ASCII text. *)
Definition lower_char (c : ascii) : ascii :=
  let n := nat_of_ascii c in
  if ((65 <=? n) && (n <=? 90))%nat then ascii_of_nat (n + 32) else c.

Fixpoint lower (s : string) : string :=
  match s with
  | EmptyString => EmptyString
  | String c r => String (lower_char c) (lower r)
  end.

(** The characters [str.split()] and [str.strip()] treat as white space
    (ASCII range). *)
Definition isspace (c : ascii) : bool :=
  let n := nat_of_ascii c in
  (((9 <=? n) && (n <=? 13)) || ((28 <=? n) && (n <=? 32)))%nat.

Definition is_empty (s : string) : bool :=
  match s with EmptyString => true | _ => false end.

Fixpoint contains_char (c : ascii) (s : string) : bool :=
  match s with
  | EmptyString => false
  | String d r => ceqb c d || contains_char c r
  end.

(** [s.startswith(p)] *)
Fixpoint startswith (p s : string) : bool :=
  match p, s with
  | EmptyString, _ => true
  | String a p', String b s' => ceqb a b && startswith p' s'
  | String _ _, EmptyString => false
  end.

(** [s.endswith(suf)]: some suffix of [s] is [suf]. *)
Fixpoint endswith (suf s : string) : bool :=
  eqb s suf ||
  match s with
  | EmptyString => false
  | String _ r => endswith suf r
  end.

(** [s.split(sep)] for a one-character separator: never empty. *)
Fixpoint split_on (sep : ascii) (s : string) : list string :=
  match s with
  | EmptyString => [EmptyString]
  | String c r =>
      if ceqb c sep then EmptyString :: split_on sep r
      else match split_on sep r with
           | h :: t => String c h :: t
           | [] => [of_char c]
           end
  end.

(** [s.split()]: maximal runs of characters that are not white space. *)
Fixpoint split (s : string) : list string :=
  match s with
  | EmptyString => []
  | String c r =>
      if isspace c then split r
      else match r with
           | EmptyString => [of_char c]
           | String c' _ =>
               if isspace c' then of_char c :: split r
               else match split r with
                    | h :: t => String c h :: t
                    | [] => [of_char c]
                    end
           end
  end.

Fixpoint lstrip (s : string) : string :=
  match s with
  | EmptyString => EmptyString
  | String c r => if isspace c then lstrip r else s
  end.

Fixpoint rstrip (s : string) : string :=
  match s with
  | EmptyString => EmptyString
  | String c r =>
      let r' := rstrip r in
      if isspace c && is_empty r' then EmptyString else String c r'
  end.

(** [s.strip()] *)
Definition strip (s : string) : string := rstrip (lstrip s).

(** [s[n:]] *)
Fixpoint drop (n : nat) (s : string) : string :=
  match n, s with
  | O, _ => s
  | S n', String _ r => drop n' r
  | S _, EmptyString => EmptyString
  end.

(** [s[:-1]] *)
Fixpoint drop_last (s : string) : string :=
  match s with
  | EmptyString => EmptyString
  | String c r => if is_empty r then EmptyString else String c (drop_last r)
  end.

(** [s[1:-1]] *)
Definition strip_ends (s : string) : string := drop_last (drop 1 s).

(** [s.rstrip(c)] for one character. *)
Fixpoint rstrip_char (c : ascii) (s : string) : string :=
  match s with
  | EmptyString => EmptyString
  | String d r =>
      let r' := rstrip_char c r in
      if ceqb d c && is_empty r' then EmptyString else String d r'
  end.

Fixpoint all_char (c : ascii) (s : string) : bool :=
  match s with
  | EmptyString => true
  | String d r => ceqb d c && all_char c r
  end.

(** [sep.join(l)] *)
Fixpoint join (sep : string) (l : list string) : string :=
  match l with
  | [] => EmptyString
  | [x] => x
  | x :: r => x +:+ sep +:+ join sep r
  end.

Definition hex_digit (n : nat) : ascii :=
  if (n <? 10)%nat then ascii_of_nat (48 + n) else ascii_of_nat (87 + n).

(** One character of [repr(s)] when the enclosing quote is [q]. *)
Definition repr_char (q c : ascii) : string :=
  let n := nat_of_ascii c in
  if ceqb c q || ceqb c backslash then String backslash (of_char c)
  else if (n =? 9)%nat then String backslash "t"
  else if (n =? 10)%nat then String backslash "n"
  else if (n =? 13)%nat then String backslash "r"
  else if ((n <? 32) || (126 <? n))%nat then
    String backslash (String "x"
      (String (hex_digit (n / 16)) (of_char (hex_digit (n mod 16)))))
  else of_char c.

Fixpoint repr_body (q : ascii) (s : string) : string :=
  match s with
  | EmptyString => EmptyString
  | String c r => repr_char q c +:+ repr_body q r
  end.

(** [repr(s)]: single quotes, unless [s] has a single quote and no
    double quote. *)
Definition repr (s : string) : string :=
  let q := if contains_char squote s && negb (contains_char dquote s)
           then dquote else squote in
  String q (repr_body q s +:+ of_char q).

End Str.

(** ** Python values, exceptions and results *)

(** The values that the build description passes as keyword arguments. *)
Inductive value :=
| VNone
| VBool (b : bool)
| VStr (s : string)
| VList (l : list value).

(** Truth value of an object, as [if x:] and [not x] take it. *)
Definition truthy (v : value) : bool :=
  match v with
  | VNone => false
  | VBool b => b
  | VStr s => negb (Str.is_empty s)
  | VList l => match l with [] => false | _ => true end
  end.

(** [v == s] for a string [s] *)
Definition is_str (v : value) (s : string) : bool :=
  match v with VStr x => Str.eqb x s | _ => false end.

(** [isinstance(v, bool)] *)
Definition is_bool (v : value) : bool :=
  match v with VBool _ => true | _ => false end.

Fixpoint py_repr (v : value) : string :=
  match v with
  | VNone => "None"
  | VBool true => "True"
  | VBool false => "False"
  | VStr s => Str.repr s
  | VList l => "[" +:+ Str.join ", " (map py_repr l) +:+ "]"
  end.

(** [str(v)] *)
Definition py_str (v : value) : string :=
  match v with VStr s => s | _ => py_repr v end.

(** [MesonException] and its subclass [DependencyException] carry their
    message; the built-in exceptions are told apart by class only. *)
Inductive exn :=
| MesonException (msg : string)
| DependencyException (msg : string)
| TypeError
| IndexError
| KeyError (key : string)
| ValueError
| FileNotFoundError
| PermissionError
| OSError.

(** [isinstance(e, MesonException)] *)
Definition is_MesonException (e : exn) : bool :=
  match e with MesonException _ | DependencyException _ => true | _ => false end.

Definition is_DependencyException (e : exn) : bool :=
  match e with DependencyException _ => true | _ => false end.

Inductive result (A : Type) :=
| Ok (a : A)
| Raise (e : exn).
Arguments Ok {A} a.
Arguments Raise {A} e.

Definition result_bind {A B} (r : result A) (f : A -> result B) : result B :=
  match r with Ok a => f a | Raise e => Raise e end.

(** [v[i]] *)
Definition py_getitem (v : value) (i : nat) : result value :=
  match v with
  | VList l => match l !! i with Some x => Ok x | None => Raise IndexError end
  | VStr s => match String.get i s with
              | Some c => Ok (VStr (Str.of_char c))
              | None => Raise IndexError
              end
  | VNone | VBool _ => Raise TypeError
  end.

(** ** os.path *)

(** The flavour of [os.path] of the host. *)
Record OsPath := {
  path_join : string -> list string -> string;
  path_dirname : string -> string;
  path_basename : string -> string;
  path_isabs : string -> bool;
  path_splitext : string -> string * string;
}.

Module posixpath.

Definition sep : ascii := "/"%char.

Definition join1 (path b : string) : string :=
  if Str.startswith "/" b then b
  else if Str.is_empty path || Str.endswith "/" path then path +:+ b
  else path +:+ "/" +:+ b.

(** [posixpath.join(a, *p)] *)
Definition join (a : string) (p : list string) : string := foldl join1 a p.

(** [(p[:i], p[i:])] for [i = p.rfind('/') + 1]. *)
Fixpoint split_last_sep (p : string) : string * string :=
  match p with
  | EmptyString => (EmptyString, EmptyString)
  | String c r =>
      let '(h, t) := split_last_sep r in
      if Str.is_empty h then
        if Str.ceqb c sep then (Str.of_char c, r) else (EmptyString, String c r)
      else (String c h, t)
  end.

Definition basename (p : string) : string := snd (split_last_sep p).

Definition dirname (p : string) : string :=
  let head := fst (split_last_sep p) in
  if negb (Str.is_empty head) && negb (Str.all_char sep head)
  then Str.rstrip_char sep head else head.

Definition isabs (s : string) : bool := Str.startswith "/" s.

(** Index of the last occurrence of [c] in [s], counted from the given
    offset. *)
Fixpoint rfind_from (c : ascii) (i : Z) (s : string) : Z :=
  match s with
  | EmptyString => -1
  | String d r =>
      let k := rfind_from c (i + 1) r in
      if 0 <=? k then k else if Str.ceqb d c then i else -1
  end.

Definition rfind (c : ascii) (s : string) : Z := rfind_from c 0 s.

(** [genericpath._splitext(p, '/', None, '.')] *)
Definition splitext (p : string) : string * string :=
  let sepIndex := rfind sep p in
  let dotIndex := rfind "."%char p in
  if sepIndex <? dotIndex then
    let filename := String.substring (Z.to_nat (sepIndex + 1))
                      (Z.to_nat (dotIndex - (sepIndex + 1))) p in
    if Str.all_char "."%char filename then (p, EmptyString)
    else (String.substring 0 (Z.to_nat dotIndex) p, Str.drop (Z.to_nat dotIndex) p)
  else (p, EmptyString).

Definition os_path : OsPath := {|
  path_join := join;
  path_dirname := dirname;
  path_basename := basename;
  path_isabs := isabs;
  path_splitext := splitext;
|}.

End posixpath.

(** ** The host *)

(** [mesonlib.Popen_safe] runs a command and hands back the exit status
    with the captured output, or it raises because the process cannot be
    launched: [FileNotFoundError] and [PermissionError] are the two
    exceptions that callers in this file catch, and the launch can end
    in any other exception as well. *)
Inductive launch_error :=
| LaunchFileNotFound
| LaunchPermission
| LaunchOther (e : exn).

Inductive popen :=
| Launched (returncode : Z) (out err : string)
| CannotLaunch (e : launch_error).

Definition exn_of_launch_error (e : launch_error) : exn :=
  match e with
  | LaunchFileNotFound => FileNotFoundError
  | LaunchPermission => PermissionError
  | LaunchOther e => e
  end.

(** [except (FileNotFoundError, PermissionError):] around a launch. *)
Definition caught_on_launch (e : launch_error) : bool :=
  match exn_of_launch_error e with
  | FileNotFoundError | PermissionError => true
  | _ => false
  end.

(** What the code consults outside of itself. The file-system queries
    that raise [OSError] when the path cannot be read answer [None] then.
    [version_compare_many] and [mlog_format_list] are the helpers of
    [mesonlib] and [mlog], which are modules of their own;
    [exn_text] is [str(e)] for a built-in exception; [str_format_other]
    is [str.format] on the format strings whose replacement fields
    [str_format] below does not interpret. *)
Record World := {
  environ : gmap string string;
  is_osx : bool;
  is_windows : bool;
  os_path : OsPath;
  Popen_safe : list string -> popen;
  shutil_which : string -> option string;
  path_exists : string -> bool;
  path_isfile : string -> bool;
  path_isdir : string -> bool;
  os_access_X_OK : string -> bool;
  os_listdir : string -> option (list string);
  os_stat_isdir : string -> option bool;
  open_lines : string -> option (list string);
  sys_executable : string;
  version_compare_many : string -> list value -> result (bool * list value * list value);
  mlog_format_list : list string -> string;
  exn_text : exn -> string;
  str_format_other : string -> list string -> result string;
}.

(** The part of [environment] that the code reads: whether the build is
    a cross build and the [binaries] table of the cross file. *)
Record Environment := {
  is_cross_build : bool;
  cross_binaries : gmap string string;
}.

(** [str(e)] *)
Definition str_exn (w : World) (e : exn) : string :=
  match e with
  | MesonException msg | DependencyException msg => msg
  | _ => exn_text w e
  end.

(** ** str.format *)

Inductive fmt_outcome :=
| FmtOk (s : string)
| FmtRaise (e : exn)
| FmtOther.

Definition fmt_push (c : ascii) (o : fmt_outcome) : fmt_outcome :=
  match o with FmtOk s => FmtOk (String c s) | _ => o end.

Definition fmt_append (p : string) (o : fmt_outcome) : fmt_outcome :=
  match o with FmtOk s => FmtOk (p +:+ s) | _ => o end.

Inductive fmt_field :=
| FieldAuto (conv : string -> string)
| FieldKeyword (key : string)
| FieldOther.

Definition is_digit (c : ascii) : bool :=
  let n := nat_of_ascii c in ((48 <=? n) && (n <=? 57))%nat.

Fixpoint all_digits (s : string) : bool :=
  match s with
  | EmptyString => true
  | String c r => is_digit c && all_digits r
  end.

(** The text between the braces of a replacement field: [{}], [{!r}] and
    [{!s}] take the next positional argument; a name without any of
    [. [ ] : ! {] that is not a number is looked up among the keyword
    arguments. *)
Definition fmt_classify (field : string) : fmt_field :=
  if Str.eqb field "" then FieldAuto (fun a => a)
  else if Str.eqb field "!s" then FieldAuto (fun a => a)
  else if Str.eqb field "!r" then FieldAuto Str.repr
  else if Str.contains_char "." field || Str.contains_char "[" field
          || Str.contains_char "]" field || Str.contains_char ":" field
          || Str.contains_char "!" field || Str.contains_char "{" field
          || all_digits field
  then FieldOther
  else FieldKeyword field.

(** The scan of [fmt.format( *args )] without keyword arguments: [field]
    is [None] in literal text and holds the text read so far inside a
    replacement field; [auto] is the index of the next positional
    argument. *)
Fixpoint format_go (args : list string) (auto : nat) (field : option string)
    (s : string) : fmt_outcome :=
  match field, s with
  | None, EmptyString => FmtOk EmptyString
  | None, String c r =>
      if Str.ceqb c "{" then
        match r with
        | EmptyString => FmtRaise ValueError
        | String c2 r2 =>
            if Str.ceqb c2 "{" then fmt_push c (format_go args auto None r2)
            else format_go args auto (Some EmptyString) r
        end
      else if Str.ceqb c "}" then
        match r with
        | EmptyString => FmtRaise ValueError
        | String c2 r2 =>
            if Str.ceqb c2 "}" then fmt_push c (format_go args auto None r2)
            else FmtRaise ValueError
        end
      else fmt_push c (format_go args auto None r)
  | Some acc, EmptyString => FmtOther
  | Some acc, String c r =>
      if Str.ceqb c "}" then
        match fmt_classify acc with
        | FieldAuto conv =>
            match args !! auto with
            | Some a => fmt_append (conv a) (format_go args (S auto) None r)
            | None => FmtRaise IndexError
            end
        | FieldKeyword key => FmtRaise (KeyError key)
        | FieldOther => FmtOther
        end
      else format_go args auto (Some (acc +:+ Str.of_char c)) r
  end.

(** [fmt.format( *args )] *)
Definition str_format (w : World) (fmt : string) (args : list string) : result string :=
  match format_go args 0 None fmt with
  | FmtOk s => Ok s
  | FmtRaise e => Raise e
  | FmtOther => str_format_other w fmt args
  end.

(** ** State of the classes and the monad of the constructors *)

(** The values of [PkgConfigDependency.class_pkgbin] and of the instance
    attribute [pkgbin]: [None], [False] or the path of the binary. *)
Inductive pkgbin_val :=
| PkgNone
| PkgFalse
| PkgPath (p : string).

(** [if pkgbin:] *)
Definition pkgbin_truthy (b : pkgbin_val) : bool :=
  match b with PkgPath p => negb (Str.is_empty p) | _ => false end.

(** What is recorded of a run: each execution of [check_pkgconfig] and
    each assignment to [PkgConfigDependency.class_pkgbin]. *)
Inductive event :=
| EvCheckPkgconfig
| EvSetClassPkgbin (v : pkgbin_val).

Record State := {
  class_pkgbin : pkgbin_val;
  trace : list event;
}.

Definition initial_state : State := {| class_pkgbin := PkgNone; trace := [] |}.

Definition M (A : Type) : Type := State -> result A * State.

Definition ret {A} (a : A) : M A := fun st => (Ok a, st).
Definition raise {A} (e : exn) : M A := fun st => (Raise e, st).
Definition bind {A B} (m : M A) (f : A -> M B) : M B :=
  fun st => match m st with
            | (Ok a, st') => f a st'
            | (Raise e, st') => (Raise e, st')
            end.
Definition lift {A} (r : result A) : M A := fun st => (r, st).

(** [try: m except Exception as e: h e] *)
Definition try_except {A} (m : M A) (h : exn -> M A) : M A :=
  fun st => match m st with
            | (Ok a, st') => (Ok a, st')
            | (Raise e, st') => h e st'
            end.

Definition get_class_pkgbin : M pkgbin_val := fun st => (Ok (class_pkgbin st), st).
Definition set_class_pkgbin (v : pkgbin_val) : M unit :=
  fun st => (Ok tt, {| class_pkgbin := v; trace := trace st ++ [EvSetClassPkgbin v] |}).
Definition record_event (e : event) : M unit :=
  fun st => (Ok tt, {| class_pkgbin := class_pkgbin st; trace := trace st ++ [e] |}).

Declare Scope M_scope.
Delimit Scope M_scope with M.
Notation "x <- m ;; k" := (bind m (fun x => k))
  (at level 100, m at next level, right associativity) : M_scope.
Notation "m ;;; k" := (bind m (fun _ => k))
  (at level 100, right associativity) : M_scope.
Notation "x <-? r ;; k" := (result_bind r (fun x => k))
  (at level 100, r at next level, right associativity) : M_scope.
Local Open Scope M_scope.

(** ** class ExternalProgram *)

(** The command of a program is a Python list, an object that the caller
    and the program may share: the lists live in a heap and are referred
    to by location. An element is a string or [None]. *)
Module ExternalProgram.

Definition loc := positive.
Abbreviation heap := (gmap loc (list (option string))).

Definition windows_exts : list string := ["exe"; "msc"; "com"; "bat"].

Record t := {
  name : string;
  command : loc;
}.

(** The list at a location; every reference held by the code is
    allocated. *)
Definition deref (h : heap) (l : loc) : list (option string) :=
  default [] (h !! l).

(** A new list object. *)
Definition alloc (h : heap) (v : list (option string)) : loc * heap :=
  let l := fresh (dom h) in (l, <[l := v]> h).

Fixpoint first_some {A B} (f : A -> option B) (l : list A) : option B :=
  match l with
  | [] => None
  | x :: r => match f x with Some y => Some y | None => first_some f r end
  end.

(** [False] is [None]; any exception inside is swallowed. *)
Definition _shebang_to_cmd (w : World) (script : string) : option (list string) :=
  match open_lines w script with
  | None => None
  | Some lines =>
      let first_line := Str.strip (hd EmptyString lines) in
      if Str.startswith "#!" first_line then
        let commands :=
          Str.split (Str.strip (hd EmptyString (Str.split_on "#" (Str.drop 2 first_line)))) in
        if is_windows w then
          match commands with
          | [] => None
          | c0 :: rest =>
              let commands :=
                if Str.startswith "/" c0
                then List.last (Str.split_on "/" c0) EmptyString :: rest
                else commands in
              let commands :=
                match commands with
                | c :: r => if Str.eqb c "env" then r else commands
                | [] => commands
                end in
              let commands :=
                match commands with
                | c :: r => if Str.eqb c "python3" then sys_executable w :: r else commands
                | [] => commands
                end in
              Some (commands ++ [script])
          end
        else Some (commands ++ [script])
      else None
  end.

Definition _is_executable (w : World) (path : string) : bool :=
  let suffix := Str.drop 1 (Str.lower (snd (path_splitext (os_path w) path))) in
  if is_windows w then bool_decide (suffix ∈ windows_exts)
  else if os_access_X_OK w path then negb (path_isdir w path)
  else false.

Definition _search_dir (w : World) (name : string) (search_dir : option string)
    : option (list string) :=
  match search_dir with
  | None => None
  | Some d =>
      let trial := path_join (os_path w) d [name] in
      if path_exists w trial then
        if _is_executable w trial then Some [trial]
        else _shebang_to_cmd w trial
      else
        first_some (fun ext =>
          let trial_ext := trial +:+ "." +:+ ext in
          if path_exists w trial_ext then Some [trial_ext] else None) windows_exts
  end.

(** [if commands:] for the outcome of a search. *)
Definition found_commands (c : option (list string)) : option (list string) :=
  match c with
  | Some (x :: r) => Some (x :: r)
  | _ => None
  end.

(** The part of [_search] that runs on Windows only, after the standard
    search of PATH gave [command]. *)
Definition _search_windows (w : World) (name : string) (command : option string)
    : option (list string) :=
  match command with
  | Some (String a c') =>
      let c := String a c' in
      let name_ext := snd (path_splitext (os_path w) c) in
      if bool_decide (Str.lower (Str.drop 1 name_ext) ∈ windows_exts)
      then Some [c]
      else found_commands (_shebang_to_cmd w c)
  | _ =>
      let by_ext :=
        if path_isabs (os_path w) name then
          first_some (fun ext =>
            let c := name +:+ "." +:+ ext in
            if path_exists w c then Some [c] else None) windows_exts
        else None in
      match by_ext with
      | Some r => Some r
      | None =>
          let search_dirs :=
            Str.split_on ";" (default EmptyString (environ w !! "PATH")) in
          first_some (fun d => found_commands (_search_dir w name (Some d))) search_dirs
      end
  end.

Definition _search (w : World) (name : string) (search_dir : option string)
    : list (option string) :=
  match found_commands (_search_dir w name search_dir) with
  | Some commands => map Some commands
  | None =>
      let command := shutil_which w name in
      if negb (is_windows w) then [command]
      else
        match _search_windows w name command with
        | Some commands => map Some commands
        | None => [None]
        end
  end.

(** [self.command[0] is not None] *)
Definition found (p : t) (h : heap) : result bool :=
  match deref h (command p) with
  | [] => Raise IndexError
  | x :: _ => Ok (bool_decide (x <> None))
  end.

(** The [command] argument of the constructor: absent, a list shared
    with the caller, or a single program. *)
Inductive command_arg :=
| CmdNone
| CmdList (l : loc)
| CmdStr (s : string).

(** [' '.join(command)] is defined when every element is a string. *)
Definition joinable (command : list (option string)) : bool :=
  forallb (fun x => match x with Some _ => true | None => false end) command.

(** A constructor that is not silent asks [found()] and, for a program
    that is found, joins the command for the line of the log. *)
Definition __init__ (w : World) (name : string) (command : command_arg)
    (silent : bool) (search_dir : option string) (h : heap) : result t * heap :=
  let '(l, h) :=
    match command with
    | CmdList l => (l, h)
    | CmdStr s => alloc h [Some s]
    | CmdNone => alloc h (_search w name search_dir)
    end in
  let self := {| name := name; command := l |} in
  if silent then (Ok self, h)
  else match found self h with
       | Ok true =>
           if joinable (deref h l) then (Ok self, h) else (Raise TypeError, h)
       | Ok false => (Ok self, h)
       | Raise e => (Raise e, h)
       end.

(** [return self.command[:]]: a new list with the same elements. *)
Definition get_command (p : t) (h : heap) : loc * heap :=
  alloc h (deref h (command p)).

Definition get_path (p : t) (h : heap) : result (option string) :=
  match found p h with
  | Ok true => Ok (List.last (deref h (command p)) None)
  | Ok false => Ok None
  | Raise e => Raise e
  end.

Definition get_name (p : t) : string := name p.

(** Any change made to a list in place: [l[i] = x], [l.append(x)],
    [del l[i]], [l.clear()], ... *)
Definition mutate (l : loc) (f : list (option string) -> list (option string))
    (h : heap) : heap :=
  alter f l h.

End ExternalProgram.

(** ** class Dependency *)

(** The classes of the file; [self.get_methods()] is resolved on the
    class of the object under construction. *)
Inductive dep_class :=
| ClsDependency
| ClsInternalDependency
| ClsPkgConfigDependency
| ClsWxDependency
| ClsBoostDependency
| ClsGTestDependency
| ClsGMockDependency
| ClsQtBaseDependency
| ClsGnuStepDependency
| ClsAppleFrameworks
| ClsGLDependency
| ClsSDL2Dependency
| ClsExtraFrameworkDependency
| ClsPython3Dependency
| ClsValgrindDependency.

Definition get_methods (w : World) (cls : dep_class) : list string :=
  match cls with
  | ClsPkgConfigDependency | ClsValgrindDependency => ["pkgconfig"]
  | ClsQtBaseDependency => ["pkgconfig"; "qmake"]
  | ClsGLDependency =>
      if is_osx w || is_windows w then ["pkgconfig"; "system"] else ["pkgconfig"]
  | ClsSDL2Dependency =>
      if is_osx w then ["pkgconfig"; "sdlconfig"; "extraframework"]
      else ["pkgconfig"; "sdlconfig"]
  | ClsPython3Dependency =>
      if is_windows w then ["pkgconfig"; "sysconfig"]
      else if is_osx w then ["pkgconfig"; "extraframework"]
      else ["pkgconfig"]
  | _ => ["auto"]
  end.

Module Dependency.

Record t := {
  name : string;
  is_found : bool;
  type_name : string;
  methods : list string;
}.

(** [method in self.get_methods()]: the declared method equal to
    [method], if there is one. *)
Definition declared_method (method : value) (declared : list string) : option string :=
  match method with
  | VStr s => if bool_decide (s ∈ declared) then Some s else None
  | _ => None
  end.

Definition unsupported_method (w : World) (method : value) (declared : list string) : string :=
  "Unsupported detection method: " +:+ py_str method +:+
  ", allowed methods are " +:+ mlog_format_list w ("auto" :: declared).

Definition __init__ (w : World) (cls : dep_class) (type_name : string)
    (kwargs : gmap string value) : result t :=
  let method := default (VStr "auto") (kwargs !! "method") in
  if is_str method "auto" then
      Ok {| name := "null"; is_found := false; type_name := type_name;
            methods := get_methods w cls |}
  else
      match declared_method method (get_methods w cls) with
      | Some m =>
          Ok {| name := "null"; is_found := false; type_name := type_name;
                methods := [m] |}
      | None =>
          Raise (MesonException (unsupported_method w method (get_methods w cls)))
      end.

End Dependency.

(** ** get_dep_identifier *)

(** The tuple is the list of its elements. *)
Definition get_dep_identifier (name : string) (kwargs : gmap string value)
    : result (list value) :=
  modlist <-? match default (VList []) (kwargs !! "modules") with
              | VStr s => Ok [VStr s]
              | VList l => Ok l
              | VNone | VBool _ => Raise TypeError
              end ;;
  let elements := [VStr name] ++ modlist in
  let identifier := elements in
  let identifier := identifier ++ [VStr "main"; default (VBool false) (kwargs !! "main")] in
  let identifier := identifier ++ [VStr "static"; default (VBool false) (kwargs !! "static")] in
  match kwargs !! "fallback" with
  | Some f =>
      f0 <-? py_getitem f 0 ;;
      f1 <-? py_getitem f 1 ;;
      Ok (identifier ++ [VStr "fallback"; f0; f1])
  | None => Ok identifier
  end.

(** ** class ExtraFrameworkDependency *)

Module ExtraFrameworkDependency.

Record t := {
  type_name : string;
  methods : list string;
  name : option string;
  path : option string;
}.

(** The inner loop of [detect]: the entries of one directory, in the
    order of the listing. *)
Fixpoint detect_entries (w : World) (lname p : string) (entries : list string)
    : result (option string) :=
  match entries with
  | [] => Ok None
  | d :: rest =>
      let fullpath := path_join (os_path w) p [d] in
      if negb (Str.eqb lname (Str.lower (hd EmptyString (Str.split_on "." d))))
      then detect_entries w lname p rest
      else match os_stat_isdir w fullpath with
           | None => Raise OSError
           | Some false => detect_entries w lname p rest
           | Some true => Ok (Some d)
           end
  end.

Fixpoint detect_paths (w : World) (self : t) (lname : string) (paths : list string)
    : result t :=
  match paths with
  | [] => Ok self
  | p :: rest =>
      match os_listdir w p with
      | None => Raise OSError
      | Some entries =>
          match detect_entries w lname p entries with
          | Raise e => Raise e
          | Ok (Some d) =>
              Ok {| type_name := type_name self; methods := methods self;
                    name := Some d; path := Some p |}
          | Ok None => detect_paths w self lname rest
          end
      end
  end.

Definition detect (w : World) (self : t) (name : string) (path : option string)
    : result t :=
  let lname := Str.lower name in
  let paths := match path with
               | None => ["/Library/Frameworks"]
               | Some p => [p]
               end in
  detect_paths w self lname paths.

Definition found (self : t) : bool := bool_decide (name self <> None).

Definition __init__ (w : World) (name : string) (required : value)
    (path : option string) (kwargs : gmap string value) : result t :=
  base <-? Dependency.__init__ w ClsExtraFrameworkDependency "extraframeworks" kwargs ;;
  let self := {| type_name := Dependency.type_name base;
                 methods := Dependency.methods base;
                 name := None; path := None |} in
  detect w self name path.

Definition get_compile_args (w : World) (self : t) : list string :=
  if found self then
    ["-I" +:+ path_join (os_path w) (default EmptyString (path self))
                [default EmptyString (name self); "Headers"]]
  else [].

Definition get_link_args (self : t) : list string :=
  if found self then
    ["-F" +:+ default EmptyString (path self); "-framework";
     hd EmptyString (Str.split_on "." (default EmptyString (name self)))]
  else [].

Definition get_version (self : t) : string := "unknown".

End ExtraFrameworkDependency.

(** ** class PkgConfigDependency *)

Module PkgConfigDependency.

Record t := {
  type_name : string;
  methods : list string;
  name : string;
  is_found : bool;
  is_libtool : bool;
  required : value;
  static : value;
  silent : value;
  pkgbin : pkgbin_val;
  cargs : list string;
  libs : list string;
  want_cross : bool;
  modversion : string;
  type_string : option string;
  version_reqs : option value;
}.

Definition set_pkgbin (b : pkgbin_val) (self : t) : t :=
  {| type_name := type_name self; methods := methods self; name := name self;
     is_found := is_found self; is_libtool := is_libtool self;
     required := required self; static := static self; silent := silent self;
     pkgbin := b; cargs := cargs self; libs := libs self;
     want_cross := want_cross self; modversion := modversion self;
     type_string := type_string self; version_reqs := version_reqs self |}.

Definition set_is_found (b : bool) (self : t) : t :=
  {| type_name := type_name self; methods := methods self; name := name self;
     is_found := b; is_libtool := is_libtool self;
     required := required self; static := static self; silent := silent self;
     pkgbin := pkgbin self; cargs := cargs self; libs := libs self;
     want_cross := want_cross self; modversion := modversion self;
     type_string := type_string self; version_reqs := version_reqs self |}.

Definition set_type_string (s : string) (self : t) : t :=
  {| type_name := type_name self; methods := methods self; name := name self;
     is_found := is_found self; is_libtool := is_libtool self;
     required := required self; static := static self; silent := silent self;
     pkgbin := pkgbin self; cargs := cargs self; libs := libs self;
     want_cross := want_cross self; modversion := modversion self;
     type_string := Some s; version_reqs := version_reqs self |}.

Definition set_modversion (v : string) (self : t) : t :=
  {| type_name := type_name self; methods := methods self; name := name self;
     is_found := is_found self; is_libtool := is_libtool self;
     required := required self; static := static self; silent := silent self;
     pkgbin := pkgbin self; cargs := cargs self; libs := libs self;
     want_cross := want_cross self; modversion := v;
     type_string := type_string self; version_reqs := version_reqs self |}.

Definition set_version_reqs (v : value) (self : t) : t :=
  {| type_name := type_name self; methods := methods self; name := name self;
     is_found := is_found self; is_libtool := is_libtool self;
     required := required self; static := static self; silent := silent self;
     pkgbin := pkgbin self; cargs := cargs self; libs := libs self;
     want_cross := want_cross self; modversion := modversion self;
     type_string := type_string self; version_reqs := Some v |}.

Definition set_cargs (l : list string) (self : t) : t :=
  {| type_name := type_name self; methods := methods self; name := name self;
     is_found := is_found self; is_libtool := is_libtool self;
     required := required self; static := static self; silent := silent self;
     pkgbin := pkgbin self; cargs := l; libs := libs self;
     want_cross := want_cross self; modversion := modversion self;
     type_string := type_string self; version_reqs := version_reqs self |}.

Definition set_libs (l : list string) (libtool : bool) (self : t) : t :=
  {| type_name := type_name self; methods := methods self; name := name self;
     is_found := is_found self; is_libtool := libtool;
     required := required self; static := static self; silent := silent self;
     pkgbin := pkgbin self; cargs := cargs self; libs := l;
     want_cross := want_cross self; modversion := modversion self;
     type_string := type_string self; version_reqs := version_reqs self |}.

(** [Popen_safe([self.pkgbin] + args, env=os.environ)]; the exit status
    and the stripped output. *)
Definition _call_pkgbin (w : World) (self : t) (args : list string)
    : result (Z * string) :=
  match pkgbin self with
  | PkgPath p =>
      match Popen_safe w (p :: args) with
      | Launched returncode out _ => Ok (returncode, Str.strip out)
      | CannotLaunch e => Raise (exn_of_launch_error e)
      end
  | PkgNone | PkgFalse => Raise TypeError
  end.

Definition _set_cargs (w : World) (self : t) : result t :=
  r <-? _call_pkgbin w self ["--cflags"; name self] ;;
  let '(ret, out) := r in
  if negb (ret =? 0) then
    Raise (DependencyException
             ("Could not generate cargs for " +:+ name self +:+ ":" +:+ Str.nl +:+ Str.nl +:+ out))
  else Ok (set_cargs (Str.split out) self).

(** The lines of the file in order; the first whose text before the
    first [=] is the field name decides. *)
Fixpoint extract_field_lines (lines : list string) (fieldname : string)
    : result (option string) :=
  match lines with
  | [] => Ok None
  | line :: rest =>
      let arr := Str.split_on "=" (Str.strip line) in
      if Str.eqb (hd EmptyString arr) fieldname then
        match arr !! 1%nat with
        | Some v => Ok (Some (Str.strip_ends v))
        | None => Raise IndexError
        end
      else extract_field_lines rest fieldname
  end.

Definition extract_field (w : World) (la_file fieldname : string)
    : result (option string) :=
  match open_lines w la_file with
  | None => Raise OSError
  | Some lines => extract_field_lines lines fieldname
  end.

Definition extract_dlname_field (w : World) (la_file : string) :=
  extract_field w la_file "dlname".

Definition extract_libdir_field (w : World) (la_file : string) :=
  extract_field w la_file "libdir".

Definition extract_libtool_shlib (w : World) (la_file : string)
    : result (option string) :=
  dlname <-? extract_dlname_field w la_file ;;
  match dlname with
  | None => Ok None
  | Some dlname =>
      if is_osx w then
        let dlbasename := path_basename (os_path w) dlname in
        libdir <-? extract_libdir_field w la_file ;;
        match libdir with
        | None => Ok (Some dlbasename)
        | Some libdir => Ok (Some (path_join (os_path w) libdir [dlbasename]))
        end
      else Ok (Some (path_basename (os_path w) dlname))
  end.

(** The body of the loop of [_set_libs] for one token: the argument to
    append and whether it came from a libtool archive. *)
Definition resolve_lib (w : World) (lib : string) : result (string * bool) :=
  if Str.endswith ".la" lib then
    shared_libname <-? extract_libtool_shlib w lib ;;
    match shared_libname with
    | None => Raise TypeError
    | Some shared_libname =>
        let shared_lib :=
          path_join (os_path w) (path_dirname (os_path w) lib) [shared_libname] in
        let shared_lib :=
          if negb (path_exists w shared_lib)
          then path_join (os_path w) (path_dirname (os_path w) lib) [".libs"; shared_libname]
          else shared_lib in
        if negb (path_exists w shared_lib) then
          Raise (DependencyException
                   ("Got a libtools specific " +:+ Str.of_char Str.dquote +:+ lib +:+
                    Str.of_char Str.dquote +:+
                    " dependencies" +:+ "but we could not compute the actual shared" +:+
                    "library path"))
        else Ok (shared_lib, true)
    end
  else Ok (lib, false).

Fixpoint _set_libs_loop (w : World) (tokens : list string) (libs : list string)
    (is_libtool : bool) : result (list string * bool) :=
  match tokens with
  | [] => Ok (libs, is_libtool)
  | lib :: rest =>
      r <-? resolve_lib w lib ;;
      let '(lib', libtool) := r in
      _set_libs_loop w rest (libs ++ [lib']) (is_libtool || libtool)
  end.

Definition _set_libs (w : World) (self : t) : result t :=
  let libcmd := [name self; "--libs"] in
  let libcmd := if truthy (static self) then libcmd ++ ["--static"] else libcmd in
  r <-? _call_pkgbin w self libcmd ;;
  let '(ret, out) := r in
  if negb (ret =? 0) then
    Raise (DependencyException
             ("Could not generate libs for " +:+ name self +:+ ":" +:+ Str.nl +:+ Str.nl +:+ out))
  else
    r <-? _set_libs_loop w (Str.split out) [] (is_libtool self) ;;
    let '(libs, libtool) := r in
    Ok (set_libs libs libtool self).

Definition check_pkgconfig (w : World) (self : t) : M pkgbin_val :=
  record_event EvCheckPkgconfig ;;;
  let pkgbin := match environ w !! "PKG_CONFIG" with
                | Some v => Str.strip v
                | None => "pkg-config"
                end in
  found <- lift (match Popen_safe w [pkgbin; "--version"] with
                 | Launched returncode _ _ =>
                     Ok (if negb (returncode =? 0) then PkgFalse else PkgPath pkgbin)
                 | CannotLaunch e =>
                     if caught_on_launch e then Ok PkgFalse
                     else Raise (exn_of_launch_error e)
                 end) ;;
  let found :=
    if pkgbin_truthy found && negb (path_isabs (os_path w) pkgbin) then
      match shutil_which w pkgbin with
      | Some (String c r) => PkgPath (String c r)
      | _ => found
      end
    else found in
  ret found.

(** Lines 130-152 of the constructor: the binary to query. *)
Definition find_pkgbin (w : World) (self : t) (environment : Environment) : M pkgbin_val :=
  if want_cross self then
    match cross_binaries environment !! "pkgconfig" with
    | None =>
        if truthy (required self)
        then raise (DependencyException "Pkg-config binary missing from cross file")
        else ret (pkgbin self)
    | Some pkgname =>
        let '(r, h) := ExternalProgram.__init__ w pkgname ExternalProgram.CmdNone true None ∅ in
        potential_pkgbin <- lift r ;;
        is_found <- lift (ExternalProgram.found potential_pkgbin h) ;;
        if (is_found : bool) then
          let '(l, h) := ExternalProgram.get_command potential_pkgbin h in
          match ExternalProgram.deref h l with
          | [] => raise IndexError
          | x :: _ =>
              let b := match x with Some p => PkgPath p | None => PkgNone end in
              set_class_pkgbin b ;;;
              ret b
          end
        else ret (pkgbin self)
    end
  else
    c <- get_class_pkgbin ;;
    match c with
    | PkgNone =>
        b <- check_pkgconfig w self ;;
        set_class_pkgbin b ;;;
        ret b
    | _ => ret c
    end.

Definition not_found_message (type_string name : string) : string :=
  type_string +:+ " dependency " +:+ Str.repr name +:+ " not found".

Definition invalid_version_message (name : string) (not_found : list value)
    (modversion : string) : string :=
  "Invalid version of dependency, need " +:+ Str.repr name +:+ " " +:+
  py_repr (VList not_found) +:+ " found " +:+ Str.repr modversion +:+ ".".

(** Lines 196-204: the flags of a dependency that was found. *)
Definition fetch_flags (w : World) (self : t) : result t :=
  self <-? _set_cargs w self ;;
  _set_libs w self.

(** Lines 123-126: whether the cross pkg-config is wanted. *)
Definition want_cross_of (environment : Environment) (kwargs : gmap string value) : bool :=
  match kwargs !! "native" with
  | Some native =>
      if is_cross_build environment then negb (truthy native)
      else is_cross_build environment
  | None => is_cross_build environment
  end.

(** Lines 111-128 of the constructor: the keywords are checked and the
    attributes take their first values. *)
Definition init_attributes (w : World) (name : string) (environment : Environment)
    (kwargs : gmap string value) : result t :=
  base <-? Dependency.__init__ w ClsPkgConfigDependency "pkgconfig" kwargs ;;
  let static := default (VBool false) (kwargs !! "static") in
  if negb (is_bool static) then
    Raise (DependencyException "Static keyword must be boolean")
  else
    Ok {| type_name := Dependency.type_name base; methods := Dependency.methods base;
          name := name; is_found := Dependency.is_found base; is_libtool := false;
          required := default (VBool true) (kwargs !! "required");
          static := static;
          silent := default (VBool false) (kwargs !! "silent");
          pkgbin := PkgNone; cargs := []; libs := [];
          want_cross := want_cross_of environment kwargs; modversion := "none";
          type_string := None; version_reqs := None |}.

(** Lines 179-195: the version that was found against the constraints
    of the request. *)
Definition check_version (w : World) (self : t) (reqs : list value) : result t :=
  let self := set_version_reqs (VList reqs) self in
  r <-? version_compare_many w (modversion self) reqs ;;
  let '(is_found, not_found, found) := r in
  let self := set_is_found is_found self in
  if negb is_found then
    if truthy (required self)
    then Raise (DependencyException
                  (invalid_version_message (name self) not_found (modversion self)))
    else Ok self
  else fetch_flags w self.

(** Lines 154-204 of the constructor: the queries to the binary [b]. *)
Definition probe (w : World) (kwargs : gmap string value) (self : t) (b : pkgbin_val)
    : result t :=
  let self := set_is_found false (set_pkgbin b self) in
  if negb (pkgbin_truthy b) then
    if truthy (required self)
    then Raise (DependencyException "Pkg-config not found.")
    else Ok self
  else
  let type_string := if want_cross self then "Cross" else "Native" in
  let self := set_type_string type_string self in
  r <-? _call_pkgbin w self ["--modversion"; name self] ;;
  let '(ret_, out) := r in
  let self := set_modversion out self in
  if negb (ret_ =? 0) then
    if truthy (required self)
    then Raise (DependencyException (not_found_message type_string (name self)))
    else Ok self
  else
  let version_reqs := default VNone (kwargs !! "version") in
  let self := set_version_reqs version_reqs self in
  match version_reqs with
  | VNone => fetch_flags w (set_is_found true self)
  | VStr s => check_version w self [VStr s]
  | VList l => check_version w self l
  | VBool _ => Raise (DependencyException "Version argument must be string or list.")
  end.

Definition __init__ (w : World) (name : string) (environment : Environment)
    (kwargs : gmap string value) : M t :=
  self <- lift (init_attributes w name environment kwargs) ;;
  b <- find_pkgbin w self environment ;;
  lift (probe w kwargs self b).

Definition found (self : t) : bool := is_found self.
Definition get_version (self : t) : string := modversion self.
Definition get_compile_args (self : t) : list string := cargs self.
Definition get_link_args (self : t) : list string := libs self.

End PkgConfigDependency.

(** ** The registered kinds and find_external_dependency *)

(** What every dependency object answers once constructed. *)
Record Capability := {
  cap_found : bool;
  cap_version : string;
  cap_compile_args : list string;
  cap_link_args : list string;
  cap_sources : list string;
  cap_need_threads : bool;
}.

(** The objects that [find_external_dependency] hands back. The kinds
    whose probing is not described here answer through [Capability]. *)
Inductive DependencyObject :=
| PkgConfigObject (d : PkgConfigDependency.t)
| ExtraFrameworkObject (d : ExtraFrameworkDependency.t)
| ValgrindObject (d : PkgConfigDependency.t)
| KindObject (c : Capability).

(** [dep.found()] *)
Definition found (dep : DependencyObject) : bool :=
  match dep with
  | PkgConfigObject d | ValgrindObject d => PkgConfigDependency.found d
  | ExtraFrameworkObject d => ExtraFrameworkDependency.found d
  | KindObject c => cap_found c
  end.

Definition get_compile_args (w : World) (dep : DependencyObject) : list string :=
  match dep with
  | PkgConfigObject d | ValgrindObject d => PkgConfigDependency.get_compile_args d
  | ExtraFrameworkObject d => ExtraFrameworkDependency.get_compile_args w d
  | KindObject c => cap_compile_args c
  end.

Definition get_link_args (dep : DependencyObject) : list string :=
  match dep with
  | PkgConfigObject d => PkgConfigDependency.get_link_args d
  | ValgrindObject d => []
  | ExtraFrameworkObject d => ExtraFrameworkDependency.get_link_args d
  | KindObject c => cap_link_args c
  end.

(** A constructor of the table: [cls(environment, kwargs)]. *)
Definition constructor : Type :=
  World -> Environment -> gmap string value -> M DependencyObject.

Module ValgrindDependency.

Definition __init__ : constructor := fun w environment kwargs =>
  d <- PkgConfigDependency.__init__ w "valgrind" environment kwargs ;;
  ret (ValgrindObject d).

End ValgrindDependency.

Module ThreadDependency.

(** The constructor opens with [super().__init__('threads')], a call of
    [Dependency.__init__(self, type_name, kwargs)] that leaves [kwargs]
    out: Python raises [TypeError] and the rest of the body is not
    reached. *)
Definition __init__ : constructor := fun w environment kwargs =>
  raise TypeError.

End ThreadDependency.

(** The constructors of the kinds with a probing logic of their own. *)
Record Registry := {
  BoostDependency : constructor;
  GTestDependency : constructor;
  GMockDependency : constructor;
  Qt5Dependency : constructor;
  Qt4Dependency : constructor;
  GnuStepDependency : constructor;
  AppleFrameworks : constructor;
  WxDependency : constructor;
  SDL2Dependency : constructor;
  GLDependency : constructor;
  Python3Dependency : constructor;
}.

Definition packages (k : Registry) : gmap string constructor :=
  list_to_map
    [("boost", BoostDependency k);
     ("gtest", GTestDependency k);
     ("gmock", GMockDependency k);
     ("qt5", Qt5Dependency k);
     ("qt4", Qt4Dependency k);
     ("gnustep", GnuStepDependency k);
     ("appleframeworks", AppleFrameworks k);
     ("wxwidgets", WxDependency k);
     ("sdl2", SDL2Dependency k);
     ("gl", GLDependency k);
     ("threads", ThreadDependency.__init__);
     ("python3", Python3Dependency k);
     ("valgrind", ValgrindDependency.__init__)].

Definition required_message : string :=
  "Keyword " +:+ Str.of_char Str.dquote +:+ "required" +:+ Str.of_char Str.dquote +:+
  " must be a boolean.".

Definition kind_not_found_message (name : string) : string :=
  "Dependency " +:+ Str.of_char Str.dquote +:+ name +:+ Str.of_char Str.dquote +:+
  " not found".

(** The format string of line 1594 with the text of the captured
    exception appended, as it stands when [format] is called on it. *)
Definition tried_message (w : World) (pkg_exc : option exn) : string :=
  "Dependency {!r} not found, tried Extra Frameworks and Pkg-Config:" +:+
  Str.nl +:+ Str.nl +:+
  match pkg_exc with Some e => str_exn w e | None => "None" end.

(** Lines 1591-1601: what follows the pkg-config attempt when it did not
    find the dependency; [attempt] is the object it built or the
    exception it raised. *)
Definition after_pkgconfig (w : World) (name : string) (required : value)
    (kwargs : gmap string value) (attempt : PkgConfigDependency.t + exn)
    : M DependencyObject :=
  let pkg_exc := match attempt with inr e => Some e | inl _ => None end in
  if is_osx w then
    fwdep <- lift (ExtraFrameworkDependency.__init__ w name required None kwargs) ;;
    if truthy required && negb (ExtraFrameworkDependency.found fwdep) then
      m <- lift (str_format w (tried_message w pkg_exc) [name]) ;;
      raise (DependencyException m)
    else ret (ExtraFrameworkObject fwdep)
  else
    match attempt with
    | inr e => raise e
    | inl pkgdep => ret (PkgConfigObject pkgdep)
    end.

Definition find_external_dependency (k : Registry) (w : World) (name : string)
    (environment : Environment) (kwargs : gmap string value) : M DependencyObject :=
  let required := default (VBool true) (kwargs !! "required") in
  if negb (is_bool required) then raise (DependencyException required_message)
  else
  let lname := Str.lower name in
  match (packages k !! lname : option constructor) with
  | Some cls =>
      dep <- cls w environment kwargs ;;
      if truthy required && negb (found dep)
      then raise (DependencyException (kind_not_found_message name))
      else ret dep
  | None =>
      attempt <- try_except
                   (pkgdep <- PkgConfigDependency.__init__ w name environment kwargs ;;
                    ret (inl pkgdep))
                   (fun e => ret (inr e)) ;;
      match attempt with
      | inl pkgdep =>
          if PkgConfigDependency.found pkgdep then ret (PkgConfigObject pkgdep)
          else after_pkgconfig w name required kwargs attempt
      | inr e => after_pkgconfig w name required kwargs attempt
      end
  end.

(** ** class GLDependency *)

Module GLDependency.

(** [version] is [None] as long as the attribute is not assigned. *)
Record t := {
  type_name : string;
  methods : list string;
  is_found : bool;
  cargs : list string;
  linkargs : list string;
  version : option string;
}.

(** Lines 1304-1315: the pkg-config attempt; any exception of the
    constructor is dropped. *)
Definition via_pkgconfig (w : World) (environment : Environment)
    (kwargs : gmap string value) (self : t) : M (option t) :=
  if bool_decide ("pkgconfig" ∈ methods self) then
    try_except
      (pcdep <- PkgConfigDependency.__init__ w "gl" environment kwargs ;;
       if PkgConfigDependency.found pcdep then
         ret (Some {| type_name := "pkgconfig";
                      methods := methods self;
                      is_found := true;
                      cargs := PkgConfigDependency.get_compile_args pcdep;
                      linkargs := PkgConfigDependency.get_link_args pcdep;
                      version := Some (PkgConfigDependency.get_version pcdep) |})
       else ret None)
      (fun _ => ret None)
  else ret None.

(** Lines 1316-1326. *)
Definition via_system (w : World) (self : t) : t :=
  if bool_decide ("system" ∈ methods self) then
    if is_osx w then
      {| type_name := type_name self; methods := methods self;
         is_found := true; cargs := cargs self;
         linkargs := ["-framework"; "OpenGL"]; version := Some "1" |}
    else if is_windows w then
      {| type_name := type_name self; methods := methods self;
         is_found := true; cargs := cargs self;
         linkargs := ["-lopengl32"]; version := Some "1" |}
    else self
  else self.

Definition __init__ (w : World) (environment : Environment)
    (kwargs : gmap string value) : M t :=
  base <- lift (Dependency.__init__ w ClsGLDependency "gl" kwargs) ;;
  let self := {| type_name := Dependency.type_name base;
                 methods := Dependency.methods base;
                 is_found := false; cargs := []; linkargs := []; version := None |} in
  r <- via_pkgconfig w environment kwargs self ;;
  match r with
  | Some self => ret self
  | None => ret (via_system w self)
  end.

Definition found (self : t) : bool := is_found self.
Definition get_link_args (self : t) : list string := linkargs self.

End GLDependency.

(** ** class SDL2Dependency *)

Module SDL2Dependency.

Record t := {
  type_name : string;
  methods : list string;
  is_found : bool;
  cargs : list string;
  linkargs : list string;
  version : option string;
}.

(** [Popen_safe(cmd)[1]] *)
Definition popen_stdout (w : World) (cmd : list string) : result string :=
  match Popen_safe w cmd with
  | Launched _ out _ => Ok out
  | CannotLaunch e => Raise (exn_of_launch_error e)
  end.

(** Lines 1348-1360. *)
Definition via_pkgconfig (w : World) (environment : Environment)
    (kwargs : gmap string value) (self : t) : M (option t) :=
  if bool_decide ("pkgconfig" ∈ methods self) then
    try_except
      (pcdep <- PkgConfigDependency.__init__ w "sdl2" environment kwargs ;;
       if PkgConfigDependency.found pcdep then
         ret (Some {| type_name := "pkgconfig";
                      methods := methods self;
                      is_found := true;
                      cargs := PkgConfigDependency.get_compile_args pcdep;
                      linkargs := PkgConfigDependency.get_link_args pcdep;
                      version := Some (PkgConfigDependency.get_version pcdep) |})
       else ret None)
      (fun _ => ret None)
  else ret None.

(** Lines 1361-1374; [None] when the step does not return from the
    constructor. *)
Definition via_sdlconfig (w : World) (self : t) : result (option t) :=
  if bool_decide ("sdlconfig" ∈ methods self) then
    match shutil_which w "sdl2-config" with
    | Some (String _ _) =>
        stdo <-? popen_stdout w ["sdl2-config"; "--cflags"] ;;
        let cargs := Str.split (Str.strip stdo) in
        stdo <-? popen_stdout w ["sdl2-config"; "--libs"] ;;
        let linkargs := Str.split (Str.strip stdo) in
        stdo <-? popen_stdout w ["sdl2-config"; "--version"] ;;
        Ok (Some {| type_name := type_name self; methods := methods self;
                    is_found := true; cargs := cargs; linkargs := linkargs;
                    version := Some (Str.strip stdo) |})
    | _ => Ok None
    end
  else Ok None.

(** Lines 1375-1384. *)
Definition via_extraframework (w : World) (kwargs : gmap string value) (self : t)
    : result t :=
  if bool_decide ("extraframework" ∈ methods self) then
    if is_osx w then
      fwdep <-? ExtraFrameworkDependency.__init__ w "sdl2"
                  (default (VBool true) (kwargs !! "required")) None kwargs ;;
      if ExtraFrameworkDependency.found fwdep then
        Ok {| type_name := type_name self; methods := methods self;
              is_found := true;
              cargs := ExtraFrameworkDependency.get_compile_args w fwdep;
              linkargs := ExtraFrameworkDependency.get_link_args fwdep;
              version := Some "2" |}
      else Ok self
    else Ok self
  else Ok self.

Definition __init__ (w : World) (environment : Environment)
    (kwargs : gmap string value) : M t :=
  base <- lift (Dependency.__init__ w ClsSDL2Dependency "sdl2" kwargs) ;;
  let self := {| type_name := Dependency.type_name base;
                 methods := Dependency.methods base;
                 is_found := false; cargs := []; linkargs := []; version := None |} in
  r <- via_pkgconfig w environment kwargs self ;;
  match r with
  | Some self => ret self
  | None =>
      r <- lift (via_sdlconfig w self) ;;
      match r with
      | Some self => ret self
      | None => lift (via_extraframework w kwargs self)
      end
  end.

Definition found (self : t) : bool := is_found self.
Definition get_compile_args (self : t) : list string := cargs self.
Definition get_link_args (self : t) : list string := linkargs self.

End SDL2Dependency.

(** ** class WxDependency *)

Module WxDependency.

(** The attributes of the class: [wx_found], declared [None], and
    [wxconfig_found], which [check_wxconfig] creates. *)
Record ClassState := {
  wx_found : option bool;
  wxconfig_found : option bool;
}.

Definition class_initial : ClassState :=
  {| wx_found := None; wxconfig_found := None |}.

(** What ends a construction early: an exception of the kinds above, or
    the [AttributeError] of reading an attribute that was not assigned. *)
Inductive raised :=
| Exception (e : exn)
| AttributeError (attribute : string).

Inductive outcome (A : Type) :=
| Built (a : A)
| Failed (r : raised).
Arguments Built {A} a.
Arguments Failed {A} r.

(** An attribute that [__init__] assigns on some paths only is [None]
    until it is assigned. *)
Record t := {
  type_name : string;
  methods : list string;
  is_found : bool;
  modversion : string;
  wxc : option string;
  requested_modules : option (list string);
  cargs : option (list string);
  libs : option (list string);
}.

(** The loop of [check_wxconfig]: the first candidate whose version
    query exits with zero; a launch that fails with an exception other
    than the two that are caught ends the loop with it. *)
Fixpoint check_wxconfig_loop (w : World) (candidates : list string)
    : result (option string) :=
  match candidates with
  | [] => Ok None
  | wxc :: rest =>
      match Popen_safe w [wxc; "--version"] with
      | Launched returncode _ _ =>
          if returncode =? 0 then Ok (Some wxc) else check_wxconfig_loop w rest
      | CannotLaunch e =>
          if caught_on_launch e then check_wxconfig_loop w rest
          else Raise (exn_of_launch_error e)
      end
  end.

Definition check_wxconfig (w : World) (self : t) (cs : ClassState)
    : result t * ClassState :=
  match check_wxconfig_loop w ["wx-config-3.0"; "wx-config"] with
  | Raise e => (Raise e, cs)
  | Ok (Some c) =>
      (Ok {| type_name := type_name self; methods := methods self;
             is_found := is_found self; modversion := modversion self;
             wxc := Some c; requested_modules := requested_modules self;
             cargs := cargs self; libs := libs self |},
       {| wx_found := Some true; wxconfig_found := wxconfig_found cs |})
  | Ok None =>
      (Ok self, {| wx_found := wx_found cs; wxconfig_found := Some false |})
  end.

Fixpoint all_strings (candidates : list value) : result (list string) :=
  match candidates with
  | [] => Ok []
  | VStr s :: rest => r <-? all_strings rest ;; Ok (s :: r)
  | _ :: _ => Raise (DependencyException "wxwidgets module argument is not a string.")
  end.

Definition get_requested (kwargs : gmap string value) : result (list string) :=
  match kwargs !! "modules" with
  | None => Ok []
  | Some (VStr s) => Ok [s]
  | Some (VList l) => all_strings l
  | Some VNone | Some (VBool _) => Raise TypeError
  end.

Definition run (w : World) (cmd : list string) : outcome (Z * string) :=
  match Popen_safe w cmd with
  | Launched returncode out _ => Built (returncode, out)
  | CannotLaunch e => Failed (Exception (exn_of_launch_error e))
  end.

Section Probe.

(** [mesonlib.version_compare(vstr1, vstr2, strict=True)] *)
Variable version_compare_strict : string -> value -> result bool.

(** Lines 350-376: the queries to [self.wxc]. *)
Definition probe (w : World) (kwargs : gmap string value) (self : t) : outcome t :=
  match wxc self with
  | None => Failed (AttributeError "wxc")
  | Some c =>
      match run w [c; "--version"] with
      | Failed r => Failed r
      | Built (returncode, out) =>
          if negb (returncode =? 0) then
            Built {| type_name := type_name self; methods := methods self;
                     is_found := is_found self; modversion := modversion self;
                     wxc := wxc self; requested_modules := requested_modules self;
                     cargs := Some []; libs := Some [] |}
          else
            let modversion := Str.strip out in
            let version_req := default VNone (kwargs !! "version") in
            let satisfied :=
              match version_req with
              | VNone => Ok true
              | _ => version_compare_strict modversion version_req
              end in
            match satisfied with
            | Raise e => Failed (Exception e)
            | Ok false =>
                Built {| type_name := type_name self; methods := methods self;
                         is_found := is_found self; modversion := modversion;
                         wxc := wxc self; requested_modules := requested_modules self;
                         cargs := cargs self; libs := libs self |}
            | Ok true =>
                match get_requested kwargs with
                | Raise e => Failed (Exception e)
                | Ok requested =>
                    match run w [c; "--cxxflags"] with
                    | Failed r => Failed r
                    | Built (returncode, out) =>
                        if negb (returncode =? 0) then
                          Failed (Exception (DependencyException
                                    "Could not generate cargs for wxwidgets."))
                        else
                          let cargs := Str.split out in
                          match run w ([c; "--libs"] ++ requested) with
                          | Failed r => Failed r
                          | Built (returncode, out) =>
                              if negb (returncode =? 0) then
                                Failed (Exception (DependencyException
                                          "Could not generate libs for wxwidgets."))
                              else
                                Built {| type_name := type_name self;
                                         methods := methods self;
                                         is_found := true; modversion := modversion;
                                         wxc := wxc self;
                                         requested_modules := Some requested;
                                         cargs := Some cargs;
                                         libs := Some (Str.split out) |}
                          end
                    end
                end
            end
      end
  end.

Definition __init__ (w : World) (environment : Environment) (kwargs : gmap string value)
    (cs : ClassState) : outcome t * ClassState :=
  match Dependency.__init__ w ClsWxDependency "wx" kwargs with
  | Raise e => (Failed (Exception e), cs)
  | Ok base =>
      let self := {| type_name := Dependency.type_name base;
                     methods := Dependency.methods base;
                     is_found := false; modversion := "none";
                     wxc := None; requested_modules := None;
                     cargs := None; libs := None |} in
      let '(r, cs) :=
        match wx_found cs with
        | None => check_wxconfig w self cs
        | Some _ => (Ok self, cs)
        end in
      match r with
      | Raise e => (Failed (Exception e), cs)
      | Ok self =>
          if negb (default false (wx_found cs)) then (Built self, cs)
          else (probe w kwargs self, cs)
      end
  end.

End Probe.

Definition found (self : t) : bool := is_found self.

End WxDependency.

(** ** class GnuStepDependency *)

Module GnuStepDependency.

(** [args] is the attribute that [detect] sets to [None] when there is
    no [gnustep-config]; [libs] and [version] are [None] as long as they
    are not assigned. *)
Record t := {
  type_name : string;
  methods : list string;
  required : value;
  modules : value;
  args : option (list string);
  libs : option (list string);
  version : option string;
}.

Definition confprog : string := "gnustep-config".

(** [sub in s] for two strings. *)
Fixpoint str_contains (sub s : string) : bool :=
  Str.startswith sub s
  || match s with
     | EmptyString => false
     | String _ r => str_contains sub r
     end.

(** ['gui' in self.modules] *)
Definition gui_requested (modules : value) : result bool :=
  match modules with
  | VList l => Ok (existsb (fun v => is_str v "gui") l)
  | VStr s => Ok (str_contains "gui" s)
  | VNone | VBool _ => Raise TypeError
  end.

Definition weird_filter (elems : list string) : list string :=
  List.filter (fun e => Str.startswith "-" e) elems.

Definition filter_arsg (args : list string) : list string :=
  List.filter (fun f => Str.startswith "-D" f
                        || Str.startswith "-f" f
                        || Str.startswith "-I" f
                        || Str.eqb f "-pthread"
                        || (Str.startswith "-W" f && negb (Str.eqb f "-Wall")))
    args.

Definition run (w : World) (cmd : list string) : result (Z * string * string) :=
  match Popen_safe w cmd with
  | Launched returncode out err => Ok (returncode, out, err)
  | CannotLaunch e => Raise (exn_of_launch_error e)
  end.

Definition get_variable (w : World) (self : t) (var : string) : result string :=
  r <-? run w [confprog; "--variable=" +:+ var] ;;
  let '(returncode, o, _) := r in
  if negb (returncode =? 0) && truthy (required self) then
    m <-? str_format w "{!r} for variable {!r} failed to run" [confprog; var] ;;
    Raise (DependencyException m)
  else Ok (Str.strip o).

Section Make.

(** [Popen_safe(cmd, env=env, write=text, stdin=subprocess.PIPE)]: the
    command run in the given environment with the text on its standard
    input. *)
Variable Popen_safe_with : gmap string string -> string -> list string -> popen.

Definition printver : string :=
  "print-%:" +:+ Str.nl +:+ Str.of_char (Str.chr 9) +:+ "@echo '$($*)'".

Definition detect_version (w : World) (self : t) : result string :=
  gmake <-? get_variable w self "GNUMAKE" ;;
  makefile_dir <-? get_variable w self "GNUSTEP_MAKEFILES" ;;
  let base_make := path_join (os_path w) makefile_dir ["Additional"; "base.make"] in
  let env := <["FOUNDATION_LIB" := "gnu"]> (environ w) in
  match Popen_safe_with env printver
          [gmake; "-f"; "-"; "-f"; base_make; "print-GNUSTEP_BASE_VERSION"] with
  | CannotLaunch e => Raise (exn_of_launch_error e)
  | Launched _ o _ =>
      let version := Str.strip o in
      if Str.is_empty version then Ok "1" else Ok version
  end.

Definition detect (w : World) (self : t) : result t :=
  let absent := {| type_name := type_name self; methods := methods self;
                   required := required self; modules := modules self;
                   args := None; libs := libs self; version := version self |} in
  match Popen_safe w [confprog; "--help"] with
  | CannotLaunch e =>
      if caught_on_launch e then Ok absent else Raise (exn_of_launch_error e)
  | Launched returncode _ _ =>
      if negb (returncode =? 0) then Ok absent
      else
        gui <-? gui_requested (modules self) ;;
        let arg := if gui : bool then "--gui-libs" else "--base-libs" in
        r <-? run w [confprog; "--objc-flags"] ;;
        let '(returncode, flagtxt, flagerr) := r in
        if negb (returncode =? 0) then
          Raise (DependencyException
                   ("Error getting objc-args: " +:+ flagtxt +:+ " " +:+ flagerr))
        else
        let args := filter_arsg (Str.split flagtxt) in
        r <-? run w [confprog; arg] ;;
        let '(returncode, libtxt, liberr) := r in
        if negb (returncode =? 0) then
          Raise (DependencyException
                   ("Error getting objc-lib args: " +:+ libtxt +:+ " " +:+ liberr))
        else
        let libs := weird_filter (Str.split libtxt) in
        let self := {| type_name := type_name self; methods := methods self;
                       required := required self; modules := modules self;
                       args := Some args; libs := Some libs; version := version self |} in
        version <-? detect_version w self ;;
        Ok {| type_name := type_name self; methods := methods self;
              required := required self; modules := modules self;
              args := Some args; libs := Some libs; version := Some version |}
  end.

Definition __init__ (w : World) (environment : Environment) (kwargs : gmap string value)
    : result t :=
  base <-? Dependency.__init__ w ClsGnuStepDependency "gnustep" kwargs ;;
  detect w {| type_name := Dependency.type_name base;
              methods := Dependency.methods base;
              required := default (VBool true) (kwargs !! "required");
              modules := default (VList []) (kwargs !! "modules");
              args := None; libs := None; version := None |}.

End Make.

Definition found (self : t) : bool := bool_decide (args self <> None).

Definition get_compile_args (self : t) : list string := default [] (args self).

End GnuStepDependency.

(** ** class Python3Dependency *)

Module Python3Dependency.

(** [cargs] and [libs] are [None] as long as they are not assigned. *)
Record t := {
  type_name : string;
  methods : list string;
  name : string;
  is_found : bool;
  version : string;
  cargs : option (list string);
  libs : option (list string);
}.

Section Windows.

(** [_find_libpy3_windows] reads the installation of the running Python
    through [sysconfig]. *)
Variable _find_libpy3_windows : Environment -> t -> result t.

Definition via_pkgconfig (w : World) (environment : Environment)
    (kwargs : gmap string value) (self : t) : M (option t) :=
  if bool_decide ("pkgconfig" ∈ methods self) then
    try_except
      (pkgdep <- PkgConfigDependency.__init__ w "python3" environment kwargs ;;
       if PkgConfigDependency.found pkgdep then
         ret (Some {| type_name := type_name self; methods := methods self;
                      name := name self; is_found := true;
                      version := PkgConfigDependency.get_version pkgdep;
                      cargs := Some (PkgConfigDependency.cargs pkgdep);
                      libs := Some (PkgConfigDependency.libs pkgdep) |})
       else ret None)
      (fun _ => ret None)
  else ret None.

Definition __init__ (w : World) (environment : Environment)
    (kwargs : gmap string value) : M t :=
  base <- lift (Dependency.__init__ w ClsPython3Dependency "python3" kwargs) ;;
  let self := {| type_name := Dependency.type_name base;
                 methods := Dependency.methods base;
                 name := "python3"; is_found := false; version := "3";
                 cargs := None; libs := None |} in
  r <- via_pkgconfig w environment kwargs self ;;
  match r with
  | Some self => ret self
  | None =>
      if is_windows w && bool_decide ("sysconfig" ∈ methods self) then
        lift (_find_libpy3_windows environment self)
      else if is_osx w && bool_decide ("extraframework" ∈ methods self) then
        fw <- lift (ExtraFrameworkDependency.__init__ w "python" (VBool false) None kwargs) ;;
        if ExtraFrameworkDependency.found fw then
          ret {| type_name := type_name self; methods := methods self;
                 name := name self; is_found := true; version := version self;
                 cargs := Some (ExtraFrameworkDependency.get_compile_args w fw);
                 libs := Some (ExtraFrameworkDependency.get_link_args fw) |}
        else ret self
      else ret self
  end.

End Windows.

Definition found (self : t) : bool := is_found self.
Definition get_version (self : t) : string := version self.

End Python3Dependency.

(** * Hosts of the examples and notions of the statements *)

(** ** Hosts for the examples *)

Definition no_kinds : Registry :=
  let absent : constructor :=
    fun _ _ _ => ret (KindObject {| cap_found := false; cap_version := "none";
                                    cap_compile_args := []; cap_link_args := [];
                                    cap_sources := []; cap_need_threads := false |}) in
  {| BoostDependency := absent; GTestDependency := absent; GMockDependency := absent;
     Qt5Dependency := absent; Qt4Dependency := absent; GnuStepDependency := absent;
     AppleFrameworks := absent; WxDependency := absent; SDL2Dependency := absent;
     GLDependency := absent; Python3Dependency := absent |}.

(** A POSIX host given by its platform, its processes and its files. *)
Definition host (osx : bool) (popen : list string -> popen)
    (listdir : string -> option (list string)) (exists_ : string -> bool)
    (lines : string -> option (list string)) : World :=
  {| environ := ∅;
     is_osx := osx;
     is_windows := false;
     os_path := posixpath.os_path;
     Popen_safe := popen;
     shutil_which := fun _ => None;
     path_exists := exists_;
     path_isfile := exists_;
     path_isdir := fun _ => false;
     os_access_X_OK := fun _ => false;
     os_listdir := listdir;
     os_stat_isdir := fun _ => Some true;
     open_lines := lines;
     sys_executable := "/usr/bin/python3";
     version_compare_many := fun _ reqs => Ok (true, [], reqs);
     mlog_format_list := Str.join ", ";
     exn_text := fun _ => EmptyString;
     str_format_other := fun _ _ => Raise ValueError |}.

Definition native_build : Environment :=
  {| is_cross_build := false; cross_binaries := ∅ |}.

(** pkg-config is installed and knows [foo] 2.4.3, whose [.pc] file is
    sound, and nothing else. *)
Definition popen_foo (cmd : list string) : popen :=
  match cmd with
  | [_; "--version"] => Launched 0 "0.29.1" ""
  | [_; "--modversion"; "foo"] => Launched 0 "2.4.3" ""
  | [_; "--cflags"; "foo"] => Launched 0 "-I/usr/include/foo" ""
  | ["pkg-config"; "foo"; "--libs"] => Launched 0 "-lfoo" ""
  | _ => Launched 1 "" ""
  end.

Definition no_dir : string -> option (list string) := fun _ => None.
Definition no_file : string -> bool := fun _ => false.
Definition no_text : string -> option (list string) := fun _ => None.

Definition linux_foo : World := host false popen_foo no_dir no_file no_text.

(** ** The command of an external program (ExternalProgram.get_command) *)

Definition pkg_config_program : ExternalProgram.t :=
  {| ExternalProgram.name := "pkg-config"; ExternalProgram.command := 1%positive |}.

(** ** The framework scan (ExtraFrameworkDependency) *)

(** The file name of an entry up to its first dot equals the name,
    letter case aside. *)
Definition name_matches (name entry : string) : bool :=
  Str.eqb (Str.lower name) (Str.lower (hd EmptyString (Str.split_on "." entry))).

(** An entry that the scan passes over: its name does not match, or it
    is not a directory. *)
Definition passed_over (w : World) (name root entry : string) : Prop :=
  name_matches name entry = false
  \/ os_stat_isdir w (path_join (os_path w) root [entry]) = Some false.

Definition osx_frameworks (root : string) : option (list string) :=
  if Str.eqb root "/Library/Frameworks"
  then Some ["Python.framework"; "SDL2.framework"; "sdl2.bundle"]
  else None.

Definition osx_host : World :=
  host true (fun _ => CannotLaunch LaunchFileNotFound) osx_frameworks no_file no_text.

Definition unset_framework : ExtraFrameworkDependency.t :=
  {| ExtraFrameworkDependency.type_name := "extraframeworks";
     ExtraFrameworkDependency.methods := ["auto"];
     ExtraFrameworkDependency.name := None;
     ExtraFrameworkDependency.path := None |}.

(** ** The cache of the pkg-config binary (class_pkgbin) *)

Definition is_check (e : event) : bool :=
  match e with EvCheckPkgconfig => true | _ => false end.

Definition is_write (e : event) : bool :=
  match e with EvSetClassPkgbin _ => true | _ => false end.

(** How often [check_pkgconfig] ran and how often the class attribute
    was assigned, in a trace. *)
Definition searches (tr : list event) : nat := length (List.filter is_check tr).
Definition writes (tr : list event) : nat := length (List.filter is_write tr).

(** A request for a pkg-config dependency, with the host as it is when
    the request is made. *)
Record request := {
  req_world : World;
  req_name : string;
  req_environment : Environment;
  req_kwargs : gmap string value;
}.

Definition native (r : request) : Prop :=
  PkgConfigDependency.want_cross_of (req_environment r) (req_kwargs r) = false.

Definition construct (r : request) : M PkgConfigDependency.t :=
  PkgConfigDependency.__init__ (req_world r) (req_name r) (req_environment r) (req_kwargs r).

(** The constructions of a process, one after the other; an exception
    ends a construction, not the process. *)
Fixpoint run_constructions (rs : list request) (st : State) : State :=
  match rs with
  | [] => st
  | r :: rest => run_constructions rest (snd (construct r st))
  end.

Definition searched (b : pkgbin_val) (st : State) : State :=
  {| class_pkgbin := b;
     trace := trace st ++ [EvCheckPkgconfig; EvSetClassPkgbin b] |}.

(** The command that [check_pkgconfig] tries: the PKG_CONFIG variable
    of the environment, stripped, or [pkg-config]. *)
Definition pkgconfig_command (w : World) : string :=
  match environ w !! "PKG_CONFIG" with
  | Some v => Str.strip v
  | None => "pkg-config"
  end.

(** The search for pkg-config completes on the host: the launch of the
    version query does not end in an exception that [check_pkgconfig]
    lets through. *)
Definition search_completes (w : World) : Prop :=
  match Popen_safe w [pkgconfig_command w; "--version"] with
  | Launched _ _ _ => True
  | CannotLaunch e => caught_on_launch e = true
  end.

(** The state after a search that ended in an exception: it ran, and
    nothing was assigned. *)
Definition search_raised (st : State) : State :=
  {| class_pkgbin := class_pkgbin st; trace := trace st ++ [EvCheckPkgconfig] |}.

(** The states of a process that made native constructions only, each
    on a host where the search completes. *)
Definition cache_invariant (st : State) : Prop :=
  st = initial_state \/ exists b, b <> PkgNone /\ st = searched b initial_state.

(** The attribute is unset and was never assigned, or it is set and was
    assigned once. *)
Definition written_once (st : State) : Prop :=
  (class_pkgbin st = PkgNone /\ writes (trace st) = 0%nat)
  \/ (class_pkgbin st <> PkgNone /\ writes (trace st) = 1%nat).

(** The launch of any command ends in [OSError], as when the file found
    on PATH is not in a format the system can execute. *)
Definition linux_exec_error : World :=
  host false (fun _ => CannotLaunch (LaunchOther OSError)) no_dir no_file no_text.

Definition request_on_exec_error (name : string) : request :=
  {| req_world := linux_exec_error; req_name := name; req_environment := native_build;
     req_kwargs := {[ "required" := VBool false ]} |}.

Definition request_foo : request :=
  {| req_world := linux_foo; req_name := "foo"; req_environment := native_build;
     req_kwargs := {[ "required" := VBool false ]} |}.

Definition request_bar : request :=
  {| req_world := linux_foo; req_name := "bar"; req_environment := native_build;
     req_kwargs := {[ "required" := VBool false ]} |}.

(** ** The flags of a dependency that pkg-config knows *)

(** The arguments of the link-flags query. *)
Definition libs_query (name : string) (static : value) : list string :=
  [name; "--libs"] ++ (if truthy static then ["--static"] else []).

(** The compile-flags query exits with a status other than zero, or it
    exits with zero and the link-flags query exits with another
    status. *)
Definition flags_query_fails (w : World) (p name : string) (static : value) : Prop :=
  exists c out err,
    Popen_safe w (p :: ["--cflags"; name]) = Launched c out err
    /\ (c <> 0
        \/ exists c2 out2 err2,
            Popen_safe w (p :: libs_query name static) = Launched c2 out2 err2
            /\ c2 <> 0).

(** The constraints of the [version] keyword hold of the version that
    was found, or there are none. *)
Definition version_satisfied (w : World) (kwargs : gmap string value) (v : string) : Prop :=
  match default VNone (kwargs !! "version") with
  | VNone => True
  | VStr s => exists nf f, version_compare_many w v [VStr s] = Ok (true, nf, f)
  | VList l => exists nf f, version_compare_many w v l = Ok (true, nf, f)
  | VBool _ => False
  end.

(** pkg-config knows [foo], but the compile flags cannot be had. *)
Definition popen_broken_cflags (cmd : list string) : popen :=
  match cmd with
  | [_; "--version"] => Launched 0 "0.29.1" ""
  | [_; "--modversion"; "foo"] => Launched 0 "2.4.3" ""
  | [_; "--cflags"; "foo"] => Launched 1 "Package bar, required by foo, not found" ""
  | _ => Launched 1 "" ""
  end.

Definition linux_broken_cflags : World :=
  host false popen_broken_cflags no_dir no_file no_text.

(** ** Libtool archives among the link arguments *)

(** A token that is not a libtool archive. *)
Definition plain_token (lib : string) : Prop := Str.endswith ".la" lib = false.

(** A line of the archive that does not set [dlname]. *)
Definition other_field (line : string) : Prop :=
  hd EmptyString (Str.split_on "=" (Str.strip line)) <> "dlname".

(** The shared object next to the archive, and the one in the [.libs]
    directory next to it. *)
Definition beside (lib so : string) : string :=
  posixpath.join (posixpath.dirname lib) [so].
Definition in_dot_libs (lib so : string) : string :=
  posixpath.join (posixpath.dirname lib) [".libs"; so].

(** An object for [foo] as it stands when [_set_libs] is called. *)
Definition foo_object : PkgConfigDependency.t :=
  {| PkgConfigDependency.type_name := "pkgconfig";
     PkgConfigDependency.methods := ["pkgconfig"];
     PkgConfigDependency.name := "foo";
     PkgConfigDependency.is_found := true;
     PkgConfigDependency.is_libtool := false;
     PkgConfigDependency.required := VBool true;
     PkgConfigDependency.static := VBool false;
     PkgConfigDependency.silent := VBool false;
     PkgConfigDependency.pkgbin := PkgPath "pkg-config";
     PkgConfigDependency.cargs := [];
     PkgConfigDependency.libs := [];
     PkgConfigDependency.want_cross := false;
     PkgConfigDependency.modversion := "2.4.3";
     PkgConfigDependency.type_string := Some "Native";
     PkgConfigDependency.version_reqs := Some VNone |}.

Definition popen_libtool (cmd : list string) : popen :=
  match cmd with
  | [_; "foo"; "--libs"] => Launched 0 "-L/usr/lib /usr/lib/libfoo.la -lm" ""
  | _ => Launched 1 "" ""
  end.

(** The archive as libtool writes it; the shared object is in [.libs]. *)
Definition quoted_archive (path : string) : option (list string) :=
  if Str.eqb path "/usr/lib/libfoo.la"
  then Some ["# libfoo.la - a libtool library file" +:+ Str.nl;
             "dlname='libfoo.so.1'" +:+ Str.nl;
             "libdir='/usr/lib'" +:+ Str.nl]
  else None.

Definition linux_libtool : World :=
  host false popen_libtool no_dir
    (fun path => Str.eqb path "/usr/lib/.libs/libfoo.so.1") quoted_archive.

(** The archive with the value of [dlname] bare, and the shared object
    beside it. *)
Definition bare_archive (path : string) : option (list string) :=
  if Str.eqb path "/usr/lib/libfoo.la"
  then Some ["dlname=libfoo.so.1" +:+ Str.nl]
  else None.

Definition linux_bare_archive : World :=
  host false popen_libtool no_dir
    (fun path => Str.eqb path "/usr/lib/libfoo.so.1") bare_archive.

(** ** Resolution of a name that no probe discovers *)

(** pkg-config, whichever binary is asked, does not know the module:
    the module-version query exits with a status other than zero. *)
Definition no_pkgconfig_module (w : World) (name : string) : Prop :=
  forall bin, exists c out err,
    Popen_safe w (bin :: ["--modversion"; name]) = Launched c out err /\ c <> 0.

(** The default framework root can be listed and the scan passes over
    every entry. *)
Definition no_framework (w : World) (name : string) : Prop :=
  exists entries,
    os_listdir w "/Library/Frameworks" = Some entries
    /\ Forall (passed_over w name "/Library/Frameworks") entries.

(** No binary answers at all: pkg-config is not installed. *)
Definition no_pkgconfig_binary (w : World) : Prop :=
  forall cmd, exists e, Popen_safe w cmd = CannotLaunch e.

(** The binary that the constructor settles on for the request, if it
    settles on one, does not know the module: its module-version query
    exits with a status other than zero. *)
Definition pkgconfig_reports_absent (w : World) (name : string)
    (environment : Environment) (kwargs : gmap string value) (st : State) : Prop :=
  forall self p st',
    PkgConfigDependency.init_attributes w name environment kwargs = Ok self ->
    PkgConfigDependency.find_pkgbin w self environment st = (Ok (PkgPath p), st') ->
    exists c out err,
      Popen_safe w (p :: ["--modversion"; name]) = Launched c out err /\ c <> 0.

(** No probe of the generic resolution discovers the name. *)
Definition undiscoverable (w : World) (name : string) (environment : Environment)
    (kwargs : gmap string value) (st : State) : Prop :=
  pkgconfig_reports_absent w name environment kwargs st
  /\ (is_osx w = true -> no_framework w name).

(** The request leaves the detection method to the code and its
    [static] keyword, if any, is a boolean. *)
Definition plain_request (kwargs : gmap string value) : Prop :=
  default (VStr "auto") (kwargs !! "method") = VStr "auto"
  /\ is_bool (default (VBool false) (kwargs !! "static")) = true.

(** The keywords are ones that the pkg-config constructor accepts: the
    method is left to the code or is ['pkgconfig'], and [static], if
    given, is a boolean. *)
Definition accepted_by_pkgconfig (kwargs : gmap string value) : Prop :=
  (default (VStr "auto") (kwargs !! "method") = VStr "auto"
   \/ kwargs !! "method" = Some (VStr "pkgconfig"))
  /\ is_bool (default (VBool false) (kwargs !! "static")) = true.

(** The search for pkg-config, if the construction makes one (a native
    construction in a process that has not cached the binary),
    completes. *)
Definition search_can_complete (w : World) (environment : Environment)
    (kwargs : gmap string value) (st : State) : Prop :=
  PkgConfigDependency.want_cross_of environment kwargs = false ->
  class_pkgbin st = PkgNone ->
  search_completes w.

(** The binary that the constructor settles on for the request, if it
    settles on one, does not answer the module-version query with
    status zero: it exits with another status or cannot be launched. *)
Definition pkgconfig_does_not_know (w : World) (name : string)
    (environment : Environment) (kwargs : gmap string value) (st : State) : Prop :=
  forall self p st' out err,
    PkgConfigDependency.init_attributes w name environment kwargs = Ok self ->
    PkgConfigDependency.find_pkgbin w self environment st = (Ok (PkgPath p), st') ->
    Popen_safe w (p :: ["--modversion"; name]) <> Launched 0 out err.

(** Every probe that the dispatcher runs for the request completes and
    discovers nothing. Off OSX the one probe is pkg-config: its
    constructor accepts the keywords, its search for the binary
    completes, and the binary reports the module absent. On OSX an
    exception of the pkg-config constructor is captured and the
    framework scan decides: pkg-config does not know the module, the
    method is left to the code, and the framework root is listed with
    every entry passed over. *)
Definition probes_find_nothing (w : World) (name : string) (environment : Environment)
    (kwargs : gmap string value) (st : State) : Prop :=
  if is_osx w then
    default (VStr "auto") (kwargs !! "method") = VStr "auto"
    /\ pkgconfig_does_not_know w name environment kwargs st
    /\ no_framework w name
  else
    accepted_by_pkgconfig kwargs
    /\ search_can_complete w environment kwargs st
    /\ pkgconfig_reports_absent w name environment kwargs st.

(** pkg-config is installed and knows nothing; no framework either. *)
Definition popen_empty (cmd : list string) : popen :=
  match cmd with
  | [_; "--version"] => Launched 0 "0.29.1" ""
  | _ => Launched 1 "" ""
  end.

Definition linux_empty : World := host false popen_empty no_dir no_file no_text.

(** No pkg-config on the host. *)
Definition linux_bare : World :=
  host false (fun _ => CannotLaunch LaunchFileNotFound) no_dir no_file no_text.
Definition osx_empty : World := host true popen_empty osx_frameworks no_file no_text.

(** OSX, pkg-config installed and knowing nothing; the one entry of the
    framework root is a link whose target is gone, so that [os.stat]
    raises on it. *)
Definition osx_broken_link : World :=
  {| environ := ∅;
     is_osx := true;
     is_windows := false;
     os_path := posixpath.os_path;
     Popen_safe := popen_empty;
     shutil_which := fun _ => None;
     path_exists := no_file;
     path_isfile := no_file;
     path_isdir := fun _ => false;
     os_access_X_OK := fun _ => false;
     os_listdir := fun root => if Str.eqb root "/Library/Frameworks"
                               then Some ["Foo.framework"] else None;
     os_stat_isdir := fun _ => None;
     open_lines := no_text;
     sys_executable := "/usr/bin/python3";
     version_compare_many := fun _ reqs => Ok (true, [], reqs);
     mlog_format_list := Str.join ", ";
     exn_text := fun _ => EmptyString;
     str_format_other := fun _ _ => Raise ValueError |}.

(** ** A required dependency that no probe discovers *)

Definition no_braces (s : string) : bool :=
  negb (Str.contains_char "{" s) && negb (Str.contains_char "}" s).

Definition tried_tail : string :=
  " not found, tried Extra Frameworks and Pkg-Config:" +:+ Str.nl +:+ Str.nl.

(** ** Hosts and notions of the further properties *)

(** A heap that holds the command list of the caller. *)
Definition moc_heap : ExternalProgram.heap := {[ 1%positive := [Some "/usr/bin/moc"] ]}.


(** A script in [/opt/bin] that is not marked executable. *)
Definition script_host : World :=
  host false (fun _ => CannotLaunch LaunchFileNotFound) no_dir
    (fun path => Str.eqb path "/opt/bin/run")
    (fun path => if Str.eqb path "/opt/bin/run"
                 then Some ["#!/bin/sh" +:+ Str.nl; "exec true" +:+ Str.nl]
                 else None).

(** The constraints of the [version] keyword as the constructor hands
    them to [version_compare_many]; [None] when there are none to
    check. *)
Definition requested_versions (kwargs : gmap string value) : option (list value) :=
  match default VNone (kwargs !! "version") with
  | VStr s => Some [VStr s]
  | VList l => Some l
  | VNone | VBool _ => None
  end.

(** pkg-config knows [foo] 2.4.3 and the request wants another
    version: [version_compare_many] answers that the constraint is not
    met. *)
Definition linux_foo_too_old : World :=
  {| environ := environ linux_foo;
     is_osx := false;
     is_windows := false;
     os_path := posixpath.os_path;
     Popen_safe := popen_foo;
     shutil_which := shutil_which linux_foo;
     path_exists := no_file;
     path_isfile := no_file;
     path_isdir := path_isdir linux_foo;
     os_access_X_OK := os_access_X_OK linux_foo;
     os_listdir := no_dir;
     os_stat_isdir := os_stat_isdir linux_foo;
     open_lines := no_text;
     sys_executable := sys_executable linux_foo;
     version_compare_many := fun _ reqs => Ok (false, reqs, []);
     mlog_format_list := mlog_format_list linux_foo;
     exn_text := exn_text linux_foo;
     str_format_other := str_format_other linux_foo |}.

(** The state after [class_pkgbin] was assigned without a search, as a
    cross construction does. *)
Definition assigned (b : pkgbin_val) (st : State) : State :=
  {| class_pkgbin := b; trace := trace st ++ [EvSetClassPkgbin b] |}.

(** A cross build whose cross file names [arm-pkg-config]. *)
Definition cross_build : Environment :=
  {| is_cross_build := true;
     cross_binaries := {[ "pkgconfig" := "arm-pkg-config" ]} |}.

(** A cross build whose cross file names no pkg-config. *)
Definition cross_build_without_pkgconfig : Environment :=
  {| is_cross_build := true; cross_binaries := ∅ |}.

(** The cross pkg-config is on PATH and knows [foo]. *)
Definition linux_cross : World :=
  {| environ := ∅;
     is_osx := false;
     is_windows := false;
     os_path := posixpath.os_path;
     Popen_safe := popen_foo;
     shutil_which := fun name => if Str.eqb name "arm-pkg-config"
                                 then Some "/opt/cross/bin/arm-pkg-config" else None;
     path_exists := no_file;
     path_isfile := no_file;
     path_isdir := fun _ => false;
     os_access_X_OK := fun _ => false;
     os_listdir := no_dir;
     os_stat_isdir := fun _ => None;
     open_lines := no_text;
     sys_executable := "/usr/bin/python3";
     version_compare_many := fun _ reqs => Ok (true, [], reqs);
     mlog_format_list := Str.join ", ";
     exn_text := fun _ => EmptyString;
     str_format_other := fun _ _ => Raise ValueError |}.

Definition cross_request_foo : request :=
  {| req_world := linux_cross; req_name := "foo"; req_environment := cross_build;
     req_kwargs := {[ "required" := VBool false ]} |}.

Definition native_request_in_cross_build : request :=
  {| req_world := linux_cross; req_name := "bar"; req_environment := cross_build;
     req_kwargs := {[ "required" := VBool false; "native" := VBool true ]} |}.

(** The version query of that command exits with a status other than
    zero, or its launch ends in one of the two exceptions that
    [check_pkgconfig] catches, [FileNotFoundError] and
    [PermissionError]. *)
Definition pkgconfig_unusable (w : World) : Prop :=
  match Popen_safe w [pkgconfig_command w; "--version"] with
  | Launched returncode _ _ => returncode <> 0
  | CannotLaunch e => caught_on_launch e = true
  end.

Definition request_on (w : World) (name : string) (kwargs : gmap string value) : request :=
  {| req_world := w; req_name := name; req_environment := native_build;
     req_kwargs := kwargs |}.

(** pkg-config answers a libtool archive for [foo]; the archive names
    no shared object. *)
Definition linux_archive_without_dlname : World :=
  host false popen_libtool no_dir no_file
    (fun f => if Str.eqb f "/usr/lib/libfoo.la"
              then Some ["# libfoo.la - a libtool library file" +:+ Str.nl;
                         "libdir='/usr/lib'" +:+ Str.nl]
              else None).

(** OSX; the archive of [foo] is in [/opt/build] and names the install
    directory [/usr/local/lib], where the shared object is. *)
Definition osx_archive (path : string) : option (list string) :=
  if Str.eqb path "/opt/build/libfoo.la"
  then Some ["dlname='libfoo.1.dylib'" +:+ Str.nl;
             "libdir='/usr/local/lib'" +:+ Str.nl]
  else None.

Definition popen_osx_archive (cmd : list string) : popen :=
  match cmd with
  | [_; "foo"; "--libs"] => Launched 0 "/opt/build/libfoo.la -lm" ""
  | _ => Launched 1 "" ""
  end.

Definition osx_libtool : World :=
  host true popen_osx_archive no_dir
    (fun path => Str.eqb path "/usr/local/lib/libfoo.1.dylib") osx_archive.

(** OSX; the framework root holds a link named like the framework whose
    target is gone, ahead of the framework itself. *)
Definition osx_dangling : World :=
  {| environ := ∅;
     is_osx := true;
     is_windows := false;
     os_path := posixpath.os_path;
     Popen_safe := fun _ => CannotLaunch LaunchFileNotFound;
     shutil_which := fun _ => None;
     path_exists := no_file;
     path_isfile := no_file;
     path_isdir := fun _ => false;
     os_access_X_OK := fun _ => false;
     os_listdir := fun root => if Str.eqb root "/Library/Frameworks"
                               then Some ["Foo.old"; "Foo.framework"] else None;
     os_stat_isdir := fun p => if Str.eqb p "/Library/Frameworks/Foo.old"
                               then None else Some true;
     open_lines := no_text;
     sys_executable := "/usr/bin/python3";
     version_compare_many := fun _ reqs => Ok (true, [], reqs);
     mlog_format_list := Str.join ", ";
     exn_text := fun _ => EmptyString;
     str_format_other := fun _ _ => Raise ValueError |}.

(** ** The identity key of two requests *)

(** The module list of a request as the key holds it. *)
Definition modules_of (kwargs : gmap string value) : list value :=
  match default (VList []) (kwargs !! "modules") with
  | VStr s => [VStr s]
  | VList l => l
  | VNone | VBool _ => []
  end.

(** The two elements of the fallback that the key holds, if the request
    has a fallback. *)
Definition fallback_of (kwargs : gmap string value) : option (result value * result value) :=
  match kwargs !! "fallback" with
  | Some f => Some (py_getitem f 0, py_getitem f 1)
  | None => None
  end.

(** ** Kinds that try pkg-config first *)

(** The object that the pkg-config constructor builds for the name when
    it builds one that is found. *)
Definition pkgconfig_finds (w : World) (name : string) (environment : Environment)
    (kwargs : gmap string value) (st : State) : option PkgConfigDependency.t :=
  match PkgConfigDependency.__init__ w name environment kwargs st with
  | (Ok d, _) => if PkgConfigDependency.found d then Some d else None
  | (Raise _, _) => None
  end.

(** The state that the pkg-config constructor leaves. *)
Definition after_pkgconfig_attempt (w : World) (name : string) (environment : Environment)
    (kwargs : gmap string value) (st : State) : State :=
  snd (PkgConfigDependency.__init__ w name environment kwargs st).

(** No pkg-config; [sdl2-config] is on PATH and exits with status 1
    whatever it is asked, printing what it can. *)
Definition popen_sdl2_config (cmd : list string) : popen :=
  match cmd with
  | ["sdl2-config"; "--cflags"] => Launched 1 "-I/usr/include/SDL2 -D_REENTRANT" ""
  | ["sdl2-config"; "--libs"] => Launched 1 "-lSDL2" ""
  | ["sdl2-config"; "--version"] => Launched 1 ("2.0.5" +:+ Str.nl) ""
  | _ => CannotLaunch LaunchFileNotFound
  end.

Definition linux_sdl2_config : World :=
  {| environ := ∅;
     is_osx := false;
     is_windows := false;
     os_path := posixpath.os_path;
     Popen_safe := popen_sdl2_config;
     shutil_which := fun name => if Str.eqb name "sdl2-config"
                                 then Some "/usr/bin/sdl2-config" else None;
     path_exists := no_file;
     path_isfile := no_file;
     path_isdir := fun _ => false;
     os_access_X_OK := fun _ => false;
     os_listdir := no_dir;
     os_stat_isdir := fun _ => None;
     open_lines := no_text;
     sys_executable := "/usr/bin/python3";
     version_compare_many := fun _ reqs => Ok (true, [], reqs);
     mlog_format_list := Str.join ", ";
     exn_text := fun _ => EmptyString;
     str_format_other := fun _ _ => Raise ValueError |}.

(** ** wx-config *)

(** [wx-config] is installed and answers every query. *)
Definition popen_wx (cmd : list string) : popen :=
  match cmd with
  | ["wx-config"; "--version"] => Launched 0 ("3.0.2" +:+ Str.nl) ""
  | ["wx-config"; "--cxxflags"] => Launched 0 "-I/usr/include/wx-3.0 -D__WXGTK__" ""
  | "wx-config" :: "--libs" :: _ => Launched 0 "-lwx_gtk2u_core-3.0 -lwx_baseu-3.0" ""
  | _ => CannotLaunch LaunchFileNotFound
  end.

Definition linux_wx : World :=
  {| environ := ∅;
     is_osx := false;
     is_windows := false;
     os_path := posixpath.os_path;
     Popen_safe := popen_wx;
     shutil_which := fun name => if Str.eqb name "wx-config"
                                 then Some "/usr/bin/wx-config" else None;
     path_exists := no_file;
     path_isfile := no_file;
     path_isdir := fun _ => false;
     os_access_X_OK := fun _ => false;
     os_listdir := no_dir;
     os_stat_isdir := fun _ => None;
     open_lines := no_text;
     sys_executable := "/usr/bin/python3";
     version_compare_many := fun _ reqs => Ok (true, [], reqs);
     mlog_format_list := Str.join ", ";
     exn_text := fun _ => EmptyString;
     str_format_other := fun _ _ => Raise ValueError |}.

Definition any_version : string -> value -> result bool := fun _ _ => Ok true.

(** ** gnustep-config *)

(** [gnustep-config --help] can be launched and exits with zero. *)
Definition gnustep_config_answers (w : World) : bool :=
  match Popen_safe w [GnuStepDependency.confprog; "--help"] with
  | Launched returncode _ _ => returncode =? 0
  | CannotLaunch _ => false
  end.

(** There is no usable [gnustep-config]: [gnustep-config --help] exits
    with a status other than zero, or its launch ends in one of the two
    exceptions that [detect] catches, [FileNotFoundError] and
    [PermissionError]. *)
Definition gnustep_config_missing (w : World) : Prop :=
  match Popen_safe w [GnuStepDependency.confprog; "--help"] with
  | Launched returncode _ _ => returncode <> 0
  | CannotLaunch e => caught_on_launch e = true
  end.

(** A host with GNUstep: the flags come with optimisation and warning
    options, and the output of [make] shows through the libraries. *)
Definition popen_gnustep (cmd : list string) : popen :=
  match cmd with
  | ["gnustep-config"; "--help"] => Launched 0 "usage" ""
  | ["gnustep-config"; "--objc-flags"] =>
      Launched 0 "-O2 -Wall -Wno-import -fgnu-runtime -I/usr/include/GNUstep -pthread" ""
  | ["gnustep-config"; "--base-libs"] =>
      Launched 0 "make[1]: Entering -lgnustep-base -lobjc" ""
  | ["gnustep-config"; "--variable=GNUMAKE"] => Launched 0 ("make" +:+ Str.nl) ""
  | ["gnustep-config"; "--variable=GNUSTEP_MAKEFILES"] =>
      Launched 0 ("/usr/share/GNUstep/Makefiles" +:+ Str.nl) ""
  | _ => CannotLaunch LaunchFileNotFound
  end.

Definition linux_gnustep : World := host false popen_gnustep no_dir no_file no_text.

(** [make] prints nothing. *)
Definition silent_make : gmap string string -> string -> list string -> popen :=
  fun _ _ _ => Launched 0 "" "".

(** ** The Python of the host *)

(** A host that is not Windows does not reach [_find_libpy3_windows]. *)
Definition no_sysconfig : Environment -> Python3Dependency.t -> result Python3Dependency.t :=
  fun _ _ => Raise OSError.

(** ** valgrind *)

(** pkg-config knows [valgrind] and its link flags. *)
Definition popen_valgrind (cmd : list string) : popen :=
  match cmd with
  | [_; "--version"] => Launched 0 "0.29.1" ""
  | [_; "--modversion"; "valgrind"] => Launched 0 "3.12.0" ""
  | [_; "--cflags"; "valgrind"] => Launched 0 "-I/usr/include/valgrind" ""
  | [_; "valgrind"; "--libs"] => Launched 0 "-L/usr/lib/valgrind -lcoregrind" ""
  | _ => Launched 1 "" ""
  end.

Definition linux_valgrind : World := host false popen_valgrind no_dir no_file no_text.

(** * Properties *)

(** ** Python strings *)

Example lower_ex : Str.lower "SDL2.Framework" = "sdl2.framework".
Proof. reflexivity. Qed.
Example split_on_ex : Str.split_on "." "SDL2.framework" = ["SDL2"; "framework"].
Proof. reflexivity. Qed.
Example split_on_empty_ex : Str.split_on "=" "" = [""].
Proof. reflexivity. Qed.
Example split_ex : Str.split "  -lfoo   /usr/lib/libbar.la " = ["-lfoo"; "/usr/lib/libbar.la"].
Proof. reflexivity. Qed.
Example strip_ex : Str.strip "  a b  " = "a b".
Proof. reflexivity. Qed.
Example strip_ends_ex : Str.strip_ends "'libfoo.so.1'" = "libfoo.so.1".
Proof. reflexivity. Qed.
Example strip_ends_short_ex : Str.strip_ends "a" = "" /\ Str.strip_ends "ab" = "".
Proof. split; reflexivity. Qed.
Example endswith_ex : Str.endswith ".la" "/usr/lib/libfoo.la" = true /\ Str.endswith ".la" "la" = false.
Proof. split; reflexivity. Qed.
Example repr_ex : Str.repr "foo" = "'foo'" /\ Str.repr "a'b" = String Str.dquote ("a'b" +:+ Str.of_char Str.dquote).
Proof. split; reflexivity. Qed.

(** ** os.path *)

Example join_ex : posixpath.join "/Library/Frameworks" ["SDL2.framework"; "Headers"] = "/Library/Frameworks/SDL2.framework/Headers".
Proof. reflexivity. Qed.
Example join_abs_ex : posixpath.join "/a" ["/b"; "c"] = "/b/c" /\ posixpath.join "" ["c"] = "c" /\ posixpath.join "/a/" ["c"] = "/a/c".
Proof. repeat split; reflexivity. Qed.
Example dirname_ex : posixpath.dirname "/usr/lib/libfoo.la" = "/usr/lib" /\ posixpath.dirname "libfoo.la" = "" /\ posixpath.dirname "/libfoo.la" = "/" /\ posixpath.dirname "//x" = "//".
Proof. repeat split; reflexivity. Qed.
Example basename_ex : posixpath.basename "/usr/lib/libfoo.so.1" = "libfoo.so.1" /\ posixpath.basename "libfoo.so.1" = "libfoo.so.1" /\ posixpath.basename "a/" = "".
Proof. repeat split; reflexivity. Qed.
Example splitext_ex : posixpath.splitext "/a.b/prog.EXE" = ("/a.b/prog", ".EXE") /\ posixpath.splitext "/a.b/prog" = ("/a.b/prog", "") /\ posixpath.splitext ".bashrc" = (".bashrc", "") /\ posixpath.splitext "a..b" = ("a.", ".b").
Proof. repeat split; reflexivity. Qed.

(** ** str.format *)

Example format_go_ex : format_go ["foo"] 0 None "Dependency {!r} not found" = FmtOk "Dependency 'foo' not found".
Proof. reflexivity. Qed.
Example format_go_key_ex : format_go ["a{b}"] 0 None "x {!r} y 'a{b}' z" = FmtRaise (KeyError "b").
Proof. reflexivity. Qed.
Example format_go_index_ex : format_go ["a"] 0 None "{!r} {}" = FmtRaise IndexError.
Proof. reflexivity. Qed.
Example format_go_escape_ex : format_go ["a"] 0 None "{{}} {!s}" = FmtOk "{} a".
Proof. reflexivity. Qed.

(** ** get_dep_identifier *)

Example get_dep_identifier_ex :
  get_dep_identifier "boost" {[ "modules" := VList [VStr "thread"; VStr "system"]; "static" := VBool true ]}
  = Ok [VStr "boost"; VStr "thread"; VStr "system"; VStr "main"; VBool false; VStr "static"; VBool true].
Proof. vm_compute. reflexivity. Qed.

(** ** The dispatcher on a pkg-config fixture *)

Example find_foo :
  exists d st,
    find_external_dependency no_kinds linux_foo "foo" native_build
      {[ "version" := VList [VStr ">=2.0"] ]} initial_state = (Ok (PkgConfigObject d), st)
    /\ PkgConfigDependency.is_found d = true
    /\ PkgConfigDependency.get_version d = "2.4.3"
    /\ PkgConfigDependency.get_compile_args d = ["-I/usr/include/foo"]
    /\ PkgConfigDependency.get_link_args d = ["-lfoo"]
    /\ st = {| class_pkgbin := PkgPath "pkg-config";
               trace := [EvCheckPkgconfig; EvSetClassPkgbin (PkgPath "pkg-config")] |}.
Proof. eexists _, _. vm_compute. repeat split. Qed.

(** ** The detection method (Dependency.__init__) *)

Lemma is_str_true v s : is_str v s = true <-> v = VStr s.
Proof.
  destruct v; simpl; try (split; [discriminate | discriminate]).
  unfold Str.eqb. rewrite bool_decide_eq_true. split; congruence.
Qed.

(** With [method='auto'], or no [method] at all, every declared method
    is enabled. *)
Lemma Dependency_init_auto w cls tn (kw : gmap string value) :
  default (VStr "auto") (kw !! "method") = VStr "auto" ->
  Dependency.__init__ w cls tn kw
  = Ok {| Dependency.name := "null"; Dependency.is_found := false;
          Dependency.type_name := tn; Dependency.methods := get_methods w cls |}.
Proof. intros H. unfold Dependency.__init__. rewrite H. reflexivity. Qed.

(** With a declared method, exactly that one is enabled. *)
Lemma Dependency_init_declared w cls tn (kw : gmap string value) m :
  kw !! "method" = Some (VStr m) -> m <> "auto" -> m ∈ get_methods w cls ->
  Dependency.__init__ w cls tn kw
  = Ok {| Dependency.name := "null"; Dependency.is_found := false;
          Dependency.type_name := tn; Dependency.methods := [m] |}.
Proof.
  intros H Hne Hin. unfold Dependency.__init__. rewrite H. simpl.
  unfold Str.eqb. rewrite bool_decide_eq_false_2 by exact Hne.
  rewrite bool_decide_eq_true_2 by exact Hin. reflexivity.
Qed.

(** A method that is neither ['auto'] nor declared is a
    [MesonException]. *)
Lemma Dependency_init_unsupported w cls tn (kw : gmap string value) v :
  kw !! "method" = Some v -> v <> VStr "auto" ->
  (forall m, v = VStr m -> m ∉ get_methods w cls) ->
  Dependency.__init__ w cls tn kw
  = Raise (MesonException (Dependency.unsupported_method w v (get_methods w cls))).
Proof.
  intros H Hne Hnot. unfold Dependency.__init__. rewrite H. simpl.
  destruct (is_str v "auto") eqn:E.
  - apply is_str_true in E. contradiction.
  - unfold Dependency.declared_method. destruct v; try reflexivity.
    rewrite bool_decide_eq_false_2; [reflexivity | apply Hnot; reflexivity].
Qed.

(** C8. [ThreadDependency] is a variant that never reaches the check of
    the method keyword: whatever the keyword is, an undeclared method or
    ['auto'], its construction through the dispatcher ends in
    [TypeError], which is not a [MesonException], and enables no
    method. *)
Theorem thread_dependency_method_TypeError :
  forall k w environment st method,
    find_external_dependency k w "threads" environment {[ "method" := VStr method ]} st
    = (Raise TypeError, st)
    /\ is_MesonException TypeError = false.
Proof. intros. split; reflexivity. Qed.

(** ** The identity key (get_dep_identifier) *)

Lemma app_inv_tail_value (l1 l2 t : list value) : l1 ++ t = l2 ++ t -> l1 = l2.
Proof. apply app_inv_tail. Qed.

(** C9. The key depends on the request through [name] and the keywords
    [modules], [main], [static] and [fallback] only; a [modules] given
    as the string [s] yields the key of the list [[s]]; and two requests
    that differ in their module lists only, in particular lists of the
    same elements in another order, yield different keys. *)
Theorem get_dep_identifier_key :
  (forall name (kw1 kw2 : gmap string value),
      kw1 !! "modules" = kw2 !! "modules" -> kw1 !! "main" = kw2 !! "main" ->
      kw1 !! "static" = kw2 !! "static" -> kw1 !! "fallback" = kw2 !! "fallback" ->
      get_dep_identifier name kw1 = get_dep_identifier name kw2)
  /\ (forall name (kw : gmap string value) s,
         get_dep_identifier name (<["modules" := VStr s]> kw)
         = get_dep_identifier name (<["modules" := VList [VStr s]]> kw))
  /\ (forall name (kw : gmap string value) (l1 l2 : list value) k1,
         l1 ≡ₚ l2 -> l1 <> l2 ->
         get_dep_identifier name (<["modules" := VList l1]> kw) = Ok k1 ->
         exists k2, get_dep_identifier name (<["modules" := VList l2]> kw) = Ok k2
                    /\ k1 <> k2).
Proof.
  split; [|split].
  - intros name kw1 kw2 Hm Hn Hs Hf. unfold get_dep_identifier.
    rewrite Hm, Hn, Hs, Hf. reflexivity.
  - intros name kw s. unfold get_dep_identifier.
    rewrite !lookup_insert_eq. rewrite !lookup_insert_ne by discriminate.
    reflexivity.
  - intros name kw l1 l2 k1 _ Hne. unfold get_dep_identifier.
    rewrite !lookup_insert_eq. rewrite !lookup_insert_ne by discriminate. simpl.
    destruct (kw !! "fallback") as [f|].
    + destruct (py_getitem f 0) as [f0|]; simpl; [|discriminate].
      destruct (py_getitem f 1) as [f1|]; simpl; [|discriminate].
      intros [= <-]. eexists. split; [reflexivity|].
      intros [= H]. apply Hne. rewrite <- !app_assoc in H.
      eapply app_inv_tail. exact H.
    + intros [= <-]. eexists. split; [reflexivity|].
      intros [= H]. apply Hne. rewrite <- !app_assoc in H.
      eapply app_inv_tail. exact H.
Qed.

Lemma get_dep_identifier_key_witness :
  get_dep_identifier "boost" {[ "modules" := VStr "thread"; "required" := VBool false ]}
  = get_dep_identifier "boost" {[ "modules" := VStr "thread" ]}
  /\ exists k2,
      get_dep_identifier "boost" (<["modules" := VList [VStr "system"; VStr "thread"]]> ∅) = Ok k2
      /\ [VStr "boost"; VStr "thread"; VStr "system"; VStr "main"; VBool false;
          VStr "static"; VBool false] <> k2.
Proof.
  destruct get_dep_identifier_key as (H1 & _ & H3). split.
  - apply H1; reflexivity.
  - apply (H3 "boost" ∅ [VStr "thread"; VStr "system"] [VStr "system"; VStr "thread"]).
    + apply Permutation_swap.
    + discriminate.
    + reflexivity.
Defined.

(** ** The command of an external program (ExternalProgram.get_command) *)

Section get_command.
Import ExternalProgram.

Lemma alloc_fresh (h : heap) v l h' :
  alloc h v = (l, h') -> h !! l = None /\ h' = <[l := v]> h.
Proof.
  unfold alloc. intros [= <- <-]. split; [|reflexivity].
  apply not_elem_of_dom. apply is_fresh.
Qed.

Lemma mutate_other (l l' : loc) f (h : heap) :
  l <> l' -> mutate l f h !! l' = h !! l'.
Proof. intros H. unfold mutate. apply lookup_alter_ne. exact H. Qed.

Lemma mutations_other (l l' : loc) fs (h : heap) :
  l <> l' -> foldl (fun h f => mutate l f h) h fs !! l' = h !! l'.
Proof.
  intros H. revert h. induction fs as [|f fs IH]; intros h; simpl.
  - reflexivity.
  - rewrite IH. apply mutate_other. exact H.
Qed.

Lemma found_depends_on_command (p : t) (h1 h2 : heap) :
  h1 !! command p = h2 !! command p -> found p h1 = found p h2.
Proof. intros H. unfold found, deref. rewrite H. reflexivity. Qed.

Lemma get_path_depends_on_command (p : t) (h1 h2 : heap) :
  h1 !! command p = h2 !! command p -> get_path p h1 = get_path p h2.
Proof.
  intros H. unfold get_path. rewrite (found_depends_on_command p h1 h2 H).
  unfold deref. rewrite H. reflexivity.
Qed.

End get_command.

(** C10. [get_command] hands back a new list with the elements of the
    stored command: whatever is done in place to the list it returned,
    the stored command, [found()] and [get_path()] stay as they were. *)
Theorem get_command_returns_copy :
  forall (p : ExternalProgram.t) (h : ExternalProgram.heap) cmd l h',
    h !! ExternalProgram.command p = Some cmd ->
    ExternalProgram.get_command p h = (l, h') ->
    l <> ExternalProgram.command p
    /\ h' !! l = Some cmd
    /\ forall (fs : list (list (option string) -> list (option string))) h'',
        h'' = foldl (fun h f => ExternalProgram.mutate l f h) h' fs ->
        h'' !! ExternalProgram.command p = Some cmd
        /\ ExternalProgram.found p h'' = ExternalProgram.found p h
        /\ ExternalProgram.get_path p h'' = ExternalProgram.get_path p h.
Proof.
  intros p h cmd l h' Hcmd Hget. unfold ExternalProgram.get_command in Hget.
  apply alloc_fresh in Hget as [Hfresh ->].
  assert (Hne : l <> ExternalProgram.command p) by congruence.
  unfold ExternalProgram.deref. rewrite Hcmd. simpl.
  split; [exact Hne|]. split; [apply lookup_insert_eq|].
  intros fs h'' ->.
  assert (Hsame : foldl (fun h f => ExternalProgram.mutate l f h) (<[l:=cmd]> h) fs
                    !! ExternalProgram.command p = h !! ExternalProgram.command p).
  { rewrite mutations_other by exact Hne.
    apply lookup_insert_ne. exact Hne. }
  split; [congruence|]. split.
  - apply found_depends_on_command. exact Hsame.
  - apply get_path_depends_on_command. exact Hsame.
Qed.

Lemma get_command_returns_copy_witness :
  let h : ExternalProgram.heap := {[ 1%positive := [Some "/usr/bin/pkg-config"] ]} in
  let '(l, h') := ExternalProgram.get_command pkg_config_program h in
  let h'' := ExternalProgram.mutate l (fun _ => [None]) h' in
  h'' !! l = Some [None]
  /\ ExternalProgram.found pkg_config_program h'' = Ok true
  /\ ExternalProgram.get_path pkg_config_program h'' = Ok (Some "/usr/bin/pkg-config").
Proof.
  intros h.
  destruct (ExternalProgram.get_command pkg_config_program h) as [l h'] eqn:E.
  destruct (get_command_returns_copy pkg_config_program h _ l h' eq_refl E)
    as (Hne & Hl & Hfs).
  destruct (Hfs [fun _ => [None]] _ eq_refl) as (_ & Hfound & Hpath). simpl in *.
  split; [|split].
  - unfold ExternalProgram.mutate. rewrite lookup_alter_eq, Hl. reflexivity.
  - rewrite Hfound. reflexivity.
  - rewrite Hpath. reflexivity.
Defined.

(** ** The framework scan (ExtraFrameworkDependency) *)

Lemma detect_entries_first_match w name root pre d post :
  Forall (passed_over w name root) pre ->
  name_matches name d = true ->
  os_stat_isdir w (path_join (os_path w) root [d]) = Some true ->
  ExtraFrameworkDependency.detect_entries w (Str.lower name) root (pre ++ d :: post)
  = Ok (Some d).
Proof.
  intros Hpre Hd Hdir. induction Hpre as [|e pre He _ IH]; simpl.
  - unfold name_matches in Hd. rewrite Hd. simpl. rewrite Hdir. reflexivity.
  - destruct He as [He|He].
    + unfold name_matches in He. rewrite He. simpl. exact IH.
    + destruct (Str.eqb _ _); simpl; [rewrite He|]; exact IH.
Qed.

Lemma detect_entries_no_match w name root entries :
  Forall (passed_over w name root) entries ->
  ExtraFrameworkDependency.detect_entries w (Str.lower name) root entries = Ok None.
Proof.
  intros H. induction H as [|e l He _ IH]; simpl; [reflexivity|].
  destruct He as [He|He].
  - unfold name_matches in He. rewrite He. simpl. exact IH.
  - destruct (Str.eqb _ _); simpl; [rewrite He|]; exact IH.
Qed.

Lemma detect_entries_unexaminable w name root pre d post :
  Forall (passed_over w name root) pre ->
  name_matches name d = true ->
  os_stat_isdir w (path_join (os_path w) root [d]) = None ->
  ExtraFrameworkDependency.detect_entries w (Str.lower name) root (pre ++ d :: post)
  = Raise OSError.
Proof.
  intros Hpre Hd Hdir. induction Hpre as [|e pre He _ IH]; simpl.
  - unfold name_matches in Hd. rewrite Hd. simpl. rewrite Hdir. reflexivity.
  - destruct He as [He|He].
    + unfold name_matches in He. rewrite He. simpl. exact IH.
    + destruct (Str.eqb _ _); simpl; [rewrite He|]; exact IH.
Qed.

(** The scan of one listing stops at the first entry that matches and
    is not known to be something else than a directory. *)
Lemma detect_entries_outcome w name root entries :
  (Forall (passed_over w name root) entries
   /\ ExtraFrameworkDependency.detect_entries w (Str.lower name) root entries = Ok None)
  \/ exists pre e post,
       entries = pre ++ e :: post
       /\ Forall (passed_over w name root) pre
       /\ name_matches name e = true
       /\ ((os_stat_isdir w (path_join (os_path w) root [e]) = Some true
            /\ ExtraFrameworkDependency.detect_entries w (Str.lower name) root entries
               = Ok (Some e))
           \/ (os_stat_isdir w (path_join (os_path w) root [e]) = None
               /\ ExtraFrameworkDependency.detect_entries w (Str.lower name) root entries
                  = Raise OSError)).
Proof.
  induction entries as [|d rest IH].
  - left. split; [constructor | reflexivity].
  - assert (Hskip : passed_over w name root d ->
                    ExtraFrameworkDependency.detect_entries w (Str.lower name) root (d :: rest)
                    = ExtraFrameworkDependency.detect_entries w (Str.lower name) root rest).
    { intros [He|He]; simpl.
      - unfold name_matches in He. rewrite He. reflexivity.
      - destruct (Str.eqb _ _); simpl; [rewrite He|]; reflexivity. }
    assert (Hrec : passed_over w name root d ->
              (Forall (passed_over w name root) (d :: rest)
               /\ ExtraFrameworkDependency.detect_entries w (Str.lower name) root (d :: rest)
                  = Ok None)
              \/ exists pre e post,
                   d :: rest = pre ++ e :: post
                   /\ Forall (passed_over w name root) pre
                   /\ name_matches name e = true
                   /\ ((os_stat_isdir w (path_join (os_path w) root [e]) = Some true
                        /\ ExtraFrameworkDependency.detect_entries w (Str.lower name) root
                             (d :: rest) = Ok (Some e))
                       \/ (os_stat_isdir w (path_join (os_path w) root [e]) = None
                           /\ ExtraFrameworkDependency.detect_entries w (Str.lower name) root
                                (d :: rest) = Raise OSError))).
    { intros Hd. rewrite (Hskip Hd).
      destruct IH as [[Hall Hn]|(pre & e & post & Hrest & Hpre & He & Hout)].
      - left. split; [constructor; assumption | exact Hn].
      - right. exists (d :: pre), e, post.
        split; [rewrite Hrest; reflexivity|].
        split; [constructor; assumption|].
        split; [exact He | exact Hout]. }
    destruct (name_matches name d) eqn:Hm.
    + destruct (os_stat_isdir w (path_join (os_path w) root [d])) as [[|]|] eqn:Hs.
      * right. exists [], d, rest.
        split; [reflexivity|]. split; [constructor|]. split; [exact Hm|].
        left. split; [exact Hs|]. simpl.
        unfold name_matches in Hm. rewrite Hm. simpl. rewrite Hs. reflexivity.
      * apply Hrec. right. exact Hs.
      * right. exists [], d, rest.
        split; [reflexivity|]. split; [constructor|]. split; [exact Hm|].
        right. split; [exact Hs|]. simpl.
        unfold name_matches in Hm. rewrite Hm. simpl. rewrite Hs. reflexivity.
    + apply Hrec. left. exact Hm.
Qed.

Lemma endswith_sep_absent d :
  Str.contains_char "/" d = false -> Str.endswith "/" d = false.
Proof.
  induction d as [|c r IH]; simpl; [reflexivity|].
  intros H. apply orb_false_elim in H as [Hc Hr].
  rewrite (IH Hr), orb_false_r. unfold Str.eqb.
  apply bool_decide_eq_false_2. intros [= -> _]. discriminate.
Qed.

Lemma endswith_sep_app a d :
  d <> EmptyString -> Str.contains_char "/" d = false ->
  Str.endswith "/" (a +:+ d) = false.
Proof.
  intros Hd Hc. induction a as [|c r IH].
  - apply endswith_sep_absent. exact Hc.
  - change (String c r +:+ d) with (String c (r +:+ d)). simpl.
    rewrite IH, orb_false_r. unfold Str.eqb.
    apply bool_decide_eq_false_2. intros [= _ H].
    destruct r; [|discriminate]. simpl in H. contradiction.
Qed.

Lemma startswith_sep_absent d :
  Str.contains_char "/" d = false -> Str.startswith "/" d = false.
Proof.
  destruct d as [|c r]; simpl; [reflexivity|].
  intros H. apply orb_false_elim in H as [Hc _].
  unfold Str.ceqb in *. apply bool_decide_eq_false in Hc.
  rewrite bool_decide_eq_false_2; [reflexivity | congruence].
Qed.

Lemma append_cons c (a b : string) : String c a +:+ b = String c (a +:+ b).
Proof. reflexivity. Qed.

Lemma append_assoc (a b c : string) : (a +:+ b) +:+ c = a +:+ (b +:+ c).
Proof.
  induction a as [|x a IH]; [reflexivity|].
  rewrite !append_cons, IH. reflexivity.
Qed.

(** On a root that is not empty and does not end in a slash, the joined
    path of an entry of the listing is spelled root, slash, entry, slash,
    [Headers]. *)
Lemma posixpath_join_headers root d :
  root <> EmptyString -> Str.endswith "/" root = false ->
  d <> EmptyString -> Str.contains_char "/" d = false ->
  posixpath.join root [d; "Headers"] = root +:+ "/" +:+ d +:+ "/Headers".
Proof.
  intros Hroot Hend Hd Hc.
  assert (H1 : posixpath.join1 root d = root +:+ "/" +:+ d).
  { unfold posixpath.join1. rewrite (startswith_sep_absent d Hc), Hend.
    destruct root; [contradiction | reflexivity]. }
  assert (H2 : forall a, a <> EmptyString -> Str.endswith "/" a = false ->
                         posixpath.join1 a "Headers" = a +:+ "/Headers").
  { intros a Ha He. unfold posixpath.join1. rewrite He.
    destruct a; [contradiction | reflexivity]. }
  unfold posixpath.join. simpl. rewrite H1, H2.
  - rewrite !append_assoc. reflexivity.
  - destruct root; [contradiction | discriminate].
  - rewrite <- append_assoc. apply endswith_sep_app; assumption.
Qed.

(** C6, as the code has it. The scan goes through the listing of the
    framework root in its order, and the first entry that is not passed
    over decides it; an entry is passed over when its file name up to
    the first dot differs from the name, letter case aside, or when it
    is examined and is not a directory. When that entry is a directory
    it is selected: the compile arguments name the [Headers] directory
    of the entry under the root and the link arguments name the root and
    the entry up to its first dot. When that entry cannot be examined
    the scan ends in [OSError], whatever follows it in the listing. When
    every entry is passed over the object is left as it was. Every
    listing is in one of these three cases. *)
Theorem framework_scan_first_match :
  forall w self name path root,
    root = default "/Library/Frameworks" path ->
    (forall pre d post,
       os_listdir w root = Some (pre ++ d :: post) ->
       Forall (passed_over w name root) pre ->
       name_matches name d = true ->
       (os_stat_isdir w (path_join (os_path w) root [d]) = Some true ->
        exists self',
          ExtraFrameworkDependency.detect w self name path = Ok self'
          /\ ExtraFrameworkDependency.name self' = Some d
          /\ ExtraFrameworkDependency.path self' = Some root
          /\ ExtraFrameworkDependency.found self' = true
          /\ ExtraFrameworkDependency.get_compile_args w self'
             = ["-I" +:+ path_join (os_path w) root [d; "Headers"]]
          /\ ExtraFrameworkDependency.get_link_args self'
             = ["-F" +:+ root; "-framework"; hd EmptyString (Str.split_on "." d)]
          /\ (os_path w = posixpath.os_path ->
              root <> EmptyString -> Str.endswith "/" root = false ->
              d <> EmptyString -> Str.contains_char "/" d = false ->
              ExtraFrameworkDependency.get_compile_args w self'
              = ["-I" +:+ root +:+ "/" +:+ d +:+ "/Headers"]))
       /\ (os_stat_isdir w (path_join (os_path w) root [d]) = None ->
           ExtraFrameworkDependency.detect w self name path = Raise OSError))
    /\ (forall entries,
          os_listdir w root = Some entries ->
          Forall (passed_over w name root) entries ->
          ExtraFrameworkDependency.detect w self name path = Ok self)
    /\ (forall entries,
          Forall (passed_over w name root) entries
          \/ exists pre d post,
               entries = pre ++ d :: post
               /\ Forall (passed_over w name root) pre
               /\ name_matches name d = true
               /\ os_stat_isdir w (path_join (os_path w) root [d]) <> Some false).
Proof.
  intros w self name path root Hroot.
  assert (Hp : match path with None => ["/Library/Frameworks"] | Some p => [p] end
               = [root]) by (subst root; destruct path; reflexivity).
  split; [|split].
  - intros pre d post Hlist Hpre Hd. split; intros Hdir.
    + eexists. split.
      * unfold ExtraFrameworkDependency.detect. rewrite Hp. simpl. rewrite Hlist.
        rewrite (detect_entries_first_match w name root pre d post Hpre Hd Hdir).
        reflexivity.
      * simpl. repeat split.
        intros Hposix Hr He Hne Hc.
        unfold ExtraFrameworkDependency.get_compile_args. simpl.
        rewrite Hposix. change (path_join posixpath.os_path) with posixpath.join.
        rewrite (posixpath_join_headers root d Hr He Hne Hc). reflexivity.
    + unfold ExtraFrameworkDependency.detect. rewrite Hp. simpl. rewrite Hlist.
      rewrite (detect_entries_unexaminable w name root pre d post Hpre Hd Hdir).
      reflexivity.
  - intros entries Hlist Hall.
    unfold ExtraFrameworkDependency.detect. rewrite Hp. simpl. rewrite Hlist.
    rewrite (detect_entries_no_match w name root entries Hall). reflexivity.
  - intros entries.
    destruct (detect_entries_outcome w name root entries)
      as [[Hall _]|(pre & e & post & He & Hpre & Hmatch & Hout)].
    + left. exact Hall.
    + right. exists pre, e, post.
      split; [exact He|]. split; [exact Hpre|]. split; [exact Hmatch|].
      destruct Hout as [[Hs _]|[Hs _]]; rewrite Hs; discriminate.
Qed.

Lemma framework_scan_first_match_witness :
  (exists self',
     ExtraFrameworkDependency.detect osx_host unset_framework "sdl2" None = Ok self'
     /\ ExtraFrameworkDependency.get_compile_args osx_host self'
        = ["-I/Library/Frameworks/SDL2.framework/Headers"]
     /\ ExtraFrameworkDependency.get_link_args self'
        = ["-F/Library/Frameworks"; "-framework"; "SDL2"])
  /\ ExtraFrameworkDependency.detect osx_dangling unset_framework "foo" None
     = Raise OSError
  /\ ExtraFrameworkDependency.detect osx_host unset_framework "foo" None
     = Ok unset_framework.
Proof.
  split; [|split].
  - destruct (framework_scan_first_match osx_host unset_framework "sdl2" None
                "/Library/Frameworks" eq_refl) as (Hfirst & _ & _).
    destruct (Hfirst ["Python.framework"] "SDL2.framework" ["sdl2.bundle"]) as (Hsel & _).
    + reflexivity.
    + constructor; [left; reflexivity | constructor].
    + reflexivity.
    + destruct (Hsel eq_refl) as (self' & Hdetect & _ & _ & _ & _ & Hlink & Hposix).
      exists self'. split; [exact Hdetect|]. split; [|exact Hlink].
      apply Hposix; (reflexivity || discriminate).
  - destruct (framework_scan_first_match osx_dangling unset_framework "foo" None
                "/Library/Frameworks" eq_refl) as (Hfirst & _ & _).
    destruct (Hfirst [] "Foo.old" ["Foo.framework"]) as (_ & Hraise).
    + reflexivity.
    + constructor.
    + reflexivity.
    + apply Hraise. reflexivity.
  - destruct (framework_scan_first_match osx_host unset_framework "foo" None
                "/Library/Frameworks" eq_refl) as (_ & Hnone & _).
    apply (Hnone ["Python.framework"; "SDL2.framework"; "sdl2.bundle"]);
      [reflexivity | repeat constructor].
Defined.

(** The part of the file name that is compared with the name, and that
    the link arguments give, ends at the first dot of the entry. *)
Example framework_name_up_to_first_dot :
  name_matches "foo" "Foo.1.framework" = true
  /\ name_matches "foo.1" "Foo.1.framework" = false
  /\ hd EmptyString (Str.split_on "." "Foo.1.framework") = "Foo".
Proof. vm_compute. repeat split. Qed.

(** C6 as it is worded fails on a listing with a matching entry that
    cannot be examined ahead of the framework: [Foo.framework] is the
    first entry that matches and is a directory, yet the scan selects
    nothing and ends in the [OSError] of [os.stat] on [Foo.old], and so
    does the constructor. *)
Lemma framework_scan_unexaminable_counterexample :
  os_listdir osx_dangling "/Library/Frameworks" = Some ["Foo.old"; "Foo.framework"]
  /\ name_matches "foo" "Foo.old" = true
  /\ os_stat_isdir osx_dangling
       (path_join (os_path osx_dangling) "/Library/Frameworks" ["Foo.old"]) = None
  /\ name_matches "foo" "Foo.framework" = true
  /\ os_stat_isdir osx_dangling
       (path_join (os_path osx_dangling) "/Library/Frameworks" ["Foo.framework"])
     = Some true
  /\ ExtraFrameworkDependency.detect osx_dangling unset_framework "foo" None
     = Raise OSError
  /\ ExtraFrameworkDependency.__init__ osx_dangling "foo" (VBool false) None ∅
     = Raise OSError.
Proof. vm_compute. repeat split. Qed.

(** ** The cache of the pkg-config binary (class_pkgbin) *)

(** [check_pkgconfig] runs, and either answers a binary or [False], or
    ends in the exception of the launch that it does not catch. *)
Lemma check_pkgconfig_outcome w self st :
  match Popen_safe w [pkgconfig_command w; "--version"] with
  | CannotLaunch e =>
      if caught_on_launch e then
        PkgConfigDependency.check_pkgconfig w self st = (Ok PkgFalse, search_raised st)
      else
        PkgConfigDependency.check_pkgconfig w self st
        = (Raise (exn_of_launch_error e), search_raised st)
  | Launched _ _ _ =>
      exists b, b <> PkgNone
        /\ PkgConfigDependency.check_pkgconfig w self st = (Ok b, search_raised st)
  end.
Proof.
  unfold PkgConfigDependency.check_pkgconfig, pkgconfig_command, search_raised,
    bind, lift, record_event, ret.
  cbn zeta.
  destruct (Popen_safe w _) as [rc out err|e].
  - eexists. split; [|reflexivity].
    destruct (negb (rc =? 0)); simpl; [discriminate|].
    destruct (_ && _); [|discriminate].
    destruct (shutil_which w _) as [[|c r]|]; discriminate.
  - destruct (caught_on_launch e); reflexivity.
Qed.

Lemma check_pkgconfig_returns w self st :
  search_completes w ->
  exists b, b <> PkgNone
    /\ PkgConfigDependency.check_pkgconfig w self st = (Ok b, search_raised st).
Proof.
  intros Hc. pose proof (check_pkgconfig_outcome w self st) as H.
  unfold search_completes in Hc.
  destruct (Popen_safe w [pkgconfig_command w; "--version"]) as [rc out err|e].
  - exact H.
  - rewrite Hc in H. exists PkgFalse. split; [discriminate | exact H].
Qed.

(** Whatever the host, the search ends with a value to cache or with an
    exception. *)
Lemma check_pkgconfig_cases w self st :
  (exists b, b <> PkgNone
     /\ PkgConfigDependency.check_pkgconfig w self st = (Ok b, search_raised st))
  \/ (exists e, PkgConfigDependency.check_pkgconfig w self st = (Raise e, search_raised st)).
Proof.
  pose proof (check_pkgconfig_outcome w self st) as H.
  destruct (Popen_safe w [pkgconfig_command w; "--version"]) as [rc out err|e].
  - left. exact H.
  - destruct (caught_on_launch e).
    + left. exists PkgFalse. split; [discriminate | exact H].
    + right. eexists. exact H.
Qed.

Lemma find_pkgbin_cached w self environment st :
  PkgConfigDependency.want_cross self = false ->
  class_pkgbin st <> PkgNone ->
  PkgConfigDependency.find_pkgbin w self environment st = (Ok (class_pkgbin st), st).
Proof.
  intros Hn Hc. unfold PkgConfigDependency.find_pkgbin. rewrite Hn.
  unfold bind, get_class_pkgbin. destruct (class_pkgbin st); [contradiction| |]; reflexivity.
Qed.

Lemma find_pkgbin_uncached w self environment st :
  PkgConfigDependency.want_cross self = false ->
  class_pkgbin st = PkgNone ->
  PkgConfigDependency.find_pkgbin w self environment st
  = match PkgConfigDependency.check_pkgconfig w self st with
    | (Ok b, _) => (Ok b, searched b st)
    | (Raise e, st') => (Raise e, st')
    end.
Proof.
  intros Hn Hc. unfold PkgConfigDependency.find_pkgbin. rewrite Hn.
  unfold bind at 1. unfold get_class_pkgbin. rewrite Hc. unfold bind.
  destruct (check_pkgconfig_cases w self st) as [(b & _ & ->)|(e & ->)].
  - unfold set_class_pkgbin, ret, searched, search_raised. simpl.
    rewrite <- app_assoc. reflexivity.
  - reflexivity.
Qed.

Lemma find_pkgbin_search w self environment st :
  PkgConfigDependency.want_cross self = false ->
  class_pkgbin st = PkgNone ->
  search_completes w ->
  exists b, b <> PkgNone
    /\ PkgConfigDependency.find_pkgbin w self environment st = (Ok b, searched b st).
Proof.
  intros Hn Hc Hs. rewrite (find_pkgbin_uncached w self environment st Hn Hc).
  destruct (check_pkgconfig_returns w self st Hs) as (b & Hb & ->).
  exists b. split; [exact Hb | reflexivity].
Qed.

(** Without a cache, the search sets it or ends in an exception. *)
Lemma find_pkgbin_search_cases w self environment st :
  PkgConfigDependency.want_cross self = false ->
  class_pkgbin st = PkgNone ->
  (exists b, b <> PkgNone
     /\ PkgConfigDependency.find_pkgbin w self environment st = (Ok b, searched b st))
  \/ (exists e, PkgConfigDependency.find_pkgbin w self environment st
                = (Raise e, search_raised st)).
Proof.
  intros Hn Hc. rewrite (find_pkgbin_uncached w self environment st Hn Hc).
  destruct (check_pkgconfig_cases w self st) as [(b & Hb & ->)|(e & ->)].
  - left. exists b. split; [exact Hb | reflexivity].
  - right. exists e. reflexivity.
Qed.

Lemma init_attributes_want_cross w name environment kwargs self :
  PkgConfigDependency.init_attributes w name environment kwargs = Ok self ->
  PkgConfigDependency.want_cross self = PkgConfigDependency.want_cross_of environment kwargs
  /\ PkgConfigDependency.name self = name
  /\ PkgConfigDependency.required self = default (VBool true) (kwargs !! "required")
  /\ PkgConfigDependency.static self = default (VBool false) (kwargs !! "static")
  /\ PkgConfigDependency.is_libtool self = false.
Proof.
  unfold PkgConfigDependency.init_attributes, result_bind.
  destruct (Dependency.__init__ _ _ _ _); [|discriminate].
  destruct (negb _); [discriminate|]. intros [= <-]. repeat split.
Qed.

Lemma _set_cargs_ok w self d :
  PkgConfigDependency._set_cargs w self = Ok d ->
  exists l, d = PkgConfigDependency.set_cargs l self.
Proof.
  unfold PkgConfigDependency._set_cargs, result_bind.
  destruct (PkgConfigDependency._call_pkgbin _ _ _) as [[rc out]|]; [|discriminate].
  destruct (negb _); [discriminate|]. intros [= <-]. eexists. reflexivity.
Qed.

Lemma _set_libs_ok w self d :
  PkgConfigDependency._set_libs w self = Ok d ->
  exists l b, d = PkgConfigDependency.set_libs l b self.
Proof.
  unfold PkgConfigDependency._set_libs, result_bind.
  destruct (PkgConfigDependency._call_pkgbin _ _ _) as [[rc out]|]; [|discriminate].
  destruct (negb _); [discriminate|].
  destruct (PkgConfigDependency._set_libs_loop _ _ _ _) as [[l b]|]; [|discriminate].
  intros [= <-]. eexists _, _. reflexivity.
Qed.

Lemma fetch_flags_ok w self d :
  PkgConfigDependency.fetch_flags w self = Ok d ->
  PkgConfigDependency.pkgbin d = PkgConfigDependency.pkgbin self
  /\ PkgConfigDependency.is_found d = PkgConfigDependency.is_found self.
Proof.
  unfold PkgConfigDependency.fetch_flags, result_bind.
  destruct (PkgConfigDependency._set_cargs w self) as [d1|] eqn:E1; [|discriminate].
  intros E2. apply _set_cargs_ok in E1 as [l ->].
  apply _set_libs_ok in E2 as (l2 & b & ->). split; reflexivity.
Qed.

Lemma check_version_ok w self reqs d :
  PkgConfigDependency.check_version w self reqs = Ok d ->
  PkgConfigDependency.pkgbin d = PkgConfigDependency.pkgbin self.
Proof.
  unfold PkgConfigDependency.check_version, result_bind.
  destruct (version_compare_many w _ reqs) as [[[f nf] fd]|]; [|discriminate].
  destruct (negb f).
  - destruct (truthy _); [discriminate|]. intros [= <-]. reflexivity.
  - intros H. apply fetch_flags_ok in H as [H _]. exact H.
Qed.

(** The object keeps the binary it was given to query. *)
Lemma probe_pkgbin w kwargs self b d :
  PkgConfigDependency.probe w kwargs self b = Ok d ->
  PkgConfigDependency.pkgbin d = b.
Proof.
  unfold PkgConfigDependency.probe, result_bind.
  destruct (negb (pkgbin_truthy b)).
  { destruct (truthy _); [discriminate|]. intros [= <-]. reflexivity. }
  destruct (PkgConfigDependency._call_pkgbin _ _ _) as [[rc out]|]; [|discriminate].
  destruct (negb (rc =? 0)).
  { destruct (truthy _); [discriminate|]. intros [= <-]. reflexivity. }
  destruct (default VNone (kwargs !! "version")) as [|v|s|l].
  - intros H. apply fetch_flags_ok in H as [H _]. exact H.
  - discriminate.
  - intros H. apply check_version_ok in H. exact H.
  - intros H. apply check_version_ok in H. exact H.
Qed.

(** A native construction in a state where the cache is set leaves the
    state as it is and queries the cached binary. *)
Lemma construct_cached r st :
  native r -> class_pkgbin st <> PkgNone ->
  snd (construct r st) = st
  /\ forall d, fst (construct r st) = Ok d ->
               PkgConfigDependency.pkgbin d = class_pkgbin st.
Proof.
  intros Hn Hc.
  destruct (PkgConfigDependency.init_attributes (req_world r) (req_name r)
              (req_environment r) (req_kwargs r)) as [self|e] eqn:E.
  - assert (Hrun : construct r st
                   = (PkgConfigDependency.probe (req_world r) (req_kwargs r) self
                        (class_pkgbin st), st)).
    { unfold construct, PkgConfigDependency.__init__, bind, lift. rewrite E.
      apply init_attributes_want_cross in E as (Hw & _).
      rewrite find_pkgbin_cached by (try congruence; exact Hc). reflexivity. }
    rewrite Hrun. simpl. split; [reflexivity|].
    intros d Hd. eapply probe_pkgbin. exact Hd.
  - assert (Hrun : construct r st = (Raise e, st)).
    { unfold construct, PkgConfigDependency.__init__, bind, lift. rewrite E.
      reflexivity. }
    rewrite Hrun. simpl. split; [reflexivity | discriminate].
Qed.

(** A native construction in a state where the cache is not set stops
    at the keywords, or searches once and sets the cache, or searches
    and ends in the exception of the search. *)
Lemma construct_uncached_cases r st :
  native r -> class_pkgbin st = PkgNone ->
  snd (construct r st) = st
  \/ (search_completes (req_world r)
      /\ exists b, b <> PkgNone /\ snd (construct r st) = searched b st)
  \/ (~ search_completes (req_world r) /\ snd (construct r st) = search_raised st).
Proof.
  intros Hn Hc.
  destruct (PkgConfigDependency.init_attributes (req_world r) (req_name r)
              (req_environment r) (req_kwargs r)) as [self|e] eqn:E.
  - assert (Hw : PkgConfigDependency.want_cross self = false).
    { apply init_attributes_want_cross in E as (Hw & _). congruence. }
    pose proof (check_pkgconfig_outcome (req_world r) self st) as Hout.
    rewrite (surjective_pairing (construct r st)).
    unfold construct, PkgConfigDependency.__init__, bind, lift. rewrite E.
    rewrite (find_pkgbin_uncached (req_world r) self (req_environment r) st Hw Hc).
    unfold search_completes.
    destruct (Popen_safe (req_world r) [pkgconfig_command (req_world r); "--version"])
      as [rc out err|e].
    + destruct Hout as (b & Hb & ->). right. left. split; [exact I|].
      exists b. split; [exact Hb | reflexivity].
    + destruct (caught_on_launch e) eqn:Hcaught; rewrite Hout.
      * right. left. split; [reflexivity|].
        exists PkgFalse. split; [discriminate | reflexivity].
      * right. right. split; [discriminate | reflexivity].
  - left. unfold construct, PkgConfigDependency.__init__, bind, lift. rewrite E.
    reflexivity.
Qed.

Lemma construct_uncached r st :
  native r -> class_pkgbin st = PkgNone -> search_completes (req_world r) ->
  snd (construct r st) = st
  \/ exists b, b <> PkgNone /\ snd (construct r st) = searched b st.
Proof.
  intros Hn Hc Hs.
  destruct (construct_uncached_cases r st Hn Hc) as [H|[[_ H]|[H _]]];
    [left; exact H | right; exact H | contradiction].
Qed.

Lemma run_constructions_invariant rs st :
  Forall native rs -> Forall (fun r => search_completes (req_world r)) rs ->
  cache_invariant st -> cache_invariant (run_constructions rs st).
Proof.
  intros Hrs. revert st. induction Hrs as [|r rs Hr _ IH]; intros st Hcs Hst; simpl.
  - exact Hst.
  - inversion Hcs as [|? ? Hc Hcs']; subst.
    apply IH; [exact Hcs'|]. destruct Hst as [->|(b & Hb & ->)].
    + destruct (construct_uncached r initial_state Hr eq_refl Hc) as [->|(b & Hb & ->)].
      * left. reflexivity.
      * right. exists b. split; [exact Hb | reflexivity].
    + destruct (construct_cached r (searched b initial_state) Hr) as [-> _].
      * exact Hb.
      * right. exists b. split; [exact Hb | reflexivity].
Qed.

Lemma writes_app tr1 tr2 : writes (tr1 ++ tr2) = (writes tr1 + writes tr2)%nat.
Proof. unfold writes. rewrite List.filter_app, length_app. reflexivity. Qed.

Lemma run_constructions_written_once rs st :
  Forall native rs -> written_once st -> written_once (run_constructions rs st).
Proof.
  intros Hrs. revert st. induction Hrs as [|r rs Hr _ IH]; intros st Hst; simpl.
  - exact Hst.
  - apply IH. destruct Hst as [[Hc Hw]|[Hc Hw]].
    + destruct (construct_uncached_cases r st Hr Hc) as [->|[(_ & b & Hb & ->)|[_ ->]]].
      * left. split; assumption.
      * right. split; [exact Hb|]. unfold searched. cbn [trace].
        rewrite writes_app, Hw. reflexivity.
      * left. split; [exact Hc|]. unfold search_raised. cbn [trace].
        rewrite writes_app, Hw. reflexivity.
    + destruct (construct_cached r st Hr Hc) as [-> _]. right. split; assumption.
Qed.

(** C7, as the code has it. In a process that makes native
    constructions only, whatever the requests and whatever the host
    does in between, the class attribute is assigned at most once, and
    once it is set a native construction neither searches nor assigns
    and the object it builds queries the cached binary.
    [check_pkgconfig] runs at most once when each search completes; a
    search that ends in an exception assigns nothing. *)
Theorem native_search_at_most_once :
  (forall rs, Forall native rs ->
     (writes (trace (run_constructions rs initial_state)) <= 1)%nat
     /\ (Forall (fun r => search_completes (req_world r)) rs ->
         (searches (trace (run_constructions rs initial_state)) <= 1)%nat))
  /\ (forall r st, native r -> class_pkgbin st <> PkgNone ->
        snd (construct r st) = st
        /\ forall d, fst (construct r st) = Ok d ->
                     PkgConfigDependency.pkgbin d = class_pkgbin st)
  /\ (forall r st, native r -> class_pkgbin st = PkgNone ->
        ~ search_completes (req_world r) ->
        snd (construct r st) = st \/ snd (construct r st) = search_raised st).
Proof.
  split; [|split].
  - intros rs Hrs. split.
    + destruct (run_constructions_written_once rs initial_state Hrs) as [[_ ->]|[_ ->]].
      * left. split; reflexivity.
      * lia.
      * lia.
    + intros Hcs.
      destruct (run_constructions_invariant rs initial_state Hrs Hcs) as [->|(b & _ & ->)].
      * left. reflexivity.
      * simpl. unfold searches. simpl. lia.
      * unfold searches. simpl. lia.
  - intros r st Hn Hc. apply construct_cached; assumption.
  - intros r st Hn Hc Hs.
    destruct (construct_uncached_cases r st Hn Hc) as [H|[[H _]|[_ H]]].
    + left. exact H.
    + contradiction.
    + right. exact H.
Qed.

Lemma native_search_at_most_once_witness :
  ((writes (trace (run_constructions [request_foo; request_bar] initial_state)) <= 1)%nat
   /\ (searches (trace (run_constructions [request_foo; request_bar] initial_state)) <= 1)%nat)
  /\ snd (construct request_bar (snd (construct request_foo initial_state)))
     = snd (construct request_foo initial_state).
Proof.
  destruct native_search_at_most_once as (Hseq & Hreuse & _). split.
  - destruct (Hseq [request_foo; request_bar]) as [Hw Hs]; [repeat constructor|].
    split; [exact Hw|]. apply Hs. repeat constructor.
  - apply Hreuse; [reflexivity | discriminate].
Defined.

Example two_requests_trace :
  trace (run_constructions [request_foo; request_bar] initial_state)
  = [EvCheckPkgconfig; EvSetClassPkgbin (PkgPath "pkg-config")].
Proof. vm_compute. reflexivity. Qed.

(** C7 as it is worded fails on a host where the launch of the version
    query ends in an exception that [check_pkgconfig] does not catch:
    each of two native constructions ends in that exception, nothing is
    cached, and [check_pkgconfig] has run twice. *)
Lemma native_search_repeated_counterexample :
  Forall native [request_on_exec_error "foo"; request_on_exec_error "bar"]
  /\ fst (construct (request_on_exec_error "foo") initial_state) = Raise OSError
  /\ fst (construct (request_on_exec_error "bar")
            (snd (construct (request_on_exec_error "foo") initial_state)))
     = Raise OSError
  /\ searches (trace (run_constructions
                        [request_on_exec_error "foo"; request_on_exec_error "bar"]
                        initial_state)) = 2%nat
  /\ class_pkgbin (run_constructions
                     [request_on_exec_error "foo"; request_on_exec_error "bar"]
                     initial_state) = PkgNone.
Proof.
  split; [repeat constructor|]. repeat split; vm_compute; reflexivity.
Qed.

(** ** The flags of a dependency that pkg-config knows *)

Lemma _call_pkgbin_path w self p args :
  PkgConfigDependency.pkgbin self = PkgPath p ->
  PkgConfigDependency._call_pkgbin w self args
  = match Popen_safe w (p :: args) with
    | Launched returncode out _ => Ok (returncode, Str.strip out)
    | CannotLaunch e => Raise (exn_of_launch_error e)
    end.
Proof. intros H. unfold PkgConfigDependency._call_pkgbin. rewrite H. reflexivity. Qed.

Lemma nonzero_status c : c <> 0 -> negb (c =? 0) = true.
Proof. intros H. apply Z.eqb_neq in H. rewrite H. reflexivity. Qed.

Lemma fetch_flags_broken w self p :
  PkgConfigDependency.pkgbin self = PkgPath p ->
  flags_query_fails w p (PkgConfigDependency.name self) (PkgConfigDependency.static self) ->
  exists msg, PkgConfigDependency.fetch_flags w self = Raise (DependencyException msg).
Proof.
  intros Hp (c & out & err & Hc & Hfail).
  unfold PkgConfigDependency.fetch_flags, PkgConfigDependency._set_cargs, result_bind.
  rewrite (_call_pkgbin_path w self p _ Hp), Hc.
  destruct (negb (c =? 0)) eqn:E; [eexists; reflexivity|].
  destruct Hfail as [Hne|(c2 & out2 & err2 & Hl & Hne)].
  { rewrite nonzero_status in E by exact Hne. discriminate. }
  unfold PkgConfigDependency._set_libs, result_bind.
  rewrite (_call_pkgbin_path w _ p); [|exact Hp].
  change (PkgConfigDependency.name (PkgConfigDependency.set_cargs _ self))
    with (PkgConfigDependency.name self).
  change (PkgConfigDependency.static (PkgConfigDependency.set_cargs _ self))
    with (PkgConfigDependency.static self).
  assert (Hq : (if truthy (PkgConfigDependency.static self)
                then [PkgConfigDependency.name self; "--libs"] ++ ["--static"]
                else [PkgConfigDependency.name self; "--libs"])
               = libs_query (PkgConfigDependency.name self) (PkgConfigDependency.static self)).
  { unfold libs_query. destruct (truthy _); reflexivity. }
  rewrite Hq, Hl, nonzero_status by exact Hne. eexists. reflexivity.
Qed.

Lemma check_version_broken w self p reqs nf f :
  PkgConfigDependency.pkgbin self = PkgPath p ->
  version_compare_many w (PkgConfigDependency.modversion self) reqs = Ok (true, nf, f) ->
  flags_query_fails w p (PkgConfigDependency.name self) (PkgConfigDependency.static self) ->
  exists msg, PkgConfigDependency.check_version w self reqs = Raise (DependencyException msg).
Proof.
  intros Hp Hv Hfail. unfold PkgConfigDependency.check_version, result_bind.
  change (PkgConfigDependency.modversion (PkgConfigDependency.set_version_reqs _ self))
    with (PkgConfigDependency.modversion self).
  rewrite Hv. simpl negb. cbv iota.
  apply (fetch_flags_broken w _ p); [exact Hp | exact Hfail].
Qed.

Lemma pkgbin_truthy_path p : p <> EmptyString -> pkgbin_truthy (PkgPath p) = true.
Proof. destruct p; [contradiction | reflexivity]. Qed.

Lemma probe_broken w kwargs self p version err :
  p <> EmptyString ->
  Popen_safe w (p :: ["--modversion"; PkgConfigDependency.name self])
  = Launched 0 version err ->
  version_satisfied w kwargs (Str.strip version) ->
  flags_query_fails w p (PkgConfigDependency.name self) (PkgConfigDependency.static self) ->
  exists msg,
    PkgConfigDependency.probe w kwargs self (PkgPath p) = Raise (DependencyException msg).
Proof.
  intros Hp Hmod Hver Hfail. unfold PkgConfigDependency.probe, result_bind.
  rewrite (pkgbin_truthy_path p Hp). simpl negb. cbv iota.
  rewrite (_call_pkgbin_path w _ p) by reflexivity.
  change (PkgConfigDependency.name (PkgConfigDependency.set_type_string _ _))
    with (PkgConfigDependency.name self).
  rewrite Hmod. change (negb (0 =? 0)) with false. cbv iota.
  unfold version_satisfied in Hver.
  destruct (default VNone (kwargs !! "version")) as [|v|s|l].
  - apply (fetch_flags_broken w _ p); [reflexivity | exact Hfail].
  - contradiction.
  - destruct Hver as (nf & f & Hv).
    apply (check_version_broken w _ p _ nf f); [reflexivity | exact Hv | exact Hfail].
  - destruct Hver as (nf & f & Hv).
    apply (check_version_broken w _ p _ nf f); [reflexivity | exact Hv | exact Hfail].
Qed.

(** C4. Once the keywords are accepted, a binary [p] is in use, its
    module-version query exits with zero and the version constraints, if
    any, hold, a compile-flags or link-flags query that exits with
    another status makes the constructor raise [DependencyException];
    [required] plays no part. *)
Theorem broken_flags_always_raise :
  forall w name environment kwargs st self p st' version err,
    PkgConfigDependency.init_attributes w name environment kwargs = Ok self ->
    PkgConfigDependency.find_pkgbin w self environment st = (Ok (PkgPath p), st') ->
    p <> EmptyString ->
    Popen_safe w (p :: ["--modversion"; name]) = Launched 0 version err ->
    version_satisfied w kwargs (Str.strip version) ->
    flags_query_fails w p name (default (VBool false) (kwargs !! "static")) ->
    exists msg,
      PkgConfigDependency.__init__ w name environment kwargs st
      = (Raise (DependencyException msg), st').
Proof.
  intros w name environment kwargs st self p st' version err Hinit Hfind Hp Hmod Hver Hfail.
  destruct (init_attributes_want_cross _ _ _ _ _ Hinit) as (_ & Hname & _ & Hstatic & _).
  destruct (probe_broken w kwargs self p version err) as [msg Hprobe];
    [exact Hp | rewrite Hname; exact Hmod | exact Hver
     | rewrite Hname, Hstatic; exact Hfail |].
  exists msg. unfold PkgConfigDependency.__init__, bind, lift.
  rewrite Hinit, Hfind, Hprobe. reflexivity.
Qed.

Lemma broken_flags_always_raise_witness :
  exists msg,
    PkgConfigDependency.__init__ linux_broken_cflags "foo" native_build
      {[ "required" := VBool false ]} initial_state
    = (Raise (DependencyException msg),
       searched (PkgPath "pkg-config") initial_state).
Proof.
  eapply (broken_flags_always_raise linux_broken_cflags "foo" native_build
            {[ "required" := VBool false ]} initial_state _ "pkg-config" _ "2.4.3" "").
  - reflexivity.
  - reflexivity.
  - discriminate.
  - reflexivity.
  - exact I.
  - exists 1, "Package bar, required by foo, not found", "".
    split; [reflexivity | left; lia].
Defined.

(** ** Libtool archives among the link arguments *)

Lemma extract_field_lines_first pre line post field v :
  Forall (fun l => hd EmptyString (Str.split_on "=" (Str.strip l)) <> field) pre ->
  Str.split_on "=" (Str.strip line) = [field; v] ->
  PkgConfigDependency.extract_field_lines (pre ++ line :: post) field
  = Ok (Some (Str.strip_ends v)).
Proof.
  intros Hpre Hline. induction Hpre as [|l pre Hl _ IH]; simpl.
  - rewrite Hline. simpl. unfold Str.eqb.
    rewrite bool_decide_eq_true_2 by reflexivity. reflexivity.
  - unfold Str.eqb at 1. rewrite bool_decide_eq_false_2 by exact Hl. exact IH.
Qed.

Lemma _set_libs_loop_plain w tokens libs b :
  Forall plain_token tokens ->
  PkgConfigDependency._set_libs_loop w tokens libs b = Ok (libs ++ tokens, b).
Proof.
  intros H. revert libs b. induction H as [|t tokens Ht _ IH]; intros libs b; simpl.
  - rewrite app_nil_r. reflexivity.
  - unfold PkgConfigDependency.resolve_lib. rewrite Ht. simpl.
    rewrite IH, <- app_assoc, orb_false_r. reflexivity.
Qed.

Lemma _set_libs_loop_resolved w before lib after libs b r :
  Forall plain_token before -> Forall plain_token after ->
  PkgConfigDependency.resolve_lib w lib = Ok (r, true) ->
  PkgConfigDependency._set_libs_loop w (before ++ lib :: after) libs b
  = Ok (libs ++ before ++ r :: after, true).
Proof.
  intros Hb Ha Hr. revert libs b. induction Hb as [|t before Ht _ IH]; intros libs b; simpl.
  - rewrite Hr. simpl. rewrite _set_libs_loop_plain by exact Ha.
    rewrite <- app_assoc, orb_true_r. reflexivity.
  - unfold PkgConfigDependency.resolve_lib at 1. rewrite Ht. simpl.
    rewrite IH, <- app_assoc. reflexivity.
Qed.

Lemma _set_libs_loop_raises w before lib after libs b e :
  Forall plain_token before ->
  PkgConfigDependency.resolve_lib w lib = Raise e ->
  PkgConfigDependency._set_libs_loop w (before ++ lib :: after) libs b = Raise e.
Proof.
  intros Hb Hr. revert libs b. induction Hb as [|t before Ht _ IH]; intros libs b; simpl.
  - rewrite Hr. reflexivity.
  - unfold PkgConfigDependency.resolve_lib at 1. rewrite Ht. simpl. apply IH.
Qed.

(** The token of an archive whose first [dlname] line reads
    [dlname='libfoo.so.1'], on a host that is not OSX. *)
Lemma resolve_lib_libfoo w lib pre line post :
  is_osx w = false -> os_path w = posixpath.os_path ->
  Str.endswith ".la" lib = true ->
  open_lines w lib = Some (pre ++ line :: post) ->
  Forall other_field pre ->
  Str.split_on "=" (Str.strip line) = ["dlname"; "'libfoo.so.1'"] ->
  PkgConfigDependency.resolve_lib w lib
  = if path_exists w (beside lib "libfoo.so.1") then Ok (beside lib "libfoo.so.1", true)
    else if path_exists w (in_dot_libs lib "libfoo.so.1")
         then Ok (in_dot_libs lib "libfoo.so.1", true)
         else Raise (DependencyException
                ("Got a libtools specific " +:+ Str.of_char Str.dquote +:+ lib +:+
                 Str.of_char Str.dquote +:+
                 " dependencies" +:+ "but we could not compute the actual shared" +:+
                 "library path")).
Proof.
  intros Hosx Hpath Hla Hopen Hpre Hline.
  unfold PkgConfigDependency.resolve_lib. rewrite Hla.
  unfold PkgConfigDependency.extract_libtool_shlib,
    PkgConfigDependency.extract_dlname_field, PkgConfigDependency.extract_field.
  rewrite Hopen, (extract_field_lines_first pre line post "dlname" _ Hpre Hline).
  unfold result_bind. rewrite Hosx, Hpath.
  change (path_basename posixpath.os_path (Str.strip_ends "'libfoo.so.1'"))
    with "libfoo.so.1".
  change (path_join posixpath.os_path (path_dirname posixpath.os_path lib) ["libfoo.so.1"])
    with (beside lib "libfoo.so.1").
  change (path_join posixpath.os_path (path_dirname posixpath.os_path lib)
            [".libs"; "libfoo.so.1"])
    with (in_dot_libs lib "libfoo.so.1").
  destruct (path_exists w (beside lib "libfoo.so.1")) eqn:E1; simpl.
  - rewrite E1. reflexivity.
  - destruct (path_exists w (in_dot_libs lib "libfoo.so.1")); reflexivity.
Qed.

(** C5, for an archive that sets [dlname] the way libtool writes it,
    between quotes: the token is replaced by the shared object beside
    the archive if that exists, else by the one in [.libs] if that
    exists, and [_set_libs] raises [DependencyException] if neither
    does. *)
Theorem libtool_token_resolution :
  forall w self p out err before lib after pre line post,
    is_osx w = false -> os_path w = posixpath.os_path ->
    PkgConfigDependency.pkgbin self = PkgPath p ->
    Popen_safe w (p :: libs_query (PkgConfigDependency.name self)
                          (PkgConfigDependency.static self)) = Launched 0 out err ->
    Str.split (Str.strip out) = before ++ lib :: after ->
    Forall plain_token before -> Forall plain_token after ->
    Str.endswith ".la" lib = true ->
    open_lines w lib = Some (pre ++ line :: post) ->
    Forall other_field pre ->
    Str.split_on "=" (Str.strip line) = ["dlname"; "'libfoo.so.1'"] ->
    (path_exists w (beside lib "libfoo.so.1") = true ->
     PkgConfigDependency._set_libs w self
     = Ok (PkgConfigDependency.set_libs (before ++ beside lib "libfoo.so.1" :: after) true self))
    /\ (path_exists w (beside lib "libfoo.so.1") = false ->
        path_exists w (in_dot_libs lib "libfoo.so.1") = true ->
        PkgConfigDependency._set_libs w self
        = Ok (PkgConfigDependency.set_libs
                (before ++ in_dot_libs lib "libfoo.so.1" :: after) true self))
    /\ (path_exists w (beside lib "libfoo.so.1") = false ->
        path_exists w (in_dot_libs lib "libfoo.so.1") = false ->
        exists msg,
          PkgConfigDependency._set_libs w self = Raise (DependencyException msg)).
Proof.
  intros w self p out err before lib after pre line post
    Hosx Hpath Hp Hlibs Hsplit Hb Ha Hla Hopen Hpre Hline.
  pose proof (resolve_lib_libfoo w lib pre line post Hosx Hpath Hla Hopen Hpre Hline) as Hr.
  assert (Hcall : PkgConfigDependency._set_libs w self
                  = result_bind
                      (PkgConfigDependency._set_libs_loop w (before ++ lib :: after) []
                         (PkgConfigDependency.is_libtool self))
                      (fun r => let '(libs, libtool) := r in
                                Ok (PkgConfigDependency.set_libs libs libtool self))).
  { unfold PkgConfigDependency._set_libs.
    assert (Hq : (if truthy (PkgConfigDependency.static self)
                  then [PkgConfigDependency.name self; "--libs"] ++ ["--static"]
                  else [PkgConfigDependency.name self; "--libs"])
                 = libs_query (PkgConfigDependency.name self)
                     (PkgConfigDependency.static self)).
    { unfold libs_query. destruct (truthy _); reflexivity. }
    rewrite Hq, (_call_pkgbin_path w self p _ Hp), Hlibs. unfold result_bind at 1.
    change (negb (0 =? 0)) with false. cbv iota. rewrite Hsplit. reflexivity. }
  rewrite Hcall. repeat split.
  - intros E1. rewrite E1 in Hr.
    rewrite (_set_libs_loop_resolved w before lib after [] _ _ Hb Ha Hr). reflexivity.
  - intros E1 E2. rewrite E1, E2 in Hr.
    rewrite (_set_libs_loop_resolved w before lib after [] _ _ Hb Ha Hr). reflexivity.
  - intros E1 E2. rewrite E1, E2 in Hr.
    rewrite (_set_libs_loop_raises w before lib after [] _ _ Hb Hr).
    eexists. reflexivity.
Qed.

Lemma libtool_token_resolution_witness :
  PkgConfigDependency._set_libs linux_libtool foo_object
  = Ok (PkgConfigDependency.set_libs
          ["-L/usr/lib"; "/usr/lib/.libs/libfoo.so.1"; "-lm"] true foo_object).
Proof.
  destruct (libtool_token_resolution linux_libtool foo_object "pkg-config"
              "-L/usr/lib /usr/lib/libfoo.la -lm" "" ["-L/usr/lib"]
              "/usr/lib/libfoo.la" ["-lm"]
              ["# libfoo.la - a libtool library file" +:+ Str.nl]
              ("dlname='libfoo.so.1'" +:+ Str.nl)
              ["libdir='/usr/lib'" +:+ Str.nl]) as (_ & H & _);
    [reflexivity | reflexivity | reflexivity | reflexivity | reflexivity
    | repeat constructor | repeat constructor | reflexivity | reflexivity
    | repeat constructor; discriminate | reflexivity | ].
  apply H; reflexivity.
Defined.

(** C5 as it is worded: the file declares [dlname=libfoo.so.1] and no
    [libdir], the host is not OSX and the shared object exists beside
    the archive, yet the token is not replaced: [extract_field] drops
    the first and the last character of the value, the paths looked for
    are those of [ibfoo.so.], and [_set_libs] raises. *)
Lemma libtool_bare_dlname_counterexample :
  is_osx linux_bare_archive = false
  /\ open_lines linux_bare_archive "/usr/lib/libfoo.la" = Some ["dlname=libfoo.so.1" +:+ Str.nl]
  /\ beside "/usr/lib/libfoo.la" "libfoo.so.1" = "/usr/lib/libfoo.so.1"
  /\ path_exists linux_bare_archive "/usr/lib/libfoo.so.1" = true
  /\ PkgConfigDependency.extract_libtool_shlib linux_bare_archive "/usr/lib/libfoo.la"
     = Ok (Some "ibfoo.so.")
  /\ (exists msg, PkgConfigDependency._set_libs linux_bare_archive foo_object
                  = Raise (DependencyException msg))
  /\ PkgConfigDependency._set_libs linux_bare_archive foo_object
     <> Ok (PkgConfigDependency.set_libs
              ["-L/usr/lib"; "/usr/lib/libfoo.so.1"; "-lm"] true foo_object).
Proof.
  repeat split; try reflexivity.
  - eexists. vm_compute. reflexivity.
  - vm_compute. discriminate.
Qed.

(** ** Resolution of a name that no probe discovers *)

Lemma found_commands_nonempty c l :
  ExternalProgram.found_commands c = Some l -> l <> [].
Proof.
  destruct c as [[|x r]|]; simpl; try discriminate. intros [= <-]. discriminate.
Qed.

Lemma first_some_nonempty {A} (f : A -> option (list string)) xs l :
  (forall x y, f x = Some y -> y <> []) ->
  ExternalProgram.first_some f xs = Some l -> l <> [].
Proof.
  intros Hf. induction xs as [|x xs IH]; simpl; [discriminate|].
  destruct (f x) as [y|] eqn:E; [|exact IH].
  intros [= <-]. eapply Hf. exact E.
Qed.

Lemma _search_windows_nonempty w name command l :
  ExternalProgram._search_windows w name command = Some l -> l <> [].
Proof.
  unfold ExternalProgram._search_windows.
  assert (Hdirs : forall xs,
             ExternalProgram.first_some
               (fun d => ExternalProgram.found_commands
                           (ExternalProgram._search_dir w name (Some d))) xs = Some l ->
             l <> []).
  { intros xs. apply first_some_nonempty. intros x y. apply found_commands_nonempty. }
  assert (Hexts : forall base xs,
             ExternalProgram.first_some
               (fun ext => let c := base +:+ "." +:+ ext in
                           if path_exists w c then Some [c] else None) xs = Some l ->
             l <> []).
  { intros base xs. apply first_some_nonempty. intros x y. simpl.
    destruct (path_exists w _); [intros [= <-]|]; discriminate. }
  assert (Helse :
            match (if path_isabs (os_path w) name
                   then ExternalProgram.first_some
                          (fun ext => let c := name +:+ "." +:+ ext in
                                      if path_exists w c then Some [c] else None)
                          ExternalProgram.windows_exts
                   else None) with
            | Some r => Some r
            | None =>
                ExternalProgram.first_some
                  (fun d => ExternalProgram.found_commands
                              (ExternalProgram._search_dir w name (Some d)))
                  (Str.split_on ";" (default EmptyString (environ w !! "PATH")))
            end = Some l -> l <> []).
  { destruct (path_isabs (os_path w) name).
    - destruct (ExternalProgram.first_some _ ExternalProgram.windows_exts) as [r|] eqn:E.
      + intros [= <-]. eapply Hexts. exact E.
      + apply Hdirs.
    - apply Hdirs. }
  destruct command as [[|a c']|]; try exact Helse.
  destruct (bool_decide _).
  - intros [= <-]. discriminate.
  - apply found_commands_nonempty.
Qed.

(** A search always yields a command of at least one element. *)
Lemma _search_nonempty w name search_dir :
  ExternalProgram._search w name search_dir <> [].
Proof.
  unfold ExternalProgram._search.
  destruct (ExternalProgram.found_commands _) as [l|] eqn:E.
  { apply found_commands_nonempty in E. destruct l; [contradiction | discriminate]. }
  destruct (negb (is_windows w)); [discriminate|].
  destruct (ExternalProgram._search_windows _ _ _) as [l|] eqn:F; [|discriminate].
  apply _search_windows_nonempty in F. destruct l; [contradiction | discriminate].
Qed.

Lemma deref_alloc (h : ExternalProgram.heap) v :
  ExternalProgram.deref (snd (ExternalProgram.alloc h v)) (fst (ExternalProgram.alloc h v)) = v.
Proof.
  unfold ExternalProgram.alloc, ExternalProgram.deref. simpl.
  rewrite lookup_insert_eq. reflexivity.
Qed.

(** The search for the cross binary: the outcome of building the
    program, asking whether it was found and copying its command. *)
Lemma cross_program_command w pkgname :
  exists p h x r,
    ExternalProgram.__init__ w pkgname ExternalProgram.CmdNone true None ∅ = (Ok p, h)
    /\ ExternalProgram.found p h = Ok (bool_decide (x <> None))
    /\ ExternalProgram.deref (snd (ExternalProgram.get_command p h))
         (fst (ExternalProgram.get_command p h)) = x :: r.
Proof.
  destruct (ExternalProgram._search w pkgname None) as [|x r] eqn:E.
  { exfalso. eapply _search_nonempty. exact E. }
  unfold ExternalProgram.__init__. rewrite E.
  destruct (ExternalProgram.alloc ∅ (x :: r)) as [l h] eqn:A.
  pose proof (deref_alloc ∅ (x :: r)) as Hd. rewrite A in Hd. simpl in Hd.
  eexists _, h, x, r. split; [reflexivity|]. split.
  - unfold ExternalProgram.found. simpl. rewrite Hd. reflexivity.
  - unfold ExternalProgram.get_command. simpl. rewrite Hd. apply deref_alloc.
Qed.

(** When the search completes, if one is made, [find_pkgbin] raises only
    for a required dependency of a cross build whose cross file names no
    pkg-config. *)
Lemma find_pkgbin_outcome w self environment st :
  (PkgConfigDependency.want_cross self = false -> class_pkgbin st = PkgNone ->
   search_completes w) ->
  exists st',
    (exists b, PkgConfigDependency.find_pkgbin w self environment st = (Ok b, st'))
    \/ (truthy (PkgConfigDependency.required self) = true
        /\ PkgConfigDependency.find_pkgbin w self environment st
           = (Raise (DependencyException "Pkg-config binary missing from cross file"), st')).
Proof.
  intros Hsearch.
  destruct (PkgConfigDependency.want_cross self) eqn:Hw.
  - unfold PkgConfigDependency.find_pkgbin. rewrite Hw.
    destruct (cross_binaries environment !! "pkgconfig") as [pkgname|].
    + destruct (cross_program_command w pkgname) as (p & h & x & r & Hinit & Hfound & Hcmd).
      rewrite Hinit. unfold bind, lift. rewrite Hfound.
      destruct (bool_decide (x <> None)).
      * destruct (ExternalProgram.get_command p h) as [l h'] eqn:G. simpl in Hcmd.
        rewrite Hcmd. unfold set_class_pkgbin, ret. eexists. left. eexists. reflexivity.
      * unfold ret. eexists. left. eexists. reflexivity.
    + destruct (truthy (PkgConfigDependency.required self)) eqn:Hr.
      * eexists. right. split; reflexivity.
      * eexists. left. eexists. reflexivity.
  - destruct (class_pkgbin st) eqn:Hc.
    + destruct (find_pkgbin_search w self environment st Hw Hc (Hsearch eq_refl eq_refl))
        as (b & _ & Hf).
      eexists. left. exists b. exact Hf.
    + eexists. left. eexists. apply find_pkgbin_cached; [exact Hw|]. rewrite Hc. discriminate.
    + eexists. left. eexists. apply find_pkgbin_cached; [exact Hw|]. rewrite Hc. discriminate.
Qed.

(** Whatever the host, [find_pkgbin] ends in some state, with a binary
    or with an exception. *)
Lemma find_pkgbin_total w self environment st :
  exists r st', PkgConfigDependency.find_pkgbin w self environment st = (r, st').
Proof. destruct (PkgConfigDependency.find_pkgbin w self environment st); eauto. Qed.

Lemma init_attributes_accepted w name environment kwargs :
  accepted_by_pkgconfig kwargs ->
  exists self, PkgConfigDependency.init_attributes w name environment kwargs = Ok self.
Proof.
  intros [Hm Hs]. unfold PkgConfigDependency.init_attributes.
  destruct Hm as [Hm|Hm].
  - rewrite (Dependency_init_auto w _ _ kwargs Hm). unfold result_bind.
    rewrite Hs. eexists. reflexivity.
  - rewrite (Dependency_init_declared w _ _ kwargs "pkgconfig" Hm).
    + unfold result_bind. rewrite Hs. eexists. reflexivity.
    + discriminate.
    + simpl. apply list_elem_of_singleton. reflexivity.
Qed.

Lemma plain_request_accepted kwargs : plain_request kwargs -> accepted_by_pkgconfig kwargs.
Proof. intros [Hm Hs]. split; [left; exact Hm | exact Hs]. Qed.

Lemma init_attributes_plain w name environment kwargs :
  plain_request kwargs ->
  exists self, PkgConfigDependency.init_attributes w name environment kwargs = Ok self.
Proof. intros H. apply init_attributes_accepted, plain_request_accepted, H. Qed.

(** The queries, when pkg-config does not know the module: an optional
    dependency is built not found, a required one raises
    [DependencyException] with one of two texts. *)
Lemma probe_absent w kwargs self b :
  (forall p, b = PkgPath p ->
     exists c out err,
       Popen_safe w (p :: ["--modversion"; PkgConfigDependency.name self])
       = Launched c out err /\ c <> 0) ->
  (truthy (PkgConfigDependency.required self) = false ->
   exists d, PkgConfigDependency.probe w kwargs self b = Ok d
             /\ PkgConfigDependency.is_found d = false)
  /\ (truthy (PkgConfigDependency.required self) = true ->
      exists msg,
        PkgConfigDependency.probe w kwargs self b = Raise (DependencyException msg)
        /\ (msg = "Pkg-config not found."
            \/ exists type_string,
                 (type_string = "Cross" \/ type_string = "Native")
                 /\ msg = PkgConfigDependency.not_found_message type_string
                            (PkgConfigDependency.name self))).
Proof.
  intros Habs. unfold PkgConfigDependency.probe, result_bind.
  change (PkgConfigDependency.required
            (PkgConfigDependency.set_is_found false (PkgConfigDependency.set_pkgbin b self)))
    with (PkgConfigDependency.required self).
  destruct (negb (pkgbin_truthy b)) eqn:Hb.
  { split; intros Hr; rewrite Hr.
    - eexists. split; reflexivity.
    - eexists. split; [reflexivity | left; reflexivity]. }
  destruct b as [| |p]; try discriminate Hb.
  rewrite (_call_pkgbin_path w _ p) by reflexivity.
  change (PkgConfigDependency.name (PkgConfigDependency.set_type_string _ _))
    with (PkgConfigDependency.name self).
  destruct (Habs p eq_refl) as (c & out & err & Hq & Hc). rewrite Hq.
  rewrite (nonzero_status c Hc).
  change (PkgConfigDependency.required (PkgConfigDependency.set_modversion _ _))
    with (PkgConfigDependency.required self).
  split; intros Hr; rewrite Hr.
  - eexists. split; reflexivity.
  - eexists. split; [reflexivity|]. right. eexists. split; [|reflexivity].
    change (PkgConfigDependency.want_cross
              (PkgConfigDependency.set_is_found false
                 (PkgConfigDependency.set_pkgbin (PkgPath p) self)))
      with (PkgConfigDependency.want_cross self).
    destruct (PkgConfigDependency.want_cross self); [left | right]; reflexivity.
Qed.

Lemma framework_init_not_found w name required kwargs :
  default (VStr "auto") (kwargs !! "method") = VStr "auto" ->
  no_framework w name ->
  exists fwdep,
    ExtraFrameworkDependency.__init__ w name required None kwargs = Ok fwdep
    /\ ExtraFrameworkDependency.found fwdep = false.
Proof.
  intros Hm (entries & Hlist & Hpass). unfold ExtraFrameworkDependency.__init__.
  rewrite (Dependency_init_auto w _ _ kwargs Hm). unfold result_bind.
  unfold ExtraFrameworkDependency.detect. simpl. rewrite Hlist.
  rewrite (detect_entries_no_match w name _ entries Hpass).
  eexists. split; reflexivity.
Qed.

(** The dispatcher on a name that is not registered, in terms of the
    outcome of the pkg-config constructor. *)
Lemma find_external_dependency_generic k w name environment kwargs st :
  is_bool (default (VBool true) (kwargs !! "required")) = true ->
  packages k !! Str.lower name = None ->
  find_external_dependency k w name environment kwargs st
  = match PkgConfigDependency.__init__ w name environment kwargs st with
    | (Ok pkgdep, st') =>
        if PkgConfigDependency.found pkgdep then (Ok (PkgConfigObject pkgdep), st')
        else after_pkgconfig w name (default (VBool true) (kwargs !! "required")) kwargs
               (inl pkgdep) st'
    | (Raise e, st') =>
        after_pkgconfig w name (default (VBool true) (kwargs !! "required")) kwargs
          (inr e) st'
    end.
Proof.
  intros Hb Hp. unfold find_external_dependency. cbv zeta. rewrite Hb, Hp.
  cbn [negb]. unfold bind, try_except, ret.
  destruct (PkgConfigDependency.__init__ w name environment kwargs st) as [[d|e] st'].
  - destruct (PkgConfigDependency.found d); reflexivity.
  - reflexivity.
Qed.

(** The pkg-config constructor on a request that it accepts, for a
    module that pkg-config does not know, when the search for the binary
    completes. *)
Lemma pkgconfig_init_absent w name environment kwargs st :
  accepted_by_pkgconfig kwargs ->
  search_can_complete w environment kwargs st ->
  pkgconfig_reports_absent w name environment kwargs st ->
  exists st',
    (truthy (default (VBool true) (kwargs !! "required")) = false ->
     exists d, PkgConfigDependency.__init__ w name environment kwargs st = (Ok d, st')
               /\ PkgConfigDependency.is_found d = false)
    /\ (truthy (default (VBool true) (kwargs !! "required")) = true ->
        exists msg, PkgConfigDependency.__init__ w name environment kwargs st
                    = (Raise (DependencyException msg), st')
                    /\ (msg = "Pkg-config binary missing from cross file"
                        \/ msg = "Pkg-config not found."
                        \/ exists type_string,
                             (type_string = "Cross" \/ type_string = "Native")
                             /\ msg = PkgConfigDependency.not_found_message
                                        type_string name)).
Proof.
  intros Hacc Hsearch Habs.
  destruct (init_attributes_accepted w name environment kwargs Hacc) as [self Hinit].
  destruct (init_attributes_want_cross _ _ _ _ _ Hinit) as (Hcross & Hname & Hreq & _).
  unfold PkgConfigDependency.__init__, bind, lift. rewrite Hinit, <- Hreq.
  destruct (find_pkgbin_outcome w self environment st) as (st' & [[b Hf]|[Hr Hf]]).
  { rewrite Hcross. exact Hsearch. }
  all: exists st'; rewrite Hf.
  - assert (Hb : forall p, b = PkgPath p ->
               exists c out err,
                 Popen_safe w (p :: ["--modversion"; PkgConfigDependency.name self])
                 = Launched c out err /\ c <> 0).
    { intros p ->. rewrite Hname. exact (Habs self p st' Hinit Hf). }
    destruct (probe_absent w kwargs self b Hb) as [Hopt Hrequired]. split.
    + intros Hr. destruct (Hopt Hr) as (d & -> & Hd). eauto.
    + intros Hr. destruct (Hrequired Hr) as (msg & -> & Hmsg).
      exists msg. split; [reflexivity|]. rewrite <- Hname. tauto.
  - split.
    + intros Hr'. congruence.
    + intros _. eexists. split; [reflexivity | left; reflexivity].
Qed.

(** The queries, when the binary does not answer the module-version
    query with status zero: whatever is built is not found. *)
Lemma probe_unknown w kwargs self b d :
  (forall p out err, b = PkgPath p ->
     Popen_safe w (p :: ["--modversion"; PkgConfigDependency.name self])
     <> Launched 0 out err) ->
  PkgConfigDependency.probe w kwargs self b = Ok d ->
  PkgConfigDependency.is_found d = false.
Proof.
  intros Hno. unfold PkgConfigDependency.probe, result_bind.
  destruct (negb (pkgbin_truthy b)) eqn:Hb.
  { destruct (truthy _); [discriminate|]. intros [= <-]. reflexivity. }
  destruct b as [| |p]; try discriminate Hb.
  rewrite (_call_pkgbin_path w _ p) by reflexivity.
  change (PkgConfigDependency.name (PkgConfigDependency.set_type_string _ _))
    with (PkgConfigDependency.name self).
  destruct (Popen_safe w (p :: ["--modversion"; PkgConfigDependency.name self]))
    as [c out err|e] eqn:Hq; [|discriminate].
  destruct (c =? 0) eqn:Hc.
  { apply Z.eqb_eq in Hc. subst c. exfalso. exact (Hno p out err eq_refl Hq). }
  cbn [negb]. destruct (truthy _); [discriminate|]. intros [= <-]. reflexivity.
Qed.

(** The pkg-config constructor for a module that pkg-config does not
    know: it raises, or what it builds is not found. *)
Lemma pkgconfig_init_unknown w name environment kwargs st d st' :
  pkgconfig_does_not_know w name environment kwargs st ->
  PkgConfigDependency.__init__ w name environment kwargs st = (Ok d, st') ->
  PkgConfigDependency.found d = false.
Proof.
  intros Hno. unfold PkgConfigDependency.__init__, bind, lift.
  destruct (PkgConfigDependency.init_attributes w name environment kwargs)
    as [self|e] eqn:Hinit; [|discriminate].
  destruct (init_attributes_want_cross _ _ _ _ _ Hinit) as (_ & Hname & _).
  destruct (PkgConfigDependency.find_pkgbin w self environment st) as [[b|e] st1] eqn:Hf;
    [|discriminate].
  intros [= Hprobe <-]. eapply probe_unknown; [|exact Hprobe].
  intros p out err ->. rewrite Hname. exact (Hno self p st1 out err Hinit Hf).
Qed.

(** C1, as the code has it. A name that is not a registered kind,
    requested with [required=false], when every probe that runs
    completes and discovers nothing: the dispatcher raises nothing and
    hands back an object whose [found()] is false. Off OSX the probe is
    pkg-config, with the method left to the code or set to
    ['pkgconfig']; on OSX it is the framework scan, whatever became of
    pkg-config. *)
Theorem optional_undiscoverable_not_found :
  forall k w name environment kwargs st,
    kwargs !! "required" = Some (VBool false) ->
    packages k !! Str.lower name = None ->
    probes_find_nothing w name environment kwargs st ->
    exists dep st',
      find_external_dependency k w name environment kwargs st = (Ok dep, st')
      /\ found dep = false.
Proof.
  intros k w name environment kwargs st Hreq Hpkg Hprobes.
  rewrite find_external_dependency_generic by (rewrite ?Hreq; auto).
  unfold probes_find_nothing in Hprobes. rewrite Hreq. cbn [default].
  destruct (is_osx w) eqn:Hosx.
  - destruct Hprobes as (Hm & Hno & Hfw).
    destruct (framework_init_not_found w name (VBool false) kwargs Hm Hfw)
      as (fwdep & Hinit & Hnf).
    assert (Hafter : forall attempt st',
               after_pkgconfig w name (VBool false) kwargs attempt st'
               = (Ok (ExtraFrameworkObject fwdep), st')).
    { intros attempt st'. unfold after_pkgconfig. rewrite Hosx.
      unfold bind, lift. rewrite Hinit. reflexivity. }
    destruct (PkgConfigDependency.__init__ w name environment kwargs st)
      as [[d|e] st'] eqn:E.
    + rewrite (pkgconfig_init_unknown _ _ _ _ _ _ _ Hno E), Hafter.
      eexists _, _. split; [reflexivity | exact Hnf].
    + rewrite Hafter. eexists _, _. split; [reflexivity | exact Hnf].
  - destruct Hprobes as (Hacc & Hsearch & Habs).
    destruct (pkgconfig_init_absent w name environment kwargs st Hacc Hsearch Habs)
      as (st' & Hopt & _).
    destruct Hopt as (d & -> & Hd); [rewrite Hreq; reflexivity|].
    unfold PkgConfigDependency.found. rewrite Hd.
    unfold after_pkgconfig. rewrite Hosx.
    exists (PkgConfigObject d), st'. split; [reflexivity | exact Hd].
Qed.

(** pkg-config is installed and knows no such module. *)
Lemma no_pkgconfig_module_absent w name environment kwargs st :
  no_pkgconfig_module w name -> pkgconfig_reports_absent w name environment kwargs st.
Proof. intros H self p st' _ _. apply H. Qed.

Lemma no_pkgconfig_module_unknown w name environment kwargs st :
  no_pkgconfig_module w name -> pkgconfig_does_not_know w name environment kwargs st.
Proof.
  intros H self p st' out err _ _ Hq.
  destruct (H p) as (c & out' & err' & Hl & Hc). rewrite Hl in Hq.
  injection Hq as -> _ _. contradiction.
Qed.

(** pkg-config is not installed, in a process that has not looked for
    it yet. *)
Lemma no_pkgconfig_binary_absent w name environment kwargs st :
  no_pkgconfig_binary w ->
  PkgConfigDependency.want_cross_of environment kwargs = false ->
  class_pkgbin st = PkgNone ->
  pkgconfig_reports_absent w name environment kwargs st.
Proof.
  intros Hno Hnative Hfresh self p st' Hinit Hfind. exfalso.
  apply init_attributes_want_cross in Hinit as (Hw & _). rewrite Hnative in Hw.
  rewrite (find_pkgbin_uncached w self environment st Hw Hfresh) in Hfind.
  pose proof (check_pkgconfig_outcome w self st) as Hout.
  destruct (Hno [pkgconfig_command w; "--version"]) as [e He].
  rewrite He in Hout. destruct (caught_on_launch e); rewrite Hout in Hfind;
    discriminate Hfind.
Qed.

Lemma linux_empty_undiscoverable name environment kwargs st :
  undiscoverable linux_empty name environment kwargs st.
Proof.
  split.
  - apply no_pkgconfig_module_absent.
    intros bin. exists 1, "", "". split; [reflexivity | lia].
  - discriminate.
Qed.

Lemma optional_undiscoverable_not_found_witness :
  (exists dep st',
     find_external_dependency no_kinds linux_empty "nonexistent" native_build
       {[ "required" := VBool false; "method" := VStr "pkgconfig" ]} initial_state
     = (Ok dep, st')
     /\ found dep = false)
  /\ (exists dep st',
        find_external_dependency no_kinds linux_bare "nonexistent" native_build
          {[ "required" := VBool false ]} initial_state = (Ok dep, st')
        /\ found dep = false)
  /\ (exists dep st',
        find_external_dependency no_kinds osx_empty "nonexistent" native_build
          {[ "required" := VBool false ]} initial_state = (Ok dep, st')
        /\ found dep = false).
Proof.
  split; [|split]; apply optional_undiscoverable_not_found.
  - reflexivity.
  - reflexivity.
  - split; [split; [right|]; reflexivity|]. split.
    + intros _ _. exact I.
    + apply linux_empty_undiscoverable.
  - reflexivity.
  - reflexivity.
  - split; [split; [left|]; reflexivity|]. split.
    + intros _ _. reflexivity.
    + apply no_pkgconfig_binary_absent; [|reflexivity|reflexivity].
      intros cmd. eexists. reflexivity.
  - reflexivity.
  - reflexivity.
  - split; [reflexivity|]. split.
    + apply no_pkgconfig_module_unknown.
      intros bin. exists 1, "", "". split; [reflexivity | lia].
    + eexists. split; [reflexivity|]. repeat constructor.
Defined.

Example optional_on_osx :
  exists d st',
    find_external_dependency no_kinds osx_empty "nonexistent" native_build
      {[ "required" := VBool false ]} initial_state = (Ok (ExtraFrameworkObject d), st')
    /\ ExtraFrameworkDependency.found d = false.
Proof. eexists _, _. vm_compute. split; reflexivity. Qed.

(** C1 as it is worded fails where a probe ends in an exception: the
    name is not registered, no probe discovers it and the request has
    [required=false], yet the dispatcher raises. On OSX a method other
    than ['auto'] is rejected by the framework constructor, and a
    matching entry of the framework root that [os.stat] cannot examine
    ends the scan; off OSX the exception of the pkg-config constructor
    is raised again, as when the cached binary is gone or when the
    search for the binary itself fails. *)
Lemma optional_probe_raises_counterexample :
  packages no_kinds !! Str.lower "foo" = None
  /\ (exists st',
        find_external_dependency no_kinds osx_empty "foo" native_build
          {[ "required" := VBool false; "method" := VStr "pkgconfig" ]} initial_state
        = (Raise (MesonException
                    (Dependency.unsupported_method osx_empty (VStr "pkgconfig") ["auto"])),
           st'))
  /\ (exists st',
        find_external_dependency no_kinds osx_broken_link "foo" native_build
          {[ "required" := VBool false ]} initial_state
        = (Raise OSError, st'))
  /\ (exists st',
        find_external_dependency no_kinds linux_bare "foo" native_build
          {[ "required" := VBool false ]}
          (searched (PkgPath "/usr/bin/pkg-config") initial_state)
        = (Raise FileNotFoundError, st'))
  /\ (exists st',
        find_external_dependency no_kinds linux_exec_error "foo" native_build
          {[ "required" := VBool false ]} initial_state
        = (Raise OSError, st')).
Proof.
  split; [reflexivity|].
  repeat split; eexists; vm_compute; reflexivity.
Qed.

(** ** Exceptions of the pkg-config variant in the dispatcher *)

(** C3 as it is worded: the name is not registered, the request has
    [required=false] and the pkg-config constructor raises (the module
    is known but its compile flags cannot be had); on a host that is not
    OSX the dispatcher raises that exception instead of handing back a
    not-found object. *)
Lemma optional_broken_flags_counterexample :
  packages no_kinds !! Str.lower "foo" = None
  /\ is_osx linux_broken_cflags = false
  /\ (exists msg st',
        PkgConfigDependency.__init__ linux_broken_cflags "foo" native_build
          {[ "required" := VBool false ]} initial_state
        = (Raise (DependencyException msg), st'))
  /\ (exists msg st',
        find_external_dependency no_kinds linux_broken_cflags "foo" native_build
          {[ "required" := VBool false ]} initial_state
        = (Raise (DependencyException msg), st')).
Proof.
  split; [reflexivity|]. split; [reflexivity|].
  split; eexists _, _; vm_compute; reflexivity.
Qed.

(** C3, as the code has it. When the pkg-config constructor raises on a
    name that is not registered: off OSX the dispatcher raises the same
    exception, whatever [required] is; on OSX it goes on to the
    framework scan and hands back what the scan built unless the
    dependency is required and the scan found nothing, and in that one
    case the text of the captured exception goes into the format string
    of the [DependencyException] that the dispatcher raises. *)
Theorem captured_exception_outcome :
  forall k w name environment kwargs st e st',
    is_bool (default (VBool true) (kwargs !! "required")) = true ->
    packages k !! Str.lower name = None ->
    PkgConfigDependency.__init__ w name environment kwargs st = (Raise e, st') ->
    (is_osx w = false ->
     find_external_dependency k w name environment kwargs st = (Raise e, st'))
    /\ (is_osx w = true ->
        forall fwdep,
          ExtraFrameworkDependency.__init__ w name
            (default (VBool true) (kwargs !! "required")) None kwargs = Ok fwdep ->
          (truthy (default (VBool true) (kwargs !! "required")) = false
           \/ ExtraFrameworkDependency.found fwdep = true ->
           find_external_dependency k w name environment kwargs st
           = (Ok (ExtraFrameworkObject fwdep), st'))
          /\ (truthy (default (VBool true) (kwargs !! "required")) = true ->
              ExtraFrameworkDependency.found fwdep = false ->
              forall m,
                str_format w (tried_message w (Some e)) [name] = Ok m ->
                find_external_dependency k w name environment kwargs st
                = (Raise (DependencyException m), st'))).
Proof.
  intros k w name environment kwargs st e st' Hb Hp Hinit.
  rewrite (find_external_dependency_generic _ _ _ _ _ _ Hb Hp), Hinit.
  unfold after_pkgconfig. split.
  - intros ->. reflexivity.
  - intros -> fwdep Hfw. unfold bind, lift. rewrite Hfw. split.
    + intros [Hr|Hf].
      * rewrite Hr. reflexivity.
      * rewrite Hf, andb_false_r. reflexivity.
    + intros Hr Hf m Hm. rewrite Hr, Hf, Hm. reflexivity.
Qed.

Lemma captured_exception_outcome_witness :
  exists msg st',
    find_external_dependency no_kinds linux_broken_cflags "foo" native_build
      {[ "required" := VBool false ]} initial_state
    = (Raise (DependencyException msg), st')
    /\ PkgConfigDependency.__init__ linux_broken_cflags "foo" native_build
         {[ "required" := VBool false ]} initial_state
       = (Raise (DependencyException msg), st').
Proof.
  assert (Hinit : exists msg,
             PkgConfigDependency.__init__ linux_broken_cflags "foo" native_build
               {[ "required" := VBool false ]} initial_state
             = (Raise (DependencyException msg),
                searched (PkgPath "pkg-config") initial_state)).
  { eexists. vm_compute. reflexivity. }
  destruct Hinit as [msg Hinit].
  exists msg, (searched (PkgPath "pkg-config") initial_state).
  split; [|exact Hinit].
  apply (captured_exception_outcome no_kinds linux_broken_cflags "foo" native_build
           {[ "required" := VBool false ]} initial_state _ _);
    [reflexivity | reflexivity | exact Hinit | reflexivity].
Defined.

(** ** A required dependency that no probe discovers *)

(** A registered kind whose constructor builds an object that is not
    found: the dispatcher raises [DependencyException]; an exception of
    the constructor passes through as it is. *)
Lemma registered_not_found_raises k w name environment kwargs st (cls : constructor) :
  is_bool (default (VBool true) (kwargs !! "required")) = true ->
  truthy (default (VBool true) (kwargs !! "required")) = true ->
  packages k !! Str.lower name = Some cls ->
  (forall dep st', cls w environment kwargs st = (Ok dep, st') -> found dep = false ->
     find_external_dependency k w name environment kwargs st
     = (Raise (DependencyException (kind_not_found_message name)), st'))
  /\ (forall e st', cls w environment kwargs st = (Raise e, st') ->
        find_external_dependency k w name environment kwargs st = (Raise e, st')).
Proof.
  intros Hb Hr Hp. unfold find_external_dependency. cbv zeta. rewrite Hb, Hp, Hr.
  cbn [negb]. unfold bind. split.
  - intros dep st' -> Hf. rewrite Hf. reflexivity.
  - intros e st' ->. reflexivity.
Qed.

Lemma contains_char_app c a b :
  Str.contains_char c (a +:+ b) = Str.contains_char c a || Str.contains_char c b.
Proof.
  induction a as [|x a IH]; [reflexivity|].
  rewrite append_cons. simpl. rewrite IH, orb_assoc. reflexivity.
Qed.

Lemma no_braces_app a b : no_braces (a +:+ b) = no_braces a && no_braces b.
Proof.
  unfold no_braces. rewrite !contains_char_app.
  destruct (Str.contains_char "{" a), (Str.contains_char "{" b),
    (Str.contains_char "}" a), (Str.contains_char "}" b); reflexivity.
Qed.

Lemma no_braces_cons c s :
  no_braces (String c s) = true ->
  Str.ceqb c "{" = false /\ Str.ceqb c "}" = false /\ no_braces s = true.
Proof.
  unfold no_braces. simpl. unfold Str.ceqb.
  destruct (bool_decide ("{"%char = c)) eqn:E1; [discriminate|].
  destruct (bool_decide ("}"%char = c)) eqn:E2; [rewrite andb_false_r; discriminate|].
  apply bool_decide_eq_false in E1, E2. simpl. intros H.
  repeat split; try exact H; apply bool_decide_eq_false_2; congruence.
Qed.

Lemma fmt_push_append c s o : fmt_push c (fmt_append s o) = fmt_append (String c s) o.
Proof. destruct o; reflexivity. Qed.

(** Text without braces is copied as it is. *)
Lemma format_go_literal args n s t :
  no_braces s = true ->
  format_go args n None (s +:+ t) = fmt_append s (format_go args n None t).
Proof.
  induction s as [|c s IH]; intros H.
  - change ("" +:+ t) with t. destruct (format_go args n None t); reflexivity.
  - apply no_braces_cons in H as (H1 & H2 & H3).
    rewrite append_cons. simpl. rewrite H1, H2, (IH H3). apply fmt_push_append.
Qed.

Lemma append_empty_r (s : string) : s +:+ "" = s.
Proof. induction s as [|c s IH]; [reflexivity|]. rewrite append_cons, IH. reflexivity. Qed.

Lemma repr_char_no_braces q c :
  q = Str.squote \/ q = Str.dquote ->
  Str.ceqb c "{" = false -> Str.ceqb c "}" = false ->
  no_braces (Str.repr_char q c) = true.
Proof.
  intros [-> | ->];
    destruct c as [[] [] [] [] [] [] [] []]; intros H1 H2;
    first [ vm_compute; reflexivity
          | vm_compute in H1; discriminate H1
          | vm_compute in H2; discriminate H2 ].
Qed.

Lemma repr_body_no_braces q s :
  q = Str.squote \/ q = Str.dquote ->
  no_braces s = true -> no_braces (Str.repr_body q s) = true.
Proof.
  intros Hq. induction s as [|c s IH]; intros H; [reflexivity|].
  apply no_braces_cons in H as (H1 & H2 & H3). simpl.
  rewrite no_braces_app, (repr_char_no_braces q c Hq H1 H2), (IH H3). reflexivity.
Qed.

Lemma repr_no_braces s : no_braces s = true -> no_braces (Str.repr s) = true.
Proof.
  intros H. unfold Str.repr.
  set (q := if _ && _ then Str.dquote else Str.squote).
  assert (Hq : q = Str.squote \/ q = Str.dquote).
  { unfold q. destruct (_ && _); [right | left]; reflexivity. }
  change (String q (Str.repr_body q s +:+ Str.of_char q))
    with (Str.of_char q +:+ Str.repr_body q s +:+ Str.of_char q).
  rewrite !no_braces_app, (repr_body_no_braces q s Hq H).
  destruct Hq as [-> | ->]; reflexivity.
Qed.

Lemma format_go_plain args n s :
  no_braces s = true -> format_go args n None s = FmtOk s.
Proof.
  induction s as [|c s IH]; intros H; [reflexivity|].
  apply no_braces_cons in H as (H1 & H2 & H3).
  simpl. rewrite H1, H2, (IH H3). reflexivity.
Qed.

(** The one replacement field of the message: [repr] of the first
    argument. *)
Lemma format_go_repr_field name t :
  format_go [name] 0 None ("{!r}" +:+ t)
  = fmt_append (Str.repr name) (format_go [name] 1 None t).
Proof. vm_compute. reflexivity. Qed.

Lemma tried_message_split w e :
  tried_message w (Some e)
  = "Dependency " +:+ "{!r}" +:+ tried_tail +:+ str_exn w e.
Proof.
  unfold tried_message. generalize (str_exn w e). intros text.
  vm_compute. reflexivity.
Qed.

(** The message of line 1594 when the captured text has no braces. *)
Lemma str_format_tried_message w e name :
  no_braces (str_exn w e) = true ->
  str_format w (tried_message w (Some e)) [name]
  = Ok ("Dependency " +:+ Str.repr name +:+ tried_tail +:+ str_exn w e).
Proof.
  intros H. unfold str_format. rewrite tried_message_split.
  rewrite (format_go_literal [name] 0 "Dependency " _ eq_refl).
  rewrite format_go_repr_field.
  rewrite format_go_plain.
  - reflexivity.
  - rewrite no_braces_app, H. reflexivity.
Qed.

(** A required name that is not registered and that no probe
    discovers, when the search for pkg-config completes: the dispatcher
    raises [DependencyException], on OSX provided the name has no
    braces. *)
Lemma required_undiscoverable_raises k w name environment kwargs st :
  is_bool (default (VBool true) (kwargs !! "required")) = true ->
  truthy (default (VBool true) (kwargs !! "required")) = true ->
  plain_request kwargs ->
  search_can_complete w environment kwargs st ->
  packages k !! Str.lower name = None ->
  undiscoverable w name environment kwargs st ->
  is_osx w = false \/ no_braces name = true ->
  exists msg st',
    find_external_dependency k w name environment kwargs st
    = (Raise (DependencyException msg), st').
Proof.
  intros Hb Hr Hplain Hsearch Hp [Habs Hfw] Hside.
  rewrite (find_external_dependency_generic _ _ _ _ _ _ Hb Hp).
  destruct (pkgconfig_init_absent w name environment kwargs st
              (plain_request_accepted kwargs Hplain) Hsearch Habs)
    as (st' & _ & Hreq).
  destruct (Hreq Hr) as (msg & -> & Hmsg).
  unfold after_pkgconfig. destruct (is_osx w) eqn:Hosx.
  - destruct Hside as [Hside|Hname]; [discriminate|].
    destruct Hplain as [Hm _].
    destruct (framework_init_not_found w name (default (VBool true) (kwargs !! "required"))
                kwargs Hm (Hfw eq_refl)) as (fwdep & Hinit & Hnf).
    unfold bind, lift. rewrite Hinit, Hr, Hnf. cbn [negb andb].
    rewrite str_format_tried_message.
    + eexists _, _. reflexivity.
    + simpl str_exn.
      destruct Hmsg as [-> | [-> | (ts & Hts & ->)]]; try reflexivity.
      unfold PkgConfigDependency.not_found_message.
      rewrite !no_braces_app, (repr_no_braces name Hname).
      destruct Hts as [-> | ->]; reflexivity.
  - eexists _, _. reflexivity.
Qed.

(** C2. On OSX, pkg-config installed, a required name with braces that
    is not registered and that no probe discovers: the text of the
    captured pkg-config exception, which quotes the name, is part of the
    string on which [format] is called, the braces are read as a
    replacement field and the dispatcher ends in [KeyError], not in a
    [DependencyException]. *)
Theorem required_name_with_braces_KeyError :
  packages no_kinds !! Str.lower "lib{x}" = None
  /\ undiscoverable osx_empty "lib{x}" native_build ∅ initial_state
  /\ find_external_dependency no_kinds osx_empty "lib{x}" native_build ∅ initial_state
     = (Raise (KeyError "x"), searched (PkgPath "pkg-config") initial_state)
  /\ is_DependencyException (KeyError "x") = false.
Proof.
  split; [reflexivity|]. split.
  - split.
    + apply no_pkgconfig_module_absent.
      intros bin. exists 1, "", "". split; [reflexivity | lia].
    + intros _. eexists. split; [reflexivity|].
      repeat constructor.
  - split; [vm_compute; reflexivity | reflexivity].
Qed.

(** * Further properties of the code *)

(** ** External programs: search, sharing and edge cases *)

Lemma alloc_other (h : ExternalProgram.heap) v l h' l' :
  ExternalProgram.alloc h v = (l, h') -> l' <> l -> h' !! l' = h !! l'.
Proof.
  intros H Hne. apply alloc_fresh in H as [_ ->].
  apply lookup_insert_ne. congruence.
Qed.

Lemma alloc_deref (h : ExternalProgram.heap) v l h' :
  ExternalProgram.alloc h v = (l, h') -> ExternalProgram.deref h' l = v.
Proof.
  intros H. apply alloc_fresh in H as [_ ->].
  unfold ExternalProgram.deref. rewrite lookup_insert_eq. reflexivity.
Qed.

(** The shapes of a searched command: the answer of [shutil.which], or
    strings only. *)
Lemma _search_shape w name search_dir :
  (exists x, ExternalProgram._search w name search_dir = [x])
  \/ (exists c cs, ExternalProgram._search w name search_dir = map Some (c :: cs)).
Proof.
  unfold ExternalProgram._search.
  destruct (ExternalProgram.found_commands _) as [l|] eqn:E.
  { right. pose proof (found_commands_nonempty _ _ E) as Hl.
    destruct l as [|c cs]; [contradiction|]. eauto. }
  destruct (negb (is_windows w)); [left; eauto|].
  destruct (ExternalProgram._search_windows _ _ _) as [l|] eqn:F; [|left; eauto].
  right. pose proof (_search_windows_nonempty _ _ _ _ F) as Hl.
  destruct l as [|c cs]; [contradiction|]. eauto.
Qed.

Lemma joinable_map_Some (cs : list string) : ExternalProgram.joinable (map Some cs) = true.
Proof. induction cs as [|c cs IH]; [reflexivity | exact IH]. Qed.

(** A searched command whose first element is a string holds strings
    only: the line of the log can be written. *)
Lemma _search_joinable w name search_dir x r :
  ExternalProgram._search w name search_dir = x :: r -> x <> None ->
  ExternalProgram.joinable (x :: r) = true.
Proof.
  intros Hs Hx. destruct (_search_shape w name search_dir) as [[y Hy]|(c & cs & Hc)].
  - rewrite Hy in Hs. injection Hs as <- <-. destruct y; [reflexivity | contradiction].
  - rewrite Hc in Hs. rewrite <- Hs. apply (joinable_map_Some (c :: cs)).
Qed.

(** A program built by search: the constructor does not raise, silent
    or not, and the command is what the search gave. *)
Lemma searched_program w name silent search_dir (h : ExternalProgram.heap) :
  exists p h',
    ExternalProgram.__init__ w name ExternalProgram.CmdNone silent search_dir h = (Ok p, h')
    /\ ExternalProgram.name p = name
    /\ h !! ExternalProgram.command p = None
    /\ ExternalProgram.deref h' (ExternalProgram.command p)
       = ExternalProgram._search w name search_dir
    /\ forall l, l <> ExternalProgram.command p -> h' !! l = h !! l.
Proof.
  unfold ExternalProgram.__init__.
  destruct (ExternalProgram.alloc h (ExternalProgram._search w name search_dir))
    as [l h'] eqn:A.
  pose proof (alloc_deref _ _ _ _ A) as Hd.
  pose proof (alloc_fresh _ _ _ _ A) as [Hfresh _].
  assert (Hfound : exists b, ExternalProgram.found
                     {| ExternalProgram.name := name; ExternalProgram.command := l |} h'
                   = Ok b).
  { unfold ExternalProgram.found. simpl. rewrite Hd.
    destruct (ExternalProgram._search w name search_dir) as [|x r] eqn:E.
    - exfalso. eapply _search_nonempty. exact E.
    - eexists. reflexivity. }
  destruct Hfound as [b Hb].
  exists {| ExternalProgram.name := name; ExternalProgram.command := l |}, h'.
  split.
  - destruct silent; [reflexivity|]. rewrite Hb.
    destruct b; [|reflexivity]. rewrite Hd.
    destruct (ExternalProgram._search w name search_dir) as [|x r] eqn:E.
    { exfalso. eapply _search_nonempty. exact E. }
    rewrite (_search_joinable w name search_dir x r E); [reflexivity|].
    revert Hb. unfold ExternalProgram.found. cbn [ExternalProgram.command].
    rewrite Hd. intros [= Hb]. apply bool_decide_eq_true in Hb. exact Hb.
  - simpl. repeat split; try assumption.
    intros l' Hne. eapply alloc_other; eassumption.
Qed.

(** X1. On a host that is not Windows, a program looked up by name
    alone is exactly what [shutil.which] answers: the command is the
    one-element list of that answer, the program is found if and only
    if the name is on PATH, [get_path] is the path found, and no other
    list of the heap is touched. *)
Theorem program_is_which_on_posix :
  forall w name silent (h : ExternalProgram.heap),
    is_windows w = false ->
    exists p h',
      ExternalProgram.__init__ w name ExternalProgram.CmdNone silent None h = (Ok p, h')
      /\ ExternalProgram.deref h' (ExternalProgram.command p) = [shutil_which w name]
      /\ ExternalProgram.found p h' = Ok (bool_decide (shutil_which w name <> None))
      /\ ExternalProgram.get_path p h' = Ok (shutil_which w name)
      /\ forall l, l <> ExternalProgram.command p -> h' !! l = h !! l.
Proof.
  intros w name silent h Hwin.
  destruct (searched_program w name silent None h) as (p & h' & Hinit & _ & _ & Hd & Hframe).
  assert (Hs : ExternalProgram._search w name None = [shutil_which w name]).
  { unfold ExternalProgram._search. simpl. rewrite Hwin. reflexivity. }
  rewrite Hs in Hd. exists p, h'. split; [exact Hinit|]. split; [exact Hd|].
  assert (Hf : ExternalProgram.found p h' = Ok (bool_decide (shutil_which w name <> None))).
  { unfold ExternalProgram.found. rewrite Hd. reflexivity. }
  split; [exact Hf|]. split; [|exact Hframe].
  unfold ExternalProgram.get_path. rewrite Hf, Hd.
  destruct (shutil_which w name); reflexivity.
Qed.

Lemma program_is_which_on_posix_witness :
  exists p h',
    ExternalProgram.__init__ linux_foo "moc" ExternalProgram.CmdNone true None ∅ = (Ok p, h')
    /\ ExternalProgram.found p h' = Ok false
    /\ ExternalProgram.get_path p h' = Ok None.
Proof.
  destruct (program_is_which_on_posix linux_foo "moc" true ∅ eq_refl)
    as (p & h' & Hinit & _ & Hfound & Hpath & _).
  exists p, h'. repeat split; assumption.
Defined.

(** What [_shebang_to_cmd] answers, when it answers, is an interpreter
    command followed by the script. *)
Lemma _shebang_to_cmd_script_last w script cmds :
  ExternalProgram._shebang_to_cmd w script = Some cmds ->
  exists interp, cmds = interp ++ [script].
Proof.
  unfold ExternalProgram._shebang_to_cmd.
  destruct (open_lines w script) as [lines|]; [|discriminate].
  destruct (Str.startswith "#!" _); [|discriminate].
  destruct (is_windows w).
  - destruct (Str.split _) as [|c0 rest]; [discriminate|].
    intros [= <-]. eexists. reflexivity.
  - intros [= <-]. eexists. reflexivity.
Qed.

Lemma first_some_elem {A B} (f : A -> option B) xs y :
  ExternalProgram.first_some f xs = Some y -> exists x, x ∈ xs /\ f x = Some y.
Proof.
  induction xs as [|x xs IH]; simpl; [discriminate|].
  destruct (f x) as [z|] eqn:E.
  - intros [= <-]. exists x. split; [left | exact E].
  - intros H. destruct (IH H) as (x' & Hin & Hx'). exists x'. split; [right|]; assumption.
Qed.

(** X2. A command found in a search directory ends in an existing file
    of that directory: the joined path of directory and name, possibly
    after an interpreter read from its first line, or that path with
    one of the four Windows extensions. *)
Theorem search_dir_command_in_dir :
  forall w name d cmds,
    ExternalProgram._search_dir w name (Some d) = Some cmds ->
    let trial := path_join (os_path w) d [name] in
    (path_exists w trial = true /\ exists interp, cmds = interp ++ [trial])
    \/ (path_exists w trial = false
        /\ exists ext, ext ∈ ExternalProgram.windows_exts
                       /\ path_exists w (trial +:+ "." +:+ ext) = true
                       /\ cmds = [trial +:+ "." +:+ ext]).
Proof.
  intros w name d cmds H trial. unfold ExternalProgram._search_dir in H.
  fold trial in H. destruct (path_exists w trial) eqn:E.
  - left. split; [reflexivity|].
    destruct (ExternalProgram._is_executable w trial).
    + injection H as <-. exists []. reflexivity.
    + apply _shebang_to_cmd_script_last in H. exact H.
  - right. split; [reflexivity|].
    apply first_some_elem in H as (ext & Hin & Hext). exists ext. split; [exact Hin|].
    simpl in Hext. destruct (path_exists w (trial +:+ "." +:+ ext)) eqn:E2; [|discriminate].
    injection Hext as <-. split; reflexivity.
Qed.

Lemma search_dir_command_in_dir_witness :
  ExternalProgram._search_dir script_host "run" (Some "/opt/bin")
  = Some ["/bin/sh"; "/opt/bin/run"]
  /\ path_exists script_host "/opt/bin/run" = true.
Proof.
  destruct (search_dir_command_in_dir script_host "run" "/opt/bin"
              ["/bin/sh"; "/opt/bin/run"] eq_refl)
    as [[Hex _]|(Hex & _)].
  - split; [reflexivity | exact Hex].
  - discriminate Hex.
Defined.

(** X3. A list passed as [command] is stored as it is, not copied: the
    program reads the caller's list, and whatever the caller does to
    that list afterwards is what the program sees. *)
Theorem constructor_shares_command_list :
  forall w name search_dir (h : ExternalProgram.heap) l cmd,
    h !! l = Some cmd ->
    exists p,
      ExternalProgram.__init__ w name (ExternalProgram.CmdList l) true search_dir h = (Ok p, h)
      /\ ExternalProgram.command p = l
      /\ forall f,
          ExternalProgram.deref (ExternalProgram.mutate l f h) (ExternalProgram.command p)
          = f cmd.
Proof.
  intros w name search_dir h l cmd Hl. eexists. split; [reflexivity|]. simpl.
  split; [reflexivity|]. intros f.
  unfold ExternalProgram.deref, ExternalProgram.mutate.
  rewrite lookup_alter_eq, Hl. reflexivity.
Qed.

Lemma constructor_shares_command_list_witness :
  exists p,
    ExternalProgram.__init__ linux_foo "moc" (ExternalProgram.CmdList 1%positive) true None
      moc_heap = (Ok p, moc_heap)
    /\ ExternalProgram.found p moc_heap = Ok true
    /\ ExternalProgram.found p (ExternalProgram.mutate 1%positive (fun _ => [None]) moc_heap)
       = Ok false.
Proof.
  destruct (constructor_shares_command_list linux_foo "moc" None moc_heap 1%positive
              [Some "/usr/bin/moc"] eq_refl) as (p & Hinit & Hcmd & Hshare).
  exists p. split; [exact Hinit|]. split.
  - unfold ExternalProgram.found. rewrite Hcmd. reflexivity.
  - unfold ExternalProgram.found. rewrite (Hshare (fun _ => [None])). reflexivity.
Defined.

(** X4. An empty list as [command]: a constructor that reports (not
    silent) raises [IndexError]; a silent one builds the program, and
    [found()] and [get_path()] raise [IndexError] when asked. *)
Theorem empty_command_IndexError :
  forall w name search_dir (h : ExternalProgram.heap) l,
    h !! l = Some [] ->
    ExternalProgram.__init__ w name (ExternalProgram.CmdList l) false search_dir h
    = (Raise IndexError, h)
    /\ exists p,
        ExternalProgram.__init__ w name (ExternalProgram.CmdList l) true search_dir h
        = (Ok p, h)
        /\ ExternalProgram.found p h = Raise IndexError
        /\ ExternalProgram.get_path p h = Raise IndexError.
Proof.
  intros w name search_dir h l Hl.
  assert (Hf : ExternalProgram.found
                 {| ExternalProgram.name := name; ExternalProgram.command := l |} h
               = Raise IndexError).
  { unfold ExternalProgram.found, ExternalProgram.deref. simpl. rewrite Hl. reflexivity. }
  split.
  - unfold ExternalProgram.__init__. rewrite Hf. reflexivity.
  - eexists. split; [reflexivity|]. split; [exact Hf|].
    unfold ExternalProgram.get_path. rewrite Hf. reflexivity.
Qed.

Lemma empty_command_IndexError_witness :
  ExternalProgram.__init__ linux_foo "moc" (ExternalProgram.CmdList 1%positive) false None
    {[ 1%positive := [] ]}
  = (Raise IndexError, {[ 1%positive := [] ]}).
Proof.
  apply (empty_command_IndexError linux_foo "moc" None {[ 1%positive := [] ]} 1%positive).
  reflexivity.
Defined.

Lemma last_map_Some (c : string) cs : exists s, List.last (map Some (c :: cs)) None = Some s.
Proof.
  revert c. induction cs as [|d cs IH]; intros c; [eexists; reflexivity|].
  destruct (IH d) as [s Hs]. exists s. exact Hs.
Qed.

(** X5. For a program built by search, on any platform and with or
    without a search directory, [found()] and [get_path()] do not raise
    and agree: the program is found exactly when [get_path()] is a
    path. *)
Theorem searched_program_found_iff_path :
  forall w name silent search_dir (h : ExternalProgram.heap),
    exists p h' b r,
      ExternalProgram.__init__ w name ExternalProgram.CmdNone silent search_dir h = (Ok p, h')
      /\ ExternalProgram.found p h' = Ok b
      /\ ExternalProgram.get_path p h' = Ok r
      /\ (b = true <-> r <> None).
Proof.
  intros w name silent search_dir h.
  destruct (searched_program w name silent search_dir h)
    as (p & h' & Hinit & _ & _ & Hd & _).
  exists p, h'. unfold ExternalProgram.get_path, ExternalProgram.found. rewrite Hd.
  destruct (_search_shape w name search_dir) as [[x ->]|(c & cs & ->)].
  - exists (bool_decide (x <> None)), (if bool_decide (x <> None) then x else None).
    split; [exact Hinit|]. split; [reflexivity|].
    destruct x; simpl; split; [reflexivity| |reflexivity|]; split; congruence.
  - destruct (last_map_Some c cs) as [s Hs].
    exists true, (Some s). split; [exact Hinit|]. split; [reflexivity|].
    split; [simpl bool_decide; cbv iota; rewrite Hs; reflexivity|].
    split; [discriminate | reflexivity].
Qed.

(** ** The pkg-config constructor: success, versions, keywords *)

Lemma libs_query_eq self :
  (if truthy (PkgConfigDependency.static self)
   then [PkgConfigDependency.name self; "--libs"] ++ ["--static"]
   else [PkgConfigDependency.name self; "--libs"])
  = libs_query (PkgConfigDependency.name self) (PkgConfigDependency.static self).
Proof. unfold libs_query. destruct (truthy _); reflexivity. Qed.

(** Both flag queries exit with zero and no token is a libtool
    archive. *)
Lemma fetch_flags_plain w self p cout cerr lout lerr :
  PkgConfigDependency.pkgbin self = PkgPath p ->
  Popen_safe w (p :: ["--cflags"; PkgConfigDependency.name self]) = Launched 0 cout cerr ->
  Popen_safe w (p :: libs_query (PkgConfigDependency.name self)
                        (PkgConfigDependency.static self)) = Launched 0 lout lerr ->
  Forall plain_token (Str.split (Str.strip lout)) ->
  PkgConfigDependency.fetch_flags w self
  = Ok (PkgConfigDependency.set_libs (Str.split (Str.strip lout))
          (PkgConfigDependency.is_libtool self)
          (PkgConfigDependency.set_cargs (Str.split (Str.strip cout)) self)).
Proof.
  intros Hp Hc Hl Hplain.
  unfold PkgConfigDependency.fetch_flags, PkgConfigDependency._set_cargs, result_bind.
  rewrite (_call_pkgbin_path w self p _ Hp), Hc.
  change (negb (0 =? 0)) with false. cbv iota.
  unfold PkgConfigDependency._set_libs, result_bind.
  rewrite libs_query_eq.
  rewrite (_call_pkgbin_path w _ p) by exact Hp.
  change (PkgConfigDependency.name (PkgConfigDependency.set_cargs _ self))
    with (PkgConfigDependency.name self).
  change (PkgConfigDependency.static (PkgConfigDependency.set_cargs _ self))
    with (PkgConfigDependency.static self).
  rewrite Hl. change (negb (0 =? 0)) with false. cbv iota.
  rewrite (_set_libs_loop_plain w _ [] _ Hplain). reflexivity.
Qed.

(** X6. The constructor on a module that pkg-config knows: when the
    module-version query exits with zero, the version constraints hold
    or there are none, both flag queries exit with zero and no link
    token is a libtool archive, the object is found, its version is the
    stripped output of the first query and its compile and link
    arguments are the white-space separated tokens of the other two, in
    order; for a name that is not registered the dispatcher hands back
    that object, on OSX too. *)
Theorem pkgconfig_found_with_flags :
  forall k w name environment kwargs st self p st' version err cout cerr lout lerr,
    PkgConfigDependency.init_attributes w name environment kwargs = Ok self ->
    PkgConfigDependency.find_pkgbin w self environment st = (Ok (PkgPath p), st') ->
    p <> EmptyString ->
    Popen_safe w (p :: ["--modversion"; name]) = Launched 0 version err ->
    version_satisfied w kwargs (Str.strip version) ->
    Popen_safe w (p :: ["--cflags"; name]) = Launched 0 cout cerr ->
    Popen_safe w (p :: libs_query name (default (VBool false) (kwargs !! "static")))
    = Launched 0 lout lerr ->
    Forall plain_token (Str.split (Str.strip lout)) ->
    exists d,
      PkgConfigDependency.__init__ w name environment kwargs st = (Ok d, st')
      /\ PkgConfigDependency.found d = true
      /\ PkgConfigDependency.get_version d = Str.strip version
      /\ PkgConfigDependency.get_compile_args d = Str.split (Str.strip cout)
      /\ PkgConfigDependency.get_link_args d = Str.split (Str.strip lout)
      /\ PkgConfigDependency.is_libtool d = false
      /\ (is_bool (default (VBool true) (kwargs !! "required")) = true ->
          packages k !! Str.lower name = None ->
          find_external_dependency k w name environment kwargs st
          = (Ok (PkgConfigObject d), st')).
Proof.
  intros k w name environment kwargs st self p st' version err cout cerr lout lerr
    Hinit Hfind Hp Hmod Hver Hc Hl Hplain.
  destruct (init_attributes_want_cross _ _ _ _ _ Hinit)
    as (_ & Hname & _ & Hstatic & Hlt).
  rewrite <- Hname in Hmod, Hc, Hl. rewrite <- Hstatic in Hl.
  assert (Hprobe : exists d,
             PkgConfigDependency.probe w kwargs self (PkgPath p) = Ok d
             /\ PkgConfigDependency.found d = true
             /\ PkgConfigDependency.get_version d = Str.strip version
             /\ PkgConfigDependency.get_compile_args d = Str.split (Str.strip cout)
             /\ PkgConfigDependency.get_link_args d = Str.split (Str.strip lout)
             /\ PkgConfigDependency.is_libtool d = false).
  { unfold PkgConfigDependency.probe, result_bind.
    rewrite (pkgbin_truthy_path p Hp). simpl negb. cbv iota.
    rewrite (_call_pkgbin_path w _ p) by reflexivity.
    change (PkgConfigDependency.name (PkgConfigDependency.set_type_string _ _))
      with (PkgConfigDependency.name self).
    rewrite Hmod. change (negb (0 =? 0)) with false. cbv iota.
    unfold version_satisfied in Hver.
    destruct (default VNone (kwargs !! "version")) as [|v|s|l].
    - erewrite fetch_flags_plain; [|reflexivity|exact Hc|exact Hl|exact Hplain].
      eexists. split; [reflexivity|]. simpl. rewrite Hlt. repeat split.
    - contradiction.
    - destruct Hver as (nf & f & Hv).
      unfold PkgConfigDependency.check_version, result_bind.
      change (PkgConfigDependency.modversion (PkgConfigDependency.set_version_reqs _ _))
        with (Str.strip version).
      rewrite Hv. simpl negb. cbv iota.
      erewrite fetch_flags_plain; [|reflexivity|exact Hc|exact Hl|exact Hplain].
      eexists. split; [reflexivity|]. simpl. rewrite Hlt. repeat split.
    - destruct Hver as (nf & f & Hv).
      unfold PkgConfigDependency.check_version, result_bind.
      change (PkgConfigDependency.modversion (PkgConfigDependency.set_version_reqs _ _))
        with (Str.strip version).
      rewrite Hv. simpl negb. cbv iota.
      erewrite fetch_flags_plain; [|reflexivity|exact Hc|exact Hl|exact Hplain].
      eexists. split; [reflexivity|]. simpl. rewrite Hlt. repeat split. }
  destruct Hprobe as (d & Hprobe & Hfound & Hrest).
  assert (Hrun : PkgConfigDependency.__init__ w name environment kwargs st = (Ok d, st')).
  { unfold PkgConfigDependency.__init__, bind, lift. rewrite Hinit, Hfind, Hprobe.
    reflexivity. }
  exists d. split; [exact Hrun|]. split; [exact Hfound|].
  destruct Hrest as (H1 & H2 & H3 & H4). repeat split; try assumption.
  intros Hb Hpkg.
  rewrite (find_external_dependency_generic _ _ _ _ _ _ Hb Hpkg), Hrun, Hfound.
  reflexivity.
Qed.

Lemma pkgconfig_found_with_flags_witness :
  exists d,
    find_external_dependency no_kinds linux_foo "foo" native_build
      {[ "version" := VList [VStr ">=2.0"] ]} initial_state
    = (Ok (PkgConfigObject d), searched (PkgPath "pkg-config") initial_state)
    /\ PkgConfigDependency.get_version d = "2.4.3"
    /\ PkgConfigDependency.get_compile_args d = ["-I/usr/include/foo"]
    /\ PkgConfigDependency.get_link_args d = ["-lfoo"].
Proof.
  pose proof (fun self st' =>
                pkgconfig_found_with_flags no_kinds linux_foo "foo" native_build
                  {[ "version" := VList [VStr ">=2.0"] ]} initial_state self "pkg-config" st'
                  "2.4.3" "" "-I/usr/include/foo" "" "-lfoo" "") as H.
  edestruct H as (d & _ & _ & Hv & Hc & Hl & _ & Hfed);
    [reflexivity | reflexivity | discriminate | reflexivity
    | eexists _, _; reflexivity | reflexivity | reflexivity | repeat constructor | ].
  exists d. split; [apply Hfed; reflexivity|]. repeat split; assumption.
Defined.

(** X7. A module that pkg-config knows in a version that does not meet
    the constraints of the request: an optional dependency is built not
    found, keeps the version that was found and has no compile or link
    argument (the flags are not asked for); a required one raises
    [DependencyException] with the constraints that are not met and the
    version found. *)
Theorem unmet_version_not_found :
  forall w name environment kwargs st self p st' version err reqs not_found found,
    PkgConfigDependency.init_attributes w name environment kwargs = Ok self ->
    PkgConfigDependency.find_pkgbin w self environment st = (Ok (PkgPath p), st') ->
    p <> EmptyString ->
    Popen_safe w (p :: ["--modversion"; name]) = Launched 0 version err ->
    requested_versions kwargs = Some reqs ->
    version_compare_many w (Str.strip version) reqs = Ok (false, not_found, found) ->
    (truthy (default (VBool true) (kwargs !! "required")) = false ->
     exists d,
       PkgConfigDependency.__init__ w name environment kwargs st = (Ok d, st')
       /\ PkgConfigDependency.found d = false
       /\ PkgConfigDependency.get_version d = Str.strip version
       /\ PkgConfigDependency.get_compile_args d = []
       /\ PkgConfigDependency.get_link_args d = [])
    /\ (truthy (default (VBool true) (kwargs !! "required")) = true ->
        PkgConfigDependency.__init__ w name environment kwargs st
        = (Raise (DependencyException
                    (PkgConfigDependency.invalid_version_message name not_found
                       (Str.strip version))), st')).
Proof.
  intros w name environment kwargs st self p st' version err reqs nf fd
    Hinit Hfind Hp Hmod Hreqs Hcmp.
  assert (Hattr : PkgConfigDependency.cargs self = [] /\ PkgConfigDependency.libs self = []).
  { revert Hinit. unfold PkgConfigDependency.init_attributes, result_bind.
    destruct (Dependency.__init__ _ _ _ _); [|discriminate].
    destruct (negb _); [discriminate|]. intros [= <-]. split; reflexivity. }
  destruct Hattr as [Hcargs Hlibs].
  destruct (init_attributes_want_cross _ _ _ _ _ Hinit) as (_ & Hname & Hreq & _).
  rewrite <- Hname in Hmod. rewrite <- Hreq.
  assert (Hprobe :
            PkgConfigDependency.probe w kwargs self (PkgPath p)
            = PkgConfigDependency.check_version w
                (PkgConfigDependency.set_version_reqs (default VNone (kwargs !! "version"))
                   (PkgConfigDependency.set_modversion (Str.strip version)
                      (PkgConfigDependency.set_type_string
                         (if PkgConfigDependency.want_cross self then "Cross" else "Native")
                         (PkgConfigDependency.set_is_found false
                            (PkgConfigDependency.set_pkgbin (PkgPath p) self)))))
                reqs).
  { unfold PkgConfigDependency.probe, result_bind.
    rewrite (pkgbin_truthy_path p Hp). simpl negb. cbv iota.
    rewrite (_call_pkgbin_path w _ p) by reflexivity.
    change (PkgConfigDependency.name (PkgConfigDependency.set_type_string _ _))
      with (PkgConfigDependency.name self).
    rewrite Hmod. change (negb (0 =? 0)) with false. cbv iota.
    unfold requested_versions in Hreqs.
    destruct (default VNone (kwargs !! "version")) as [|v|s|l];
      try discriminate Hreqs; injection Hreqs as <-; reflexivity. }
  unfold PkgConfigDependency.__init__, bind, lift. rewrite Hinit, Hfind, Hprobe.
  unfold PkgConfigDependency.check_version, result_bind.
  change (PkgConfigDependency.modversion (PkgConfigDependency.set_version_reqs _ _))
    with (Str.strip version).
  rewrite Hcmp. simpl negb. cbv iota.
  change (PkgConfigDependency.required (PkgConfigDependency.set_is_found _ _))
    with (PkgConfigDependency.required self).
  change (PkgConfigDependency.name (PkgConfigDependency.set_is_found _ _))
    with (PkgConfigDependency.name self).
  rewrite Hname.
  split; intros Hr; rewrite Hr.
  - eexists. split; [reflexivity|]. simpl. rewrite Hcargs, Hlibs. repeat split.
  - change (PkgConfigDependency.modversion (PkgConfigDependency.set_is_found _ _))
      with (Str.strip version).
    reflexivity.
Qed.

Lemma unmet_version_not_found_witness :
  exists d,
    PkgConfigDependency.__init__ linux_foo_too_old "foo" native_build
      {[ "version" := VStr ">=3.0"; "required" := VBool false ]} initial_state
    = (Ok d, searched (PkgPath "pkg-config") initial_state)
    /\ PkgConfigDependency.found d = false
    /\ PkgConfigDependency.get_version d = "2.4.3".
Proof.
  pose proof (fun self st' =>
                unmet_version_not_found linux_foo_too_old "foo" native_build
                  {[ "version" := VStr ">=3.0"; "required" := VBool false ]} initial_state
                  self "pkg-config" st' "2.4.3" "" [VStr ">=3.0"] [VStr ">=3.0"] []) as H.
  edestruct H as [Hopt _];
    [reflexivity | reflexivity | discriminate | reflexivity | reflexivity | reflexivity |].
  destruct Hopt as (d & Hrun & Hf & Hv & _); [reflexivity|].
  exists d. repeat split; assumption.
Defined.

(** X8. The keywords are checked before pkg-config is looked for: an
    unsupported [method] raises [MesonException] and, when the method
    is accepted, a [static] that is not a boolean raises
    [DependencyException]; either way nothing is searched, run or
    cached. *)
Theorem malformed_request_raises_first :
  forall w name environment (kwargs : gmap string value) st,
    (forall v, kwargs !! "method" = Some v -> v <> VStr "auto" -> v <> VStr "pkgconfig" ->
       exists msg,
         PkgConfigDependency.__init__ w name environment kwargs st
         = (Raise (MesonException msg), st))
    /\ (default (VStr "auto") (kwargs !! "method") = VStr "auto"
        \/ kwargs !! "method" = Some (VStr "pkgconfig") ->
        is_bool (default (VBool false) (kwargs !! "static")) = false ->
        PkgConfigDependency.__init__ w name environment kwargs st
        = (Raise (DependencyException "Static keyword must be boolean"), st)).
Proof.
  intros w name environment kwargs st. split.
  - intros v Hv Hauto Hpkg.
    assert (Hdep : Dependency.__init__ w ClsPkgConfigDependency "pkgconfig" kwargs
                   = Raise (MesonException
                              (Dependency.unsupported_method w v
                                 (get_methods w ClsPkgConfigDependency)))).
    { apply Dependency_init_unsupported; [exact Hv | exact Hauto|].
      intros m -> Hin. simpl in Hin. apply list_elem_of_singleton in Hin. congruence. }
    eexists. unfold PkgConfigDependency.__init__, bind, lift,
      PkgConfigDependency.init_attributes, result_bind. rewrite Hdep. reflexivity.
  - intros Hm Hs.
    assert (Hdep : exists base,
               Dependency.__init__ w ClsPkgConfigDependency "pkgconfig" kwargs = Ok base).
    { destruct Hm as [Hm|Hm].
      - eexists. apply Dependency_init_auto. exact Hm.
      - eexists. apply (Dependency_init_declared w _ _ kwargs "pkgconfig" Hm).
        + discriminate.
        + simpl. apply list_elem_of_singleton. reflexivity. }
    destruct Hdep as [base Hdep].
    unfold PkgConfigDependency.__init__, bind, lift,
      PkgConfigDependency.init_attributes, result_bind. rewrite Hdep, Hs. reflexivity.
Qed.

Lemma malformed_request_raises_first_witness :
  PkgConfigDependency.__init__ linux_foo "foo" native_build
    {[ "static" := VStr "yes" ]} initial_state
  = (Raise (DependencyException "Static keyword must be boolean"), initial_state)
  /\ exists msg,
      PkgConfigDependency.__init__ linux_foo "foo" native_build
        {[ "method" := VStr "qmake"; "static" := VStr "yes" ]} initial_state
      = (Raise (MesonException msg), initial_state).
Proof.
  split.
  - apply (malformed_request_raises_first linux_foo "foo" native_build
             {[ "static" := VStr "yes" ]} initial_state); [left|]; reflexivity.
  - apply (malformed_request_raises_first linux_foo "foo" native_build
             {[ "method" := VStr "qmake"; "static" := VStr "yes" ]} initial_state)
      with (v := VStr "qmake"); [reflexivity | discriminate | discriminate].
Defined.

(** ** Cross builds and the cache *)

(** The binary of a cross construction: the first element of the
    command that the search for the name in the cross file gives. *)
Lemma find_pkgbin_cross w self environment st :
  PkgConfigDependency.want_cross self = true ->
  match cross_binaries environment !! "pkgconfig" with
  | None =>
      PkgConfigDependency.find_pkgbin w self environment st
      = if truthy (PkgConfigDependency.required self)
        then (Raise (DependencyException "Pkg-config binary missing from cross file"), st)
        else (Ok (PkgConfigDependency.pkgbin self), st)
  | Some pkgname =>
      exists x r,
        ExternalProgram._search w pkgname None = x :: r
        /\ PkgConfigDependency.find_pkgbin w self environment st
           = match x with
             | Some p => (Ok (PkgPath p), assigned (PkgPath p) st)
             | None => (Ok (PkgConfigDependency.pkgbin self), st)
             end
  end.
Proof.
  intros Hw. unfold PkgConfigDependency.find_pkgbin. rewrite Hw.
  destruct (cross_binaries environment !! "pkgconfig") as [pkgname|].
  - destruct (searched_program w pkgname true None ∅) as (p & h & Hinit & _ & _ & Hd & _).
    destruct (ExternalProgram._search w pkgname None) as [|x r] eqn:E.
    { exfalso. eapply _search_nonempty. exact E. }
    exists x, r. split; [reflexivity|].
    rewrite Hinit. unfold bind, lift, ExternalProgram.found. rewrite Hd.
    destruct x as [q|].
    + simpl bool_decide. cbv iota.
      destruct (ExternalProgram.get_command p h) as [l h'] eqn:G.
      unfold ExternalProgram.get_command in G. rewrite Hd in G.
      rewrite (alloc_deref _ _ _ _ G). reflexivity.
    + reflexivity.
  - destruct (truthy _); reflexivity.
Qed.

Lemma searches_app tr1 tr2 : searches (tr1 ++ tr2) = (searches tr1 + searches tr2)%nat.
Proof. unfold searches. rewrite List.filter_app, length_app. reflexivity. Qed.

(** X9. A cross construction never looks for the native pkg-config:
    whatever it does, [check_pkgconfig] is not run. When the cross file
    names no pkg-config, a required dependency raises
    [DependencyException] and an optional one is built not found, with
    the cache left as it is, even when a native binary is cached. *)
Theorem cross_never_searches_native :
  forall r st,
    PkgConfigDependency.want_cross_of (req_environment r) (req_kwargs r) = true ->
    searches (trace (snd (construct r st))) = searches (trace st)
    /\ (cross_binaries (req_environment r) !! "pkgconfig" = None ->
        forall self,
          PkgConfigDependency.init_attributes (req_world r) (req_name r)
            (req_environment r) (req_kwargs r) = Ok self ->
          (truthy (default (VBool true) (req_kwargs r !! "required")) = true ->
           construct r st
           = (Raise (DependencyException "Pkg-config binary missing from cross file"), st))
          /\ (truthy (default (VBool true) (req_kwargs r !! "required")) = false ->
              exists d, construct r st = (Ok d, st)
                        /\ PkgConfigDependency.found d = false)).
Proof.
  intros r st Hcross.
  destruct (PkgConfigDependency.init_attributes (req_world r) (req_name r)
              (req_environment r) (req_kwargs r)) as [self|e] eqn:Hinit.
  2: { assert (Hrun : construct r st = (Raise e, st)).
       { unfold construct, PkgConfigDependency.__init__, bind, lift. rewrite Hinit.
         reflexivity. }
       rewrite Hrun. split; [reflexivity|]. intros _ self' [=]. }
  destruct (init_attributes_want_cross _ _ _ _ _ Hinit) as (Hw & _ & Hreq & _).
  rewrite Hcross in Hw.
  pose proof (find_pkgbin_cross (req_world r) self (req_environment r) st Hw) as Hfind.
  assert (Hpk : PkgConfigDependency.pkgbin self = PkgNone).
  { revert Hinit. unfold PkgConfigDependency.init_attributes, result_bind.
    destruct (Dependency.__init__ _ _ _ _); [|discriminate].
    destruct (negb _); [discriminate|]. intros [= <-]. reflexivity. }
  assert (Hrun : forall b st1,
             PkgConfigDependency.find_pkgbin (req_world r) self (req_environment r) st
             = (Ok b, st1) ->
             construct r st
             = (PkgConfigDependency.probe (req_world r) (req_kwargs r) self b, st1)).
  { intros b st1 Hf. unfold construct, PkgConfigDependency.__init__, bind, lift.
    rewrite Hinit, Hf. reflexivity. }
  destruct (cross_binaries (req_environment r) !! "pkgconfig") as [pkgname|].
  - split; [|discriminate].
    destruct Hfind as (x & rest & _ & Hf). destruct x as [q|].
    + rewrite (Hrun _ _ Hf). unfold assigned. cbn [snd trace].
      rewrite searches_app. cbn. lia.
    + rewrite (Hrun _ _ Hf). reflexivity.
  - rewrite Hpk in Hfind. destruct (truthy (PkgConfigDependency.required self)) eqn:Hr.
    + assert (Hraise : construct r st
                       = (Raise (DependencyException
                                   "Pkg-config binary missing from cross file"), st)).
      { unfold construct, PkgConfigDependency.__init__, bind, lift.
        rewrite Hinit, Hfind. reflexivity. }
      rewrite Hraise. split; [reflexivity|]. intros _ self' [= <-].
      rewrite <- Hreq, Hr. split; [reflexivity | discriminate].
    + rewrite (Hrun _ _ Hfind). split; [reflexivity|]. intros _ self' [= <-].
      rewrite <- Hreq, Hr. split; [discriminate|]. intros _.
      unfold PkgConfigDependency.probe. simpl negb. cbv iota.
      change (PkgConfigDependency.required (PkgConfigDependency.set_is_found _ _))
        with (PkgConfigDependency.required self).
      rewrite Hr. eexists. split; reflexivity.
Qed.

Lemma cross_never_searches_native_witness :
  searches (trace (snd (construct cross_request_foo initial_state))) = 0%nat
  /\ construct
       {| req_world := linux_cross; req_name := "foo";
          req_environment := cross_build_without_pkgconfig; req_kwargs := ∅ |}
       (searched (PkgPath "pkg-config") initial_state)
     = (Raise (DependencyException "Pkg-config binary missing from cross file"),
        searched (PkgPath "pkg-config") initial_state).
Proof.
  split.
  - apply (cross_never_searches_native cross_request_foo initial_state). reflexivity.
  - edestruct (cross_never_searches_native
                 {| req_world := linux_cross; req_name := "foo";
                    req_environment := cross_build_without_pkgconfig; req_kwargs := ∅ |}
                 (searched (PkgPath "pkg-config") initial_state)) as [_ H];
      [reflexivity|].
    edestruct H as [Hreq _]; [reflexivity | reflexivity |].
    apply Hreq. reflexivity.
Defined.

(** X10. The cache does not tell cross from native. On a host that is
    not Windows, a well-formed cross construction whose cross-file
    pkg-config is on PATH assigns the path found to the class attribute,
    over whatever was cached, and every later native construction
    queries that cross binary without searching. *)
Theorem cross_binary_cached_for_native :
  forall r self pkgname p st,
    PkgConfigDependency.init_attributes (req_world r) (req_name r)
      (req_environment r) (req_kwargs r) = Ok self ->
    PkgConfigDependency.want_cross_of (req_environment r) (req_kwargs r) = true ->
    cross_binaries (req_environment r) !! "pkgconfig" = Some pkgname ->
    is_windows (req_world r) = false ->
    shutil_which (req_world r) pkgname = Some p ->
    snd (construct r st) = assigned (PkgPath p) st
    /\ (forall d, fst (construct r st) = Ok d ->
                  PkgConfigDependency.pkgbin d = PkgPath p)
    /\ forall r', native r' ->
         snd (construct r' (assigned (PkgPath p) st)) = assigned (PkgPath p) st
         /\ forall d, fst (construct r' (assigned (PkgPath p) st)) = Ok d ->
                      PkgConfigDependency.pkgbin d = PkgPath p.
Proof.
  intros r self pkgname p st Hinit Hcross Hpk Hwin Hwhich.
  destruct (init_attributes_want_cross _ _ _ _ _ Hinit) as (Hw & _).
  rewrite Hcross in Hw.
  pose proof (find_pkgbin_cross (req_world r) self (req_environment r) st Hw) as Hfind.
  rewrite Hpk in Hfind. destruct Hfind as (x & rest & Hs & Hf).
  assert (Hx : x = Some p).
  { revert Hs. unfold ExternalProgram._search. simpl. rewrite Hwin, Hwhich.
    intros [= <- _]. reflexivity. }
  subst x.
  assert (Hrun : construct r st
                 = (PkgConfigDependency.probe (req_world r) (req_kwargs r) self (PkgPath p),
                    assigned (PkgPath p) st)).
  { unfold construct, PkgConfigDependency.__init__, bind, lift.
    rewrite Hinit, Hf. reflexivity. }
  rewrite Hrun. cbn [fst snd]. split; [reflexivity|]. split.
  - intros d Hd. eapply probe_pkgbin. exact Hd.
  - intros r' Hn.
    apply (construct_cached r' (assigned (PkgPath p) st) Hn). discriminate.
Qed.

Lemma cross_binary_cached_for_native_witness :
  snd (construct cross_request_foo (searched (PkgPath "pkg-config") initial_state))
  = assigned (PkgPath "/opt/cross/bin/arm-pkg-config")
      (searched (PkgPath "pkg-config") initial_state)
  /\ snd (construct native_request_in_cross_build
            (assigned (PkgPath "/opt/cross/bin/arm-pkg-config")
               (searched (PkgPath "pkg-config") initial_state)))
     = assigned (PkgPath "/opt/cross/bin/arm-pkg-config")
         (searched (PkgPath "pkg-config") initial_state).
Proof.
  edestruct (cross_binary_cached_for_native cross_request_foo)
    as (H1 & _ & H2);
    [ reflexivity | reflexivity | reflexivity | reflexivity | reflexivity | ].
  split; [apply H1|]. apply H2. reflexivity.
Defined.

(** ** A search that failed *)

Lemma check_pkgconfig_unusable w self st :
  pkgconfig_unusable w ->
  PkgConfigDependency.check_pkgconfig w self st = (Ok PkgFalse, search_raised st).
Proof.
  unfold pkgconfig_unusable, pkgconfig_command, search_raised,
    PkgConfigDependency.check_pkgconfig, bind, lift, record_event, ret.
  cbn zeta.
  destruct (Popen_safe w _) as [rc out err|e].
  - intros Hrc. rewrite (nonzero_status rc Hrc). reflexivity.
  - intros ->. reflexivity.
Qed.

(** X11. A failed search is remembered for the rest of the process.
    When the version query of the pkg-config command exits with a
    status other than zero, or its launch ends in [FileNotFoundError]
    or [PermissionError], the first native construction stores [False]
    in the class attribute; from then on every native construction, on
    whatever host, runs no command at all: a required dependency raises
    [DependencyException('Pkg-config not found.')] and an optional one
    is built not found. A launch that ends in any other exception is
    not a failed search: the construction ends in that exception and
    nothing is stored. *)
Theorem failed_search_is_remembered :
  forall r self,
    native r ->
    PkgConfigDependency.init_attributes (req_world r) (req_name r)
      (req_environment r) (req_kwargs r) = Ok self ->
    (pkgconfig_unusable (req_world r) ->
     snd (construct r initial_state) = searched PkgFalse initial_state
     /\ forall r' self',
          native r' ->
          PkgConfigDependency.init_attributes (req_world r') (req_name r')
            (req_environment r') (req_kwargs r') = Ok self' ->
          (truthy (default (VBool true) (req_kwargs r' !! "required")) = true ->
           construct r' (searched PkgFalse initial_state)
           = (Raise (DependencyException "Pkg-config not found."),
              searched PkgFalse initial_state))
          /\ (truthy (default (VBool true) (req_kwargs r' !! "required")) = false ->
              exists d,
                construct r' (searched PkgFalse initial_state)
                = (Ok d, searched PkgFalse initial_state)
                /\ PkgConfigDependency.found d = false
                /\ PkgConfigDependency.pkgbin d = PkgFalse))
    /\ (forall e,
          Popen_safe (req_world r) [pkgconfig_command (req_world r); "--version"]
          = CannotLaunch e ->
          caught_on_launch e = false ->
          construct r initial_state
          = (Raise (exn_of_launch_error e), search_raised initial_state)).
Proof.
  intros r self Hn Hinit.
  destruct (init_attributes_want_cross _ _ _ _ _ Hinit) as (Hw & _).
  rewrite Hn in Hw.
  pose proof (find_pkgbin_uncached (req_world r) self (req_environment r) initial_state
                Hw eq_refl) as Hfind.
  split; [intros Hbad; split|].
  - rewrite (check_pkgconfig_unusable _ _ _ Hbad) in Hfind.
    unfold construct, PkgConfigDependency.__init__, bind, lift.
    rewrite Hinit, Hfind. reflexivity.
  - intros r' self' Hn' Hinit'.
    destruct (init_attributes_want_cross _ _ _ _ _ Hinit') as (Hw' & _ & Hreq & _).
    rewrite Hn' in Hw'.
    assert (Hrun : construct r' (searched PkgFalse initial_state)
                   = (PkgConfigDependency.probe (req_world r') (req_kwargs r') self' PkgFalse,
                      searched PkgFalse initial_state)).
    { unfold construct, PkgConfigDependency.__init__, bind, lift. rewrite Hinit'.
      rewrite find_pkgbin_cached by (try exact Hw'; discriminate). reflexivity. }
    rewrite Hrun. unfold PkgConfigDependency.probe. cbn [pkgbin_truthy negb].
    change (PkgConfigDependency.required
              (PkgConfigDependency.set_is_found false
                 (PkgConfigDependency.set_pkgbin PkgFalse self')))
      with (PkgConfigDependency.required self').
    rewrite Hreq. split; intros ->; [reflexivity|].
    eexists. split; [reflexivity|]. split; reflexivity.
  - intros e He Hcaught.
    pose proof (check_pkgconfig_outcome (req_world r) self initial_state) as Hout.
    rewrite He, Hcaught in Hout. rewrite Hout in Hfind.
    unfold construct, PkgConfigDependency.__init__, bind, lift.
    rewrite Hinit, Hfind. reflexivity.
Qed.

Lemma failed_search_is_remembered_witness :
  snd (construct (request_on linux_bare "foo" {[ "required" := VBool false ]}) initial_state)
  = searched PkgFalse initial_state
  /\ construct (request_on linux_foo "foo" ∅) (searched PkgFalse initial_state)
     = (Raise (DependencyException "Pkg-config not found."),
        searched PkgFalse initial_state)
  /\ construct (request_on linux_exec_error "foo" ∅) initial_state
     = (Raise OSError, search_raised initial_state).
Proof.
  edestruct (failed_search_is_remembered
               (request_on linux_bare "foo" {[ "required" := VBool false ]}))
    as [H _]; [ reflexivity | reflexivity | ].
  destruct H as [H1 H2]; [reflexivity|].
  split; [exact H1|]. split.
  - edestruct (H2 (request_on linux_foo "foo" ∅)) as [H3 _];
      [ reflexivity | reflexivity | ].
    apply H3. reflexivity.
  - edestruct (failed_search_is_remembered (request_on linux_exec_error "foo" ∅))
      as [_ H]; [ reflexivity | reflexivity | ].
    apply (H (LaunchOther OSError)); reflexivity.
Defined.

(** ** Libtool archives that cannot be resolved *)

Lemma extract_field_lines_absent lines field :
  Forall (fun l => hd EmptyString (Str.split_on "=" (Str.strip l)) <> field) lines ->
  PkgConfigDependency.extract_field_lines lines field = Ok None.
Proof.
  intros H. induction H as [|l lines Hl _ IH]; simpl.
  - reflexivity.
  - unfold Str.eqb at 1. rewrite bool_decide_eq_false_2 by exact Hl. exact IH.
Qed.

Lemma extract_field_lines_no_value pre line post field :
  Forall (fun l => hd EmptyString (Str.split_on "=" (Str.strip l)) <> field) pre ->
  Str.split_on "=" (Str.strip line) = [field] ->
  PkgConfigDependency.extract_field_lines (pre ++ line :: post) field = Raise IndexError.
Proof.
  intros Hpre Hline. induction Hpre as [|l pre Hl _ IH]; simpl.
  - rewrite Hline. simpl. unfold Str.eqb.
    rewrite bool_decide_eq_true_2 by reflexivity. reflexivity.
  - unfold Str.eqb at 1. rewrite bool_decide_eq_false_2 by exact Hl. exact IH.
Qed.

Lemma _set_libs_raises w self p out err before lib after e :
  PkgConfigDependency.pkgbin self = PkgPath p ->
  Popen_safe w (p :: libs_query (PkgConfigDependency.name self)
                        (PkgConfigDependency.static self)) = Launched 0 out err ->
  Str.split (Str.strip out) = before ++ lib :: after ->
  Forall plain_token before ->
  PkgConfigDependency.resolve_lib w lib = Raise e ->
  PkgConfigDependency._set_libs w self = Raise e.
Proof.
  intros Hp Hq Hsplit Hb Hr. unfold PkgConfigDependency._set_libs.
  rewrite libs_query_eq. unfold result_bind.
  rewrite (_call_pkgbin_path w self p _ Hp), Hq. cbn [Z.eqb negb].
  rewrite Hsplit, (_set_libs_loop_raises w before lib after _ _ e Hb Hr). reflexivity.
Qed.

(** X12. A libtool archive that cannot be resolved does not give a
    [DependencyException]. When the link flags hold an archive token
    after tokens that are none, [_set_libs] raises [OSError] if the
    archive cannot be opened, [TypeError] if no line of it sets
    [dlname] (the missing name reaches [os.path.join]), and
    [IndexError] if its first [dlname] line has no [=]; on any host,
    OSX or not. *)
Theorem unresolvable_archive_errors :
  forall w self p out err before lib after,
    PkgConfigDependency.pkgbin self = PkgPath p ->
    Popen_safe w (p :: libs_query (PkgConfigDependency.name self)
                          (PkgConfigDependency.static self)) = Launched 0 out err ->
    Str.split (Str.strip out) = before ++ lib :: after ->
    Forall plain_token before ->
    Str.endswith ".la" lib = true ->
    (open_lines w lib = None -> PkgConfigDependency._set_libs w self = Raise OSError)
    /\ (forall lines,
          open_lines w lib = Some lines -> Forall other_field lines ->
          PkgConfigDependency._set_libs w self = Raise TypeError)
    /\ (forall pre line post,
          open_lines w lib = Some (pre ++ line :: post) -> Forall other_field pre ->
          Str.split_on "=" (Str.strip line) = ["dlname"] ->
          PkgConfigDependency._set_libs w self = Raise IndexError).
Proof.
  intros w self p out err before lib after Hp Hq Hsplit Hb Hla.
  assert (Hres : forall e,
             PkgConfigDependency.extract_field w lib "dlname" = Raise e
             \/ (PkgConfigDependency.extract_field w lib "dlname" = Ok None /\ e = TypeError) ->
             PkgConfigDependency._set_libs w self = Raise e).
  { intros e He. eapply _set_libs_raises; try eassumption.
    unfold PkgConfigDependency.resolve_lib. rewrite Hla.
    unfold PkgConfigDependency.extract_libtool_shlib,
      PkgConfigDependency.extract_dlname_field, result_bind.
    destruct He as [-> | [-> ->]]; reflexivity. }
  split; [|split].
  - intros Hopen. apply Hres. left.
    unfold PkgConfigDependency.extract_field. rewrite Hopen. reflexivity.
  - intros lines Hopen Hlines. apply Hres. right. split; [|reflexivity].
    unfold PkgConfigDependency.extract_field. rewrite Hopen.
    apply extract_field_lines_absent. exact Hlines.
  - intros pre line post Hopen Hpre Hline. apply Hres. left.
    unfold PkgConfigDependency.extract_field. rewrite Hopen.
    apply extract_field_lines_no_value; assumption.
Qed.

Lemma unresolvable_archive_errors_witness :
  PkgConfigDependency._set_libs linux_archive_without_dlname foo_object = Raise TypeError.
Proof.
  edestruct (unresolvable_archive_errors linux_archive_without_dlname foo_object
               "pkg-config" "-L/usr/lib /usr/lib/libfoo.la -lm" ""
               ["-L/usr/lib"] "/usr/lib/libfoo.la" ["-lm"])
    as (_ & H & _);
    [ reflexivity | reflexivity | reflexivity | repeat constructor | reflexivity | ].
  eapply H; [reflexivity|].
  repeat constructor; vm_compute; discriminate.
Defined.

Lemma startswith_sep_cons s :
  Str.startswith "/" s = true -> exists r, s = String "/" r.
Proof.
  destruct s as [|c r]; simpl; [discriminate|].
  rewrite andb_true_r. unfold Str.ceqb. intros H. apply bool_decide_eq_true in H.
  subst c. exists r. reflexivity.
Qed.

Lemma join1_absolute a b : Str.startswith "/" b = true -> posixpath.join1 a b = b.
Proof. intros H. unfold posixpath.join1. rewrite H. reflexivity. Qed.

Lemma join1_keeps_absolute a b :
  Str.startswith "/" a = true -> Str.startswith "/" (posixpath.join1 a b) = true.
Proof.
  intros Ha. unfold posixpath.join1.
  destruct (Str.startswith "/" b) eqn:Hb; [exact Hb|].
  apply startswith_sep_cons in Ha as [r ->].
  destruct (_ || _); reflexivity.
Qed.

Lemma _set_libs_resolved w self p out err before lib after r :
  PkgConfigDependency.pkgbin self = PkgPath p ->
  Popen_safe w (p :: libs_query (PkgConfigDependency.name self)
                        (PkgConfigDependency.static self)) = Launched 0 out err ->
  Str.split (Str.strip out) = before ++ lib :: after ->
  Forall plain_token before -> Forall plain_token after ->
  PkgConfigDependency.resolve_lib w lib = Ok (r, true) ->
  PkgConfigDependency._set_libs w self
  = Ok (PkgConfigDependency.set_libs (before ++ r :: after) true self).
Proof.
  intros Hp Hq Hsplit Hb Ha Hr. unfold PkgConfigDependency._set_libs.
  rewrite libs_query_eq. unfold result_bind.
  rewrite (_call_pkgbin_path w self p _ Hp), Hq. cbn [Z.eqb negb].
  rewrite Hsplit, (_set_libs_loop_resolved w before lib after [] _ _ Hb Ha Hr).
  reflexivity.
Qed.

(** X13. On OSX an archive whose [libdir] is an absolute path is
    resolved in that directory alone: the token is replaced by the base
    name of [dlname] joined to [libdir] when that file exists, and
    [_set_libs] raises [DependencyException] when it does not; neither
    the directory of the archive nor its [.libs] is looked in. *)
Theorem osx_archive_resolved_in_libdir :
  forall w self p out err before lib after dlname libdir,
    is_osx w = true -> os_path w = posixpath.os_path ->
    PkgConfigDependency.pkgbin self = PkgPath p ->
    Popen_safe w (p :: libs_query (PkgConfigDependency.name self)
                          (PkgConfigDependency.static self)) = Launched 0 out err ->
    Str.split (Str.strip out) = before ++ lib :: after ->
    Forall plain_token before -> Forall plain_token after ->
    Str.endswith ".la" lib = true ->
    PkgConfigDependency.extract_field w lib "dlname" = Ok (Some dlname) ->
    PkgConfigDependency.extract_field w lib "libdir" = Ok (Some libdir) ->
    Str.startswith "/" libdir = true ->
    (path_exists w (posixpath.join libdir [posixpath.basename dlname]) = true ->
     PkgConfigDependency._set_libs w self
     = Ok (PkgConfigDependency.set_libs
             (before ++ posixpath.join libdir [posixpath.basename dlname] :: after)
             true self))
    /\ (path_exists w (posixpath.join libdir [posixpath.basename dlname]) = false ->
        exists msg,
          PkgConfigDependency._set_libs w self = Raise (DependencyException msg)).
Proof.
  intros w self p out err before lib after dlname libdir
    Hosx Hpath Hp Hq Hsplit Hb Ha Hla Hdl Hdir Habs.
  set (so := posixpath.join libdir [posixpath.basename dlname]).
  assert (Hso : Str.startswith "/" so = true).
  { apply join1_keeps_absolute. exact Habs. }
  assert (Hr : PkgConfigDependency.resolve_lib w lib
               = if path_exists w so then Ok (so, true)
                 else Raise (DependencyException
                        ("Got a libtools specific " +:+ Str.of_char Str.dquote +:+ lib +:+
                         Str.of_char Str.dquote +:+
                         " dependencies" +:+ "but we could not compute the actual shared" +:+
                         "library path"))).
  { unfold PkgConfigDependency.resolve_lib. rewrite Hla.
    unfold PkgConfigDependency.extract_libtool_shlib,
      PkgConfigDependency.extract_dlname_field,
      PkgConfigDependency.extract_libdir_field, result_bind.
    rewrite Hdl, Hosx, Hdir, Hpath.
    change (path_join posixpath.os_path) with posixpath.join.
    change (path_dirname posixpath.os_path) with posixpath.dirname.
    change (path_basename posixpath.os_path) with posixpath.basename.
    fold so.
    assert (H1 : posixpath.join (posixpath.dirname lib) [so] = so).
    { apply join1_absolute. exact Hso. }
    assert (H2 : posixpath.join (posixpath.dirname lib) [".libs"; so] = so).
    { apply join1_absolute. exact Hso. }
    rewrite H1, H2.
    destruct (path_exists w so) eqn:E; simpl; rewrite ?E; reflexivity. }
  split; intros E; rewrite E in Hr.
  - eapply _set_libs_resolved; eassumption.
  - eexists. eapply _set_libs_raises; eassumption.
Qed.

Lemma osx_archive_resolved_in_libdir_witness :
  PkgConfigDependency._set_libs osx_libtool foo_object
  = Ok (PkgConfigDependency.set_libs
          ["/usr/local/lib/libfoo.1.dylib"; "-lm"] true foo_object).
Proof.
  edestruct (osx_archive_resolved_in_libdir osx_libtool foo_object "pkg-config"
               "/opt/build/libfoo.la -lm" "" [] "/opt/build/libfoo.la" ["-lm"]
               "libfoo.1.dylib" "/usr/local/lib") as [H _];
    [ reflexivity | reflexivity | reflexivity | reflexivity | reflexivity
    | constructor | repeat constructor | reflexivity | reflexivity | reflexivity
    | reflexivity | ].
  apply H. reflexivity.
Defined.

(** ** The dispatcher on OSX and the framework scan *)

(** X14. On OSX a request for a name with no kind of its own that sets
    [method] to anything but ['auto'] cannot end not found: when
    pkg-config does not find the dependency, the framework constructor
    rejects the keyword, and the dispatcher raises [MesonException]
    with the unsupported-method message, whether the dependency is
    required or optional and whatever the framework root holds. *)
Theorem osx_declared_method_raises :
  forall k w name environment kwargs v st,
    is_osx w = true ->
    is_bool (default (VBool true) (kwargs !! "required")) = true ->
    packages k !! Str.lower name = None ->
    kwargs !! "method" = Some v -> v <> VStr "auto" ->
    (forall d st', PkgConfigDependency.__init__ w name environment kwargs st = (Ok d, st') ->
                   PkgConfigDependency.found d = false) ->
    exists st',
      find_external_dependency k w name environment kwargs st
      = (Raise (MesonException (Dependency.unsupported_method w v ["auto"])), st').
Proof.
  intros k w name environment kwargs v st Hosx Hb Hp Hm Hne Habsent.
  rewrite (find_external_dependency_generic k w name environment kwargs st Hb Hp).
  assert (Hfw : forall required,
             ExtraFrameworkDependency.__init__ w name required None kwargs
             = Raise (MesonException (Dependency.unsupported_method w v ["auto"]))).
  { intros required. unfold ExtraFrameworkDependency.__init__.
    rewrite (Dependency_init_unsupported w ClsExtraFrameworkDependency _ kwargs v Hm Hne).
    - reflexivity.
    - intros m ->. simpl. intros Hin. apply list_elem_of_singleton in Hin.
      subst m. contradiction. }
  assert (Hafter : forall attempt st',
             after_pkgconfig w name (default (VBool true) (kwargs !! "required")) kwargs
               attempt st'
             = (Raise (MesonException (Dependency.unsupported_method w v ["auto"])), st')).
  { intros attempt st'. unfold after_pkgconfig. rewrite Hosx. unfold bind, lift.
    rewrite Hfw. reflexivity. }
  destruct (PkgConfigDependency.__init__ w name environment kwargs st) as [[d|e] st'] eqn:E.
  - rewrite (Habsent d st' eq_refl). exists st'. apply Hafter.
  - exists st'. apply Hafter.
Qed.

Lemma osx_declared_method_raises_witness :
  exists st',
    find_external_dependency no_kinds osx_host "Python" native_build
      {[ "method" := VStr "pkgconfig"; "required" := VBool false ]} initial_state
    = (Raise (MesonException
                (Dependency.unsupported_method osx_host (VStr "pkgconfig") ["auto"])), st').
Proof.
  apply (osx_declared_method_raises no_kinds osx_host "Python" native_build
           {[ "method" := VStr "pkgconfig"; "required" := VBool false ]}
           (VStr "pkgconfig") initial_state);
    [ reflexivity | reflexivity | reflexivity | reflexivity | discriminate | ].
  intros d st'. vm_compute. intros [= <- _]. reflexivity.
Defined.

(** X15. Every outcome of the framework constructor, for a request
    that leaves the method to the code. A root that cannot be listed is
    an [OSError]. Otherwise the first entry of the listing that is not
    passed over decides: a directory is the framework found at the
    root, and an entry that cannot be examined is an [OSError], even
    when a later entry is the framework. When every entry is passed
    over the object is built not found, with no compile and no link
    argument, whatever [required] says. *)
Theorem framework_constructor_outcomes :
  forall w name required path kwargs root,
    default (VStr "auto") (kwargs !! "method") = VStr "auto" ->
    root = default "/Library/Frameworks" path ->
    match os_listdir w root with
    | None => ExtraFrameworkDependency.__init__ w name required path kwargs = Raise OSError
    | Some entries =>
        (Forall (passed_over w name root) entries
         /\ exists d,
              ExtraFrameworkDependency.__init__ w name required path kwargs = Ok d
              /\ ExtraFrameworkDependency.found d = false
              /\ ExtraFrameworkDependency.get_compile_args w d = []
              /\ ExtraFrameworkDependency.get_link_args d = [])
        \/ exists pre e post,
             entries = pre ++ e :: post
             /\ Forall (passed_over w name root) pre
             /\ name_matches name e = true
             /\ ((os_stat_isdir w (path_join (os_path w) root [e]) = Some true
                  /\ exists d,
                       ExtraFrameworkDependency.__init__ w name required path kwargs = Ok d
                       /\ ExtraFrameworkDependency.name d = Some e
                       /\ ExtraFrameworkDependency.path d = Some root)
                 \/ (os_stat_isdir w (path_join (os_path w) root [e]) = None
                     /\ ExtraFrameworkDependency.__init__ w name required path kwargs
                        = Raise OSError))
    end.
Proof.
  intros w name required path kwargs root Hm Hroot.
  assert (Hp : match path with None => ["/Library/Frameworks"] | Some p => [p] end
               = [root]) by (subst root; destruct path; reflexivity).
  unfold ExtraFrameworkDependency.__init__.
  rewrite (Dependency_init_auto w _ _ kwargs Hm). unfold result_bind.
  unfold ExtraFrameworkDependency.detect. rewrite Hp. cbn [ExtraFrameworkDependency.detect_paths].
  destruct (os_listdir w root) as [entries|]; [|reflexivity].
  destruct (detect_entries_outcome w name root entries)
    as [[Hall ->]|(pre & e & post & He & Hpre & Hmatch & [[Hs ->]|[Hs ->]])].
  - left. split; [exact Hall|]. eexists. repeat split.
  - right. exists pre, e, post.
    split; [exact He|]. split; [exact Hpre|]. split; [exact Hmatch|].
    left. split; [exact Hs|]. eexists. repeat split.
  - right. exists pre, e, post.
    split; [exact He|]. split; [exact Hpre|]. split; [exact Hmatch|].
    right. split; [exact Hs | reflexivity].
Qed.

Lemma framework_constructor_outcomes_witness :
  match os_listdir osx_dangling "/Library/Frameworks" with
  | None => ExtraFrameworkDependency.__init__ osx_dangling "foo" (VBool false) None ∅
            = Raise OSError
  | Some entries =>
      (Forall (passed_over osx_dangling "foo" "/Library/Frameworks") entries
       /\ exists d,
            ExtraFrameworkDependency.__init__ osx_dangling "foo" (VBool false) None ∅ = Ok d
            /\ ExtraFrameworkDependency.found d = false
            /\ ExtraFrameworkDependency.get_compile_args osx_dangling d = []
            /\ ExtraFrameworkDependency.get_link_args d = [])
      \/ exists pre e post,
           entries = pre ++ e :: post
           /\ Forall (passed_over osx_dangling "foo" "/Library/Frameworks") pre
           /\ name_matches "foo" e = true
           /\ ((os_stat_isdir osx_dangling
                  (path_join (os_path osx_dangling) "/Library/Frameworks" [e]) = Some true
                /\ exists d,
                     ExtraFrameworkDependency.__init__ osx_dangling "foo" (VBool false) None ∅
                     = Ok d
                     /\ ExtraFrameworkDependency.name d = Some e
                     /\ ExtraFrameworkDependency.path d = Some "/Library/Frameworks")
               \/ (os_stat_isdir osx_dangling
                     (path_join (os_path osx_dangling) "/Library/Frameworks" [e]) = None
                   /\ ExtraFrameworkDependency.__init__ osx_dangling "foo" (VBool false) None ∅
                      = Raise OSError))
  end.
Proof.
  apply (framework_constructor_outcomes osx_dangling "foo" (VBool false) None ∅
           "/Library/Frameworks"); reflexivity.
Defined.

(** ** The identity key of two requests *)

Lemma app_two_inj (l1 l2 : list value) a b c d :
  l1 ++ [a; b] = l2 ++ [c; d] -> l1 = l2 /\ a = c /\ b = d.
Proof.
  intros H. apply app_inj_2 in H as [H1 H2]; [|reflexivity].
  injection H2 as -> ->. repeat split. exact H1.
Qed.

Lemma app_three_inj (l1 l2 : list value) a b c a' b' c' :
  l1 ++ [a; b; c] = l2 ++ [a'; b'; c'] -> l1 = l2 /\ a = a' /\ b = b' /\ c = c'.
Proof.
  intros H. apply app_inj_2 in H as [H1 H2]; [|reflexivity].
  injection H2 as -> -> ->. repeat split. exact H1.
Qed.

(** A key with a fallback is not the key of a request without one
    whose [main] is a boolean. *)
Lemma key_fallback_mixed (e1 e2 : list value) b1 s1 f0 f1 b2 s2 :
  is_bool b2 = true ->
  ((e1 ++ [VStr "main"; b1]) ++ [VStr "static"; s1]) ++ [VStr "fallback"; f0; f1]
  <> (e2 ++ [VStr "main"; b2]) ++ [VStr "static"; s2].
Proof.
  intros Hb H.
  change (((e1 ++ [VStr "main"; b1]) ++ [VStr "static"; s1]) ++ [VStr "fallback"; f0; f1])
    with (((e1 ++ [VStr "main"; b1]) ++ [VStr "static"; s1]) ++ [VStr "fallback"] ++ [f0; f1])
    in H.
  rewrite app_assoc in H. apply app_two_inj in H as (H & _ & _).
  rewrite <- (app_assoc _ [VStr "static"; s1] [VStr "fallback"]) in H.
  change ([VStr "static"; s1] ++ [VStr "fallback"])
    with ([VStr "static"] ++ [s1; VStr "fallback"]) in H.
  rewrite app_assoc in H. apply app_two_inj in H as (_ & _ & <-).
  discriminate Hb.
Qed.

(** The key as a list: the name, the modules, the two flags and the
    fallback elements if there is a fallback. *)
Lemma get_dep_identifier_shape name (kw : gmap string value) key :
  get_dep_identifier name kw = Ok key ->
  (fallback_of kw = None
   /\ key = (([VStr name] ++ modules_of kw)
              ++ [VStr "main"; default (VBool false) (kw !! "main")])
             ++ [VStr "static"; default (VBool false) (kw !! "static")])
  \/ exists f0 f1,
       fallback_of kw = Some (Ok f0, Ok f1)
       /\ key = ((([VStr name] ++ modules_of kw)
                   ++ [VStr "main"; default (VBool false) (kw !! "main")])
                  ++ [VStr "static"; default (VBool false) (kw !! "static")])
                 ++ [VStr "fallback"; f0; f1].
Proof.
  unfold get_dep_identifier, modules_of, fallback_of, result_bind.
  destruct (default (VList []) (kw !! "modules")) as [|b|s|l]; try discriminate.
  - destruct (kw !! "fallback") as [f|].
    + destruct (py_getitem f 0) as [f0|]; [|discriminate].
      destruct (py_getitem f 1) as [f1|]; [|discriminate].
      intros [= <-]. right. exists f0, f1. split; reflexivity.
    + intros [= <-]. left. split; reflexivity.
  - destruct (kw !! "fallback") as [f|].
    + destruct (py_getitem f 0) as [f0|]; [|discriminate].
      destruct (py_getitem f 1) as [f1|]; [|discriminate].
      intros [= <-]. right. exists f0, f1. split; reflexivity.
    + intros [= <-]. left. split; reflexivity.
Qed.

(** X16. Requests whose [main] keyword is a boolean share an identity
    key only when they agree on everything the key is built from: the
    name, the module list (a string standing for the list of that
    string), [main], [static], and the two elements of the fallback or
    its absence. *)
Theorem get_dep_identifier_injective :
  forall name1 name2 (kw1 kw2 : gmap string value) key,
    is_bool (default (VBool false) (kw1 !! "main")) = true ->
    is_bool (default (VBool false) (kw2 !! "main")) = true ->
    get_dep_identifier name1 kw1 = Ok key ->
    get_dep_identifier name2 kw2 = Ok key ->
    name1 = name2
    /\ modules_of kw1 = modules_of kw2
    /\ default (VBool false) (kw1 !! "main") = default (VBool false) (kw2 !! "main")
    /\ default (VBool false) (kw1 !! "static") = default (VBool false) (kw2 !! "static")
    /\ fallback_of kw1 = fallback_of kw2.
Proof.
  intros name1 name2 kw1 kw2 key Hb1 Hb2 H1 H2.
  apply get_dep_identifier_shape in H1, H2.
  destruct H1 as [[F1 K1]|(a0 & a1 & F1 & K1)];
    destruct H2 as [[F2 K2]|(b0 & b1 & F2 & K2)];
    rewrite F1, F2; rewrite K1 in K2; clear K1.
  - apply app_two_inj in K2 as (K2 & _ & ->).
    apply app_two_inj in K2 as (K2 & _ & ->).
    injection K2 as -> ->. repeat split.
  - exfalso. symmetry in K2. exact (key_fallback_mixed _ _ _ _ _ _ _ _ Hb1 K2).
  - exfalso. exact (key_fallback_mixed _ _ _ _ _ _ _ _ Hb2 K2).
  - apply app_three_inj in K2 as (K2 & _ & -> & ->).
    apply app_two_inj in K2 as (K2 & _ & ->).
    apply app_two_inj in K2 as (K2 & _ & ->).
    injection K2 as -> ->. repeat split.
Qed.

Lemma get_dep_identifier_injective_witness :
  "qt5" = "qt5"
  /\ modules_of {[ "modules" := VStr "Core" ]}
     = modules_of {[ "modules" := VList [VStr "Core"]; "required" := VBool false ]}.
Proof.
  edestruct (get_dep_identifier_injective "qt5" "qt5"
               {[ "modules" := VStr "Core" ]}
               {[ "modules" := VList [VStr "Core"]; "required" := VBool false ]})
    as (H1 & H2 & _);
    [ reflexivity | reflexivity | reflexivity | reflexivity | ].
  split; [exact H1 | exact H2].
Defined.

(** ** GLDependency *)

Lemma gl_via_pkgconfig_enabled w environment kwargs self st :
  "pkgconfig" ∈ GLDependency.methods self ->
  GLDependency.via_pkgconfig w environment kwargs self st
  = (Ok (match pkgconfig_finds w "gl" environment kwargs st with
         | Some pc =>
             Some {| GLDependency.type_name := "pkgconfig";
                     GLDependency.methods := GLDependency.methods self;
                     GLDependency.is_found := true;
                     GLDependency.cargs := PkgConfigDependency.cargs pc;
                     GLDependency.linkargs := PkgConfigDependency.libs pc;
                     GLDependency.version := Some (PkgConfigDependency.modversion pc) |}
         | None => None
         end),
     after_pkgconfig_attempt w "gl" environment kwargs st).
Proof.
  intros Hin. unfold GLDependency.via_pkgconfig, pkgconfig_finds, after_pkgconfig_attempt.
  rewrite bool_decide_eq_true_2 by exact Hin.
  unfold try_except, bind, ret.
  destruct (PkgConfigDependency.__init__ w "gl" environment kwargs st) as [[d|e] st'].
  - destruct (PkgConfigDependency.found d); reflexivity.
  - reflexivity.
Qed.

(** X17. [GLDependency] on a request that leaves the method to the
    code never raises, whatever pkg-config does: an exception of the
    pkg-config constructor, of a required dependency too, is dropped.
    If pkg-config finds [gl] the flags and the version are its own;
    otherwise the dependency is found with fixed link arguments on OSX
    and on Windows, and not found elsewhere. The cache of the pkg-config
    binary is left as the pkg-config constructor left it. *)
Theorem gl_detection_outcomes :
  forall w environment kwargs st,
    default (VStr "auto") (kwargs !! "method") = VStr "auto" ->
    exists d,
      GLDependency.__init__ w environment kwargs st
      = (Ok d, after_pkgconfig_attempt w "gl" environment kwargs st)
      /\ match pkgconfig_finds w "gl" environment kwargs st with
         | Some pc =>
             GLDependency.type_name d = "pkgconfig"
             /\ GLDependency.found d = true
             /\ GLDependency.cargs d = PkgConfigDependency.get_compile_args pc
             /\ GLDependency.get_link_args d = PkgConfigDependency.get_link_args pc
             /\ GLDependency.version d = Some (PkgConfigDependency.get_version pc)
         | None =>
             GLDependency.type_name d = "gl"
             /\ GLDependency.cargs d = []
             /\ if is_osx w then
                  GLDependency.found d = true
                  /\ GLDependency.get_link_args d = ["-framework"; "OpenGL"]
                  /\ GLDependency.version d = Some "1"
                else if is_windows w then
                  GLDependency.found d = true
                  /\ GLDependency.get_link_args d = ["-lopengl32"]
                  /\ GLDependency.version d = Some "1"
                else
                  GLDependency.found d = false
                  /\ GLDependency.get_link_args d = []
                  /\ GLDependency.version d = None
         end.
Proof.
  intros w environment kwargs st Hm. unfold GLDependency.__init__.
  rewrite (Dependency_init_auto w _ _ kwargs Hm). unfold bind at 1. unfold lift at 1.
  cbn [Dependency.type_name Dependency.methods].
  unfold bind. rewrite gl_via_pkgconfig_enabled.
  2: { cbn [GLDependency.methods get_methods].
       destruct (is_osx w || is_windows w); repeat constructor. }
  destruct (pkgconfig_finds w "gl" environment kwargs st) as [pc|].
  - eexists. split; [reflexivity|]. repeat split.
  - eexists. split; [reflexivity|].
    unfold GLDependency.via_system. cbn [GLDependency.methods get_methods].
    destruct (is_osx w) eqn:Hosx.
    + cbn [orb]. rewrite bool_decide_eq_true_2 by repeat constructor. repeat split.
    + destruct (is_windows w) eqn:Hwin; cbn [orb].
      * rewrite bool_decide_eq_true_2 by repeat constructor. repeat split.
      * rewrite bool_decide_eq_false_2 by (intros H; inversion H as [|? ? ? H']; inversion H').
        repeat split.
Qed.

Lemma gl_detection_outcomes_witness :
  exists d st',
    GLDependency.__init__ linux_broken_cflags native_build ∅ initial_state = (Ok d, st')
    /\ GLDependency.found d = false.
Proof.
  destruct (gl_detection_outcomes linux_broken_cflags native_build ∅ initial_state)
    as (d & Hinit & Hout); [reflexivity|].
  exists d. eexists. split; [exact Hinit|].
  vm_compute in Hout. apply Hout.
Defined.

(** X18. [GLDependency] when the request names the method.
    With [method='system'], OSX and Windows answer found with their
    fixed link arguments and pkg-config is not consulted, so the state
    of the process is left as it is; any other host raises
    [MesonException]. With [method='pkgconfig'] there is no system
    fallback, on OSX and Windows either: the dependency is found exactly
    when pkg-config finds it. *)
Theorem gl_declared_method :
  forall w environment kwargs st,
    (kwargs !! "method" = Some (VStr "system") ->
     if is_osx w || is_windows w then
       exists d,
         GLDependency.__init__ w environment kwargs st = (Ok d, st)
         /\ GLDependency.found d = true
         /\ GLDependency.cargs d = []
         /\ GLDependency.get_link_args d
            = (if is_osx w then ["-framework"; "OpenGL"] else ["-lopengl32"])
     else
       GLDependency.__init__ w environment kwargs st
       = (Raise (MesonException
                   (Dependency.unsupported_method w (VStr "system") ["pkgconfig"])), st))
    /\ (kwargs !! "method" = Some (VStr "pkgconfig") ->
        exists d,
          GLDependency.__init__ w environment kwargs st
          = (Ok d, after_pkgconfig_attempt w "gl" environment kwargs st)
          /\ GLDependency.found d
             = bool_decide (pkgconfig_finds w "gl" environment kwargs st <> None)).
Proof.
  intros w environment kwargs st. split; intros Hm.
  - unfold GLDependency.__init__. destruct (is_osx w || is_windows w) eqn:Hhost.
    + rewrite (Dependency_init_declared w ClsGLDependency _ kwargs "system" Hm).
      2: discriminate.
      2: { cbn [get_methods]. rewrite Hhost. repeat constructor. }
      unfold bind, lift, GLDependency.via_pkgconfig, ret.
      cbn [Dependency.type_name Dependency.methods GLDependency.methods].
      rewrite bool_decide_eq_false_2
        by (intros H; inversion H as [|? ? ? H']; inversion H').
      unfold GLDependency.via_system. cbn [GLDependency.methods].
      rewrite bool_decide_eq_true_2 by repeat constructor.
      destruct (is_osx w); [|destruct (is_windows w); [|discriminate Hhost]];
        eexists; repeat split.
    + rewrite (Dependency_init_unsupported w ClsGLDependency _ kwargs (VStr "system") Hm).
      * cbn [get_methods]. rewrite Hhost. reflexivity.
      * discriminate.
      * intros m [= <-]. cbn [get_methods]. rewrite Hhost.
        intros H; inversion H as [|? ? ? H']; inversion H'.
  - unfold GLDependency.__init__.
    rewrite (Dependency_init_declared w ClsGLDependency _ kwargs "pkgconfig" Hm).
    2: discriminate.
    2: { cbn [get_methods]. destruct (is_osx w || is_windows w); repeat constructor. }
    unfold bind at 1. unfold lift at 1.
    cbn [Dependency.type_name Dependency.methods].
    unfold bind. rewrite gl_via_pkgconfig_enabled by repeat constructor.
    destruct (pkgconfig_finds w "gl" environment kwargs st) as [pc|].
    + eexists. split; reflexivity.
    + eexists. split; [reflexivity|].
      unfold GLDependency.via_system. cbn [GLDependency.methods].
      rewrite bool_decide_eq_false_2
        by (intros H; inversion H as [|? ? ? H']; inversion H').
      reflexivity.
Qed.

Lemma gl_declared_method_witness :
  (exists d,
     GLDependency.__init__ osx_host native_build {[ "method" := VStr "system" ]}
       initial_state = (Ok d, initial_state)
     /\ GLDependency.get_link_args d = ["-framework"; "OpenGL"])
  /\ exists d st',
       GLDependency.__init__ osx_host native_build
         {[ "method" := VStr "pkgconfig"; "required" := VBool false ]} initial_state
       = (Ok d, st')
       /\ GLDependency.found d = false.
Proof.
  split.
  - destruct (gl_declared_method osx_host native_build {[ "method" := VStr "system" ]}
                initial_state) as [H _].
    destruct (H eq_refl) as (d & Hinit & _ & _ & Hl).
    exists d. split; [exact Hinit | exact Hl].
  - destruct (gl_declared_method osx_host native_build
                {[ "method" := VStr "pkgconfig"; "required" := VBool false ]}
                initial_state) as [_ H].
    destruct (H eq_refl) as (d & Hinit & Hf).
    exists d. eexists. split; [exact Hinit | exact Hf].
Defined.

(** ** SDL2Dependency *)

Lemma sdl2_via_pkgconfig_enabled w environment kwargs self st :
  "pkgconfig" ∈ SDL2Dependency.methods self ->
  SDL2Dependency.via_pkgconfig w environment kwargs self st
  = (Ok (match pkgconfig_finds w "sdl2" environment kwargs st with
         | Some pc =>
             Some {| SDL2Dependency.type_name := "pkgconfig";
                     SDL2Dependency.methods := SDL2Dependency.methods self;
                     SDL2Dependency.is_found := true;
                     SDL2Dependency.cargs := PkgConfigDependency.cargs pc;
                     SDL2Dependency.linkargs := PkgConfigDependency.libs pc;
                     SDL2Dependency.version := Some (PkgConfigDependency.modversion pc) |}
         | None => None
         end),
     after_pkgconfig_attempt w "sdl2" environment kwargs st).
Proof.
  intros Hin. unfold SDL2Dependency.via_pkgconfig, pkgconfig_finds, after_pkgconfig_attempt.
  rewrite bool_decide_eq_true_2 by exact Hin.
  unfold try_except, bind, ret.
  destruct (PkgConfigDependency.__init__ w "sdl2" environment kwargs st) as [[d|e] st'].
  - destruct (PkgConfigDependency.found d); reflexivity.
  - reflexivity.
Qed.

Lemma sdl2_methods_auto w :
  "pkgconfig" ∈ get_methods w ClsSDL2Dependency
  /\ "sdlconfig" ∈ get_methods w ClsSDL2Dependency.
Proof. cbn [get_methods]. destruct (is_osx w); split; repeat constructor. Qed.

(** X19. [sdl2-config] is trusted whatever it exits with. For a
    request that leaves the method to the code, when pkg-config does
    not find [sdl2] and [shutil.which] finds [sdl2-config], the
    dependency is found as soon as the three queries can be launched:
    the flags and the version are what they printed, and their exit
    statuses are not looked at. When one of the three queries cannot be
    launched, the first that cannot ends the constructor with the
    exception of its launch, [FileNotFoundError] and [PermissionError]
    included. *)
Theorem sdl2_config_exit_status_ignored :
  forall w environment kwargs st p,
    default (VStr "auto") (kwargs !! "method") = VStr "auto" ->
    pkgconfig_finds w "sdl2" environment kwargs st = None ->
    shutil_which w "sdl2-config" = Some p -> p <> EmptyString ->
    (forall c1 o1 e1 c2 o2 e2 c3 o3 e3,
       Popen_safe w ["sdl2-config"; "--cflags"] = Launched c1 o1 e1 ->
       Popen_safe w ["sdl2-config"; "--libs"] = Launched c2 o2 e2 ->
       Popen_safe w ["sdl2-config"; "--version"] = Launched c3 o3 e3 ->
       exists d,
         SDL2Dependency.__init__ w environment kwargs st
         = (Ok d, after_pkgconfig_attempt w "sdl2" environment kwargs st)
         /\ SDL2Dependency.found d = true
         /\ SDL2Dependency.get_compile_args d = Str.split (Str.strip o1)
         /\ SDL2Dependency.get_link_args d = Str.split (Str.strip o2)
         /\ SDL2Dependency.version d = Some (Str.strip o3))
    /\ (forall e,
          Popen_safe w ["sdl2-config"; "--cflags"] = CannotLaunch e ->
          SDL2Dependency.__init__ w environment kwargs st
          = (Raise (exn_of_launch_error e),
             after_pkgconfig_attempt w "sdl2" environment kwargs st))
    /\ (forall c1 o1 e1 e,
          Popen_safe w ["sdl2-config"; "--cflags"] = Launched c1 o1 e1 ->
          Popen_safe w ["sdl2-config"; "--libs"] = CannotLaunch e ->
          SDL2Dependency.__init__ w environment kwargs st
          = (Raise (exn_of_launch_error e),
             after_pkgconfig_attempt w "sdl2" environment kwargs st))
    /\ (forall c1 o1 e1 c2 o2 e2 e,
          Popen_safe w ["sdl2-config"; "--cflags"] = Launched c1 o1 e1 ->
          Popen_safe w ["sdl2-config"; "--libs"] = Launched c2 o2 e2 ->
          Popen_safe w ["sdl2-config"; "--version"] = CannotLaunch e ->
          SDL2Dependency.__init__ w environment kwargs st
          = (Raise (exn_of_launch_error e),
             after_pkgconfig_attempt w "sdl2" environment kwargs st)).
Proof.
  intros w environment kwargs st p Hm Hpc Hwhich Hp.
  destruct (sdl2_methods_auto w) as [Hin1 Hin2].
  assert (Hrun : SDL2Dependency.__init__ w environment kwargs st
                 = match SDL2Dependency.via_sdlconfig w
                           {| SDL2Dependency.type_name := "sdl2";
                              SDL2Dependency.methods := get_methods w ClsSDL2Dependency;
                              SDL2Dependency.is_found := false;
                              SDL2Dependency.cargs := [];
                              SDL2Dependency.linkargs := [];
                              SDL2Dependency.version := None |} with
                   | Ok (Some d) => (Ok d, after_pkgconfig_attempt w "sdl2" environment kwargs st)
                   | Ok None =>
                       (SDL2Dependency.via_extraframework w kwargs
                          {| SDL2Dependency.type_name := "sdl2";
                             SDL2Dependency.methods := get_methods w ClsSDL2Dependency;
                             SDL2Dependency.is_found := false;
                             SDL2Dependency.cargs := [];
                             SDL2Dependency.linkargs := [];
                             SDL2Dependency.version := None |},
                        after_pkgconfig_attempt w "sdl2" environment kwargs st)
                   | Raise e =>
                       (Raise e, after_pkgconfig_attempt w "sdl2" environment kwargs st)
                   end).
  { unfold SDL2Dependency.__init__.
    rewrite (Dependency_init_auto w _ _ kwargs Hm). unfold bind at 1. unfold lift at 1.
    cbn [Dependency.type_name Dependency.methods].
    unfold bind at 1. rewrite sdl2_via_pkgconfig_enabled by exact Hin1.
    rewrite Hpc. unfold bind, lift, ret.
    destruct (SDL2Dependency.via_sdlconfig w _) as [[d|]|e]; reflexivity. }
  rewrite Hrun. unfold SDL2Dependency.via_sdlconfig.
  cbn [SDL2Dependency.methods]. rewrite bool_decide_eq_true_2 by exact Hin2.
  rewrite Hwhich. destruct p as [|c r]; [contradiction|].
  unfold SDL2Dependency.popen_stdout, result_bind. split; [|split; [|split]].
  - intros c1 o1 e1 c2 o2 e2 c3 o3 e3 -> -> ->. eexists. repeat split.
  - intros e ->. reflexivity.
  - intros c1 o1 e1 e -> ->. reflexivity.
  - intros c1 o1 e1 c2 o2 e2 e -> -> ->. reflexivity.
Qed.

Lemma sdl2_config_exit_status_ignored_witness :
  exists d st',
    SDL2Dependency.__init__ linux_sdl2_config native_build ∅ initial_state = (Ok d, st')
    /\ SDL2Dependency.found d = true
    /\ SDL2Dependency.get_link_args d = ["-lSDL2"]
    /\ SDL2Dependency.version d = Some "2.0.5".
Proof.
  edestruct (sdl2_config_exit_status_ignored linux_sdl2_config native_build ∅
               initial_state) as [H _];
    [ reflexivity | reflexivity | reflexivity | discriminate | ].
  edestruct H as (d & Hinit & Hf & _ & Hl & Hv);
    [ reflexivity | reflexivity | reflexivity | ].
  exists d. eexists. split; [exact Hinit|]. split; [exact Hf|].
  split; [exact Hl | exact Hv].
Defined.

Lemma sdl2_extraframework_rejected :
  forall w environment kwargs st,
    kwargs !! "method" = Some (VStr "extraframework") ->
    SDL2Dependency.__init__ w environment kwargs st
    = (Raise (MesonException
                (Dependency.unsupported_method w (VStr "extraframework")
                   (if is_osx w then ["auto"] else ["pkgconfig"; "sdlconfig"]))), st).
Proof.
  intros w environment kwargs st Hm. unfold SDL2Dependency.__init__.
  destruct (is_osx w) eqn:Hosx.
  - rewrite (Dependency_init_declared w ClsSDL2Dependency _ kwargs "extraframework" Hm).
    2: discriminate.
    2: { cbn [get_methods]. rewrite Hosx. repeat constructor. }
    unfold bind, lift, SDL2Dependency.via_pkgconfig, ret.
    cbn [Dependency.type_name Dependency.methods SDL2Dependency.methods].
    rewrite bool_decide_eq_false_2
      by (intros H; inversion H as [|? ? ? H']; inversion H').
    unfold SDL2Dependency.via_sdlconfig. cbn [SDL2Dependency.methods].
    rewrite bool_decide_eq_false_2
      by (intros H; inversion H as [|? ? ? H']; inversion H').
    unfold SDL2Dependency.via_extraframework. cbn [SDL2Dependency.methods].
    rewrite bool_decide_eq_true_2 by repeat constructor.
    rewrite Hosx. unfold ExtraFrameworkDependency.__init__.
    rewrite (Dependency_init_unsupported w ClsExtraFrameworkDependency _ kwargs
               (VStr "extraframework") Hm).
    + reflexivity.
    + discriminate.
    + intros m [= <-]. cbn [get_methods].
      intros H; inversion H as [|? ? ? H']; inversion H'.
  - rewrite (Dependency_init_unsupported w ClsSDL2Dependency _ kwargs
               (VStr "extraframework") Hm).
    + cbn [get_methods]. rewrite Hosx. reflexivity.
    + discriminate.
    + intros m [= <-]. cbn [get_methods]. rewrite Hosx.
      intros H. inversion H as [|? ? ? H']. inversion H' as [|? ? ? H'']. inversion H''.
Qed.



(** ** WxDependency *)

Lemma wx_init_searching vc w environment kwargs cs :
  default (VStr "auto") (kwargs !! "method") = VStr "auto" ->
  WxDependency.wx_found cs = None ->
  match WxDependency.check_wxconfig_loop w ["wx-config-3.0"; "wx-config"] with
  | Ok (Some c) =>
      WxDependency.wx_found (snd (WxDependency.__init__ vc w environment kwargs cs))
      = Some true
  | Ok None =>
      WxDependency.__init__ vc w environment kwargs cs
      = (WxDependency.Built
           {| WxDependency.type_name := "wx"; WxDependency.methods := ["auto"];
              WxDependency.is_found := false; WxDependency.modversion := "none";
              WxDependency.wxc := None; WxDependency.requested_modules := None;
              WxDependency.cargs := None; WxDependency.libs := None |},
         {| WxDependency.wx_found := None; WxDependency.wxconfig_found := Some false |})
  | Raise e =>
      WxDependency.__init__ vc w environment kwargs cs
      = (WxDependency.Failed (WxDependency.Exception e), cs)
  end.
Proof.
  intros Hm Hcs. unfold WxDependency.__init__.
  rewrite (Dependency_init_auto w _ _ kwargs Hm). rewrite Hcs.
  unfold WxDependency.check_wxconfig.
  destruct (WxDependency.check_wxconfig_loop w ["wx-config-3.0"; "wx-config"])
    as [[c|]|e].
  - reflexivity.
  - cbn. rewrite Hcs. reflexivity.
  - reflexivity.
Qed.

(** X20. A process builds at most one wx dependency. The constructor
    that finds a working [wx-config], one that [shutil.which] locates
    for the line of the log, keeps its name on the object it is
    building and sets the class flag [wx_found]; every later
    construction, whatever it asks for on whatever host, skips the
    search, reads the name from its own object and fails with
    [AttributeError], leaving the class as it is. A search that finds
    no [wx-config] is not recorded in the flag: the object is built not
    found and the next construction searches again. A search that ends
    in an exception of a launch that is not caught ends the constructor
    with it and leaves the class as it is. *)
Theorem wx_constructed_at_most_once :
  forall vc w environment kwargs cs,
    default (VStr "auto") (kwargs !! "method") = VStr "auto" ->
    WxDependency.wx_found cs = None ->
    (forall c,
       WxDependency.check_wxconfig_loop w ["wx-config-3.0"; "wx-config"] = Ok (Some c) ->
       shutil_which w c <> None ->
       forall vc' w' environment' kwargs',
         default (VStr "auto") (kwargs' !! "method") = VStr "auto" ->
         WxDependency.__init__ vc' w' environment' kwargs'
           (snd (WxDependency.__init__ vc w environment kwargs cs))
         = (WxDependency.Failed (WxDependency.AttributeError "wxc"),
            snd (WxDependency.__init__ vc w environment kwargs cs)))
    /\ (WxDependency.check_wxconfig_loop w ["wx-config-3.0"; "wx-config"] = Ok None ->
        exists d,
          fst (WxDependency.__init__ vc w environment kwargs cs) = WxDependency.Built d
          /\ WxDependency.found d = false
          /\ WxDependency.wx_found (snd (WxDependency.__init__ vc w environment kwargs cs))
             = None)
    /\ (forall e,
          WxDependency.check_wxconfig_loop w ["wx-config-3.0"; "wx-config"] = Raise e ->
          WxDependency.__init__ vc w environment kwargs cs
          = (WxDependency.Failed (WxDependency.Exception e), cs)).
Proof.
  intros vc w environment kwargs cs Hm Hcs.
  pose proof (wx_init_searching vc w environment kwargs cs Hm Hcs) as Hfirst.
  split; [|split].
  - intros c Hc _ vc' w' environment' kwargs' Hm'. rewrite Hc in Hfirst.
    set (cs1 := snd (WxDependency.__init__ vc w environment kwargs cs)) in *.
    clearbody cs1. unfold WxDependency.__init__.
    rewrite (Dependency_init_auto w' _ _ kwargs' Hm'), Hfirst. cbv iota zeta beta.
    rewrite Hfirst. reflexivity.
  - intros Hc. rewrite Hc in Hfirst. rewrite Hfirst. eexists. repeat split.
  - intros e Hc. rewrite Hc in Hfirst. exact Hfirst.
Qed.

Lemma wx_constructed_at_most_once_witness :
  (exists d,
     fst (WxDependency.__init__ any_version linux_wx native_build ∅
            WxDependency.class_initial) = WxDependency.Built d
     /\ WxDependency.found d = true)
  /\ fst (WxDependency.__init__ any_version linux_wx native_build
            {[ "modules" := VList [VStr "core"] ]}
            (snd (WxDependency.__init__ any_version linux_wx native_build ∅
                    WxDependency.class_initial)))
     = WxDependency.Failed (WxDependency.AttributeError "wxc").
Proof.
  split; [eexists; split; reflexivity|].
  edestruct (wx_constructed_at_most_once any_version linux_wx native_build ∅
               WxDependency.class_initial) as [H _]; [reflexivity | reflexivity |].
  rewrite (H "wx-config"); [reflexivity | reflexivity | discriminate | reflexivity].
Defined.

(** ** GnuStepDependency *)

Lemma filter_Forall {A} (f : A -> bool) l : Forall (fun x => f x = true) (List.filter f l).
Proof.
  induction l as [|x l IH]; simpl; [constructor|].
  destruct (f x) eqn:E; [constructor; assumption | exact IH].
Qed.

Lemma startswith_dash c f :
  Str.startswith (String "-" (String c EmptyString)) f = true -> Str.startswith "-" f = true.
Proof.
  destruct f as [|a r]; simpl; [discriminate|].
  intros H. apply andb_true_iff in H as [H _]. rewrite H. reflexivity.
Qed.

Lemma filter_arsg_flags args :
  Forall (fun f => Str.startswith "-" f = true) (GnuStepDependency.filter_arsg args)
  /\ ("-Wall" ∉ GnuStepDependency.filter_arsg args).
Proof.
  unfold GnuStepDependency.filter_arsg.
  match goal with |- context [List.filter ?p args] => pose proof (filter_Forall p args) as H end.
  split.
  - eapply Forall_impl; [exact H|]. intros f Hf. cbv beta in Hf.
    repeat (apply orb_true_iff in Hf as [Hf|Hf]).
    + eapply startswith_dash. exact Hf.
    + eapply startswith_dash. exact Hf.
    + eapply startswith_dash. exact Hf.
    + unfold Str.eqb in Hf. apply bool_decide_eq_true in Hf. subst f. reflexivity.
    + apply andb_true_iff in Hf as [Hf _]. eapply startswith_dash. exact Hf.
  - intros Hin. rewrite Forall_forall in H. apply H in Hin. discriminate Hin.
Qed.

Lemma detect_version_nonempty P w self v :
  GnuStepDependency.detect_version P w self = Ok v -> v <> EmptyString.
Proof.
  unfold GnuStepDependency.detect_version, result_bind.
  destruct (GnuStepDependency.get_variable w self "GNUMAKE"); [|discriminate].
  destruct (GnuStepDependency.get_variable w self "GNUSTEP_MAKEFILES"); [|discriminate].
  destruct (P _ _ _) as [rc o err|e]; [|discriminate].
  destruct (Str.strip o) as [|c r]; simpl; intros [= <-]; discriminate.
Qed.

(** X21. What [GnuStepDependency] builds, for a request that leaves the
    method to the code. When [gnustep-config --help] exits with a
    status other than zero, or its launch ends in [FileNotFoundError]
    or [PermissionError], the object is built not found with no compile
    argument, for a required dependency too and before [modules] is
    looked at; a launch that ends in any other exception ends the
    constructor with it. An object that is found was built with
    [gnustep-config] answering; each of its compile and link arguments
    starts with a dash, [-Wall] is not among the compile arguments, and
    its version is not empty. *)
Theorem gnustep_detection_invariants :
  forall P w environment kwargs,
    default (VStr "auto") (kwargs !! "method") = VStr "auto" ->
    (gnustep_config_missing w ->
     exists d,
       GnuStepDependency.__init__ P w environment kwargs = Ok d
       /\ GnuStepDependency.found d = false
       /\ GnuStepDependency.get_compile_args d = [])
    /\ (forall e,
          Popen_safe w [GnuStepDependency.confprog; "--help"] = CannotLaunch e ->
          caught_on_launch e = false ->
          GnuStepDependency.__init__ P w environment kwargs
          = Raise (exn_of_launch_error e))
    /\ (forall d,
          GnuStepDependency.__init__ P w environment kwargs = Ok d ->
          GnuStepDependency.found d = true ->
          gnustep_config_answers w = true
          /\ Forall (fun f => Str.startswith "-" f = true)
               (GnuStepDependency.get_compile_args d)
          /\ ("-Wall" ∉ GnuStepDependency.get_compile_args d)
          /\ (exists l, GnuStepDependency.libs d = Some l
                        /\ Forall (fun f => Str.startswith "-" f = true) l)
          /\ exists v, GnuStepDependency.version d = Some v /\ v <> EmptyString).
Proof.
  intros P w environment kwargs Hm.
  unfold GnuStepDependency.__init__, gnustep_config_answers, gnustep_config_missing.
  rewrite (Dependency_init_auto w _ _ kwargs Hm). unfold result_bind at 1.
  cbn [Dependency.type_name Dependency.methods].
  unfold GnuStepDependency.detect.
  destruct (Popen_safe w [GnuStepDependency.confprog; "--help"]) as [rc out err|e].
  2: { split; [|split].
       - intros ->. eexists. repeat split.
       - intros e' [= <-] ->. reflexivity.
       - intros d. destruct (caught_on_launch e); [|discriminate].
         intros [= <-]. discriminate. }
  split; [|split; [discriminate|]].
  { intros Hrc. rewrite (nonzero_status rc Hrc). eexists. repeat split. }
  destruct (rc =? 0) eqn:Hrc; cbn [negb].
  2: { intros d [= <-]. discriminate. }
  intros d. unfold result_bind.
  cbn [GnuStepDependency.modules].
  destruct (GnuStepDependency.gui_requested _) as [gui|]; [|discriminate].
  destruct (GnuStepDependency.run w [GnuStepDependency.confprog; "--objc-flags"])
    as [[[rc1 flagtxt] flagerr]|]; [|discriminate].
  destruct (negb (rc1 =? 0)); [discriminate|].
  destruct (GnuStepDependency.run w _) as [[[rc2 libtxt] liberr]|]; [|discriminate].
  destruct (negb (rc2 =? 0)); [discriminate|].
  destruct (GnuStepDependency.detect_version P w _) as [v|] eqn:Hv; [|discriminate].
  intros [= <-] _. split; [reflexivity|].
  destruct (filter_arsg_flags (Str.split flagtxt)) as [Hflags Hwall].
  split; [exact Hflags|]. split; [exact Hwall|]. split.
  - eexists. split; [reflexivity|]. apply filter_Forall.
  - exists v. split; [reflexivity|]. eapply detect_version_nonempty. exact Hv.
Qed.

Lemma gnustep_detection_invariants_witness :
  exists d,
    GnuStepDependency.__init__ silent_make linux_gnustep native_build ∅ = Ok d
    /\ GnuStepDependency.get_compile_args d
       = ["-Wno-import"; "-fgnu-runtime"; "-I/usr/include/GNUstep"; "-pthread"]
    /\ GnuStepDependency.libs d = Some ["-lgnustep-base"; "-lobjc"]
    /\ GnuStepDependency.version d = Some "1"
    /\ ("-Wall" ∉ GnuStepDependency.get_compile_args d).
Proof.
  destruct (gnustep_detection_invariants silent_make linux_gnustep native_build ∅)
    as (_ & _ & H); [reflexivity|].
  eexists. split; [reflexivity|]. split; [reflexivity|]. split; [reflexivity|].
  split; [reflexivity|].
  edestruct H as (_ & _ & Hwall & _); [reflexivity | reflexivity | exact Hwall].
Defined.

(** ** Python3Dependency *)

Lemma python3_via_pkgconfig_enabled w environment kwargs self st :
  "pkgconfig" ∈ Python3Dependency.methods self ->
  Python3Dependency.via_pkgconfig w environment kwargs self st
  = (Ok (match pkgconfig_finds w "python3" environment kwargs st with
         | Some pc =>
             Some {| Python3Dependency.type_name := Python3Dependency.type_name self;
                     Python3Dependency.methods := Python3Dependency.methods self;
                     Python3Dependency.name := Python3Dependency.name self;
                     Python3Dependency.is_found := true;
                     Python3Dependency.version := PkgConfigDependency.modversion pc;
                     Python3Dependency.cargs := Some (PkgConfigDependency.cargs pc);
                     Python3Dependency.libs := Some (PkgConfigDependency.libs pc) |}
         | None => None
         end),
     after_pkgconfig_attempt w "python3" environment kwargs st).
Proof.
  intros Hin. unfold Python3Dependency.via_pkgconfig, pkgconfig_finds, after_pkgconfig_attempt.
  rewrite bool_decide_eq_true_2 by exact Hin.
  unfold try_except, bind, ret.
  destruct (PkgConfigDependency.__init__ w "python3" environment kwargs st) as [[d|e] st'].
  - destruct (PkgConfigDependency.found d); reflexivity.
  - reflexivity.
Qed.

Lemma python3_extraframework_rejected F w environment kwargs st :
  kwargs !! "method" = Some (VStr "extraframework") ->
  Python3Dependency.__init__ F w environment kwargs st
  = (Raise (MesonException
              (Dependency.unsupported_method w (VStr "extraframework")
                 (if is_windows w then ["pkgconfig"; "sysconfig"]
                  else if is_osx w then ["auto"] else ["pkgconfig"]))), st).
Proof.
  intros Hm. unfold Python3Dependency.__init__.
  destruct (is_windows w) eqn:Hwin; [|destruct (is_osx w) eqn:Hosx].
  - rewrite (Dependency_init_unsupported w ClsPython3Dependency _ kwargs
               (VStr "extraframework") Hm).
    + cbn [get_methods]. rewrite Hwin. reflexivity.
    + discriminate.
    + intros m [= <-]. cbn [get_methods]. rewrite Hwin.
      intros H. inversion H as [|? ? ? H']. inversion H' as [|? ? ? H'']. inversion H''.
  - rewrite (Dependency_init_declared w ClsPython3Dependency _ kwargs "extraframework" Hm).
    2: discriminate.
    2: { cbn [get_methods]. rewrite Hwin, Hosx. repeat constructor. }
    unfold bind, lift, Python3Dependency.via_pkgconfig, ret.
    cbn [Dependency.type_name Dependency.methods Python3Dependency.methods].
    rewrite bool_decide_eq_false_2
      by (intros H; inversion H as [|? ? ? H']; inversion H').
    cbn [andb]. rewrite bool_decide_eq_true_2 by repeat constructor.
    unfold ExtraFrameworkDependency.__init__.
    rewrite (Dependency_init_unsupported w ClsExtraFrameworkDependency _ kwargs
               (VStr "extraframework") Hm).
    + reflexivity.
    + discriminate.
    + intros m [= <-]. cbn [get_methods].
      intros H; inversion H as [|? ? ? H']; inversion H'.
  - rewrite (Dependency_init_unsupported w ClsPython3Dependency _ kwargs
               (VStr "extraframework") Hm).
    + cbn [get_methods]. rewrite Hwin, Hosx. reflexivity.
    + discriminate.
    + intros m [= <-]. cbn [get_methods]. rewrite Hwin, Hosx.
      intros H; inversion H as [|? ? ? H']; inversion H'.
Qed.

(** X22. [SDL2Dependency] and [Python3Dependency] declare the method
    ['extraframework'] on OSX, yet a request that names it cannot be
    served on any host: on OSX the framework constructor is handed the
    same keywords and rejects the method, elsewhere the method is not
    declared. Both constructors raise [MesonException] and leave the
    state of the process as it is. *)
Theorem extraframework_method_rejected :
  forall F w environment kwargs st,
    kwargs !! "method" = Some (VStr "extraframework") ->
    SDL2Dependency.__init__ w environment kwargs st
    = (Raise (MesonException
                (Dependency.unsupported_method w (VStr "extraframework")
                   (if is_osx w then ["auto"] else ["pkgconfig"; "sdlconfig"]))), st)
    /\ Python3Dependency.__init__ F w environment kwargs st
       = (Raise (MesonException
                   (Dependency.unsupported_method w (VStr "extraframework")
                      (if is_windows w then ["pkgconfig"; "sysconfig"]
                       else if is_osx w then ["auto"] else ["pkgconfig"]))), st).
Proof.
  intros F w environment kwargs st Hm. split.
  - apply sdl2_extraframework_rejected. exact Hm.
  - apply python3_extraframework_rejected. exact Hm.
Qed.

Lemma extraframework_method_rejected_witness :
  SDL2Dependency.__init__ osx_host native_build
    {[ "method" := VStr "extraframework" ]} initial_state
  = (Raise (MesonException
              (Dependency.unsupported_method osx_host (VStr "extraframework") ["auto"])),
     initial_state)
  /\ Python3Dependency.__init__ no_sysconfig osx_host native_build
       {[ "method" := VStr "extraframework" ]} initial_state
     = (Raise (MesonException
                 (Dependency.unsupported_method osx_host (VStr "extraframework") ["auto"])),
        initial_state).
Proof.
  apply (extraframework_method_rejected no_sysconfig osx_host native_build
           {[ "method" := VStr "extraframework" ]} initial_state).
  reflexivity.
Defined.

(** X23. [Python3Dependency] on a host that is not Windows, for a
    request that leaves the method to the code. If pkg-config finds
    [python3] the flags and the version are its own. Otherwise, off OSX
    the object is built not found with version ['3'] and no flags
    assigned, and nothing is raised whatever pkg-config did; on OSX the
    outcome is that of the framework constructor for [python], asked as
    optional: its exception leaves the constructor, its framework gives
    the flags with the version left at ['3']. *)
Theorem python3_detection_outcomes :
  forall F w environment kwargs st,
    default (VStr "auto") (kwargs !! "method") = VStr "auto" ->
    is_windows w = false ->
    match pkgconfig_finds w "python3" environment kwargs st with
    | Some pc =>
        exists d,
          Python3Dependency.__init__ F w environment kwargs st
          = (Ok d, after_pkgconfig_attempt w "python3" environment kwargs st)
          /\ Python3Dependency.found d = true
          /\ Python3Dependency.get_version d = PkgConfigDependency.get_version pc
          /\ Python3Dependency.cargs d = Some (PkgConfigDependency.get_compile_args pc)
          /\ Python3Dependency.libs d = Some (PkgConfigDependency.get_link_args pc)
    | None =>
        if is_osx w then
          match ExtraFrameworkDependency.__init__ w "python" (VBool false) None kwargs with
          | Raise e =>
              Python3Dependency.__init__ F w environment kwargs st
              = (Raise e, after_pkgconfig_attempt w "python3" environment kwargs st)
          | Ok fw =>
              exists d,
                Python3Dependency.__init__ F w environment kwargs st
                = (Ok d, after_pkgconfig_attempt w "python3" environment kwargs st)
                /\ Python3Dependency.found d = ExtraFrameworkDependency.found fw
                /\ Python3Dependency.get_version d = "3"
                /\ (ExtraFrameworkDependency.found fw = true ->
                    Python3Dependency.cargs d
                    = Some (ExtraFrameworkDependency.get_compile_args w fw)
                    /\ Python3Dependency.libs d
                       = Some (ExtraFrameworkDependency.get_link_args fw))
          end
        else
          exists d,
            Python3Dependency.__init__ F w environment kwargs st
            = (Ok d, after_pkgconfig_attempt w "python3" environment kwargs st)
            /\ Python3Dependency.found d = false
            /\ Python3Dependency.get_version d = "3"
            /\ Python3Dependency.cargs d = None
            /\ Python3Dependency.libs d = None
    end.
Proof.
  intros F w environment kwargs st Hm Hwin.
  set (self := {| Python3Dependency.type_name := "python3";
                  Python3Dependency.methods := get_methods w ClsPython3Dependency;
                  Python3Dependency.name := "python3";
                  Python3Dependency.is_found := false;
                  Python3Dependency.version := "3";
                  Python3Dependency.cargs := None;
                  Python3Dependency.libs := None |}).
  assert (Hrun :
    Python3Dependency.__init__ F w environment kwargs st
    = match pkgconfig_finds w "python3" environment kwargs st with
      | Some pc =>
          (Ok {| Python3Dependency.type_name := "python3";
                 Python3Dependency.methods := get_methods w ClsPython3Dependency;
                 Python3Dependency.name := "python3";
                 Python3Dependency.is_found := true;
                 Python3Dependency.version := PkgConfigDependency.modversion pc;
                 Python3Dependency.cargs := Some (PkgConfigDependency.cargs pc);
                 Python3Dependency.libs := Some (PkgConfigDependency.libs pc) |},
           after_pkgconfig_attempt w "python3" environment kwargs st)
      | None =>
          if is_osx w then
            match ExtraFrameworkDependency.__init__ w "python" (VBool false) None kwargs with
            | Raise e => (Raise e, after_pkgconfig_attempt w "python3" environment kwargs st)
            | Ok fw =>
                (Ok (if ExtraFrameworkDependency.found fw then
                       {| Python3Dependency.type_name := "python3";
                          Python3Dependency.methods := get_methods w ClsPython3Dependency;
                          Python3Dependency.name := "python3";
                          Python3Dependency.is_found := true;
                          Python3Dependency.version := "3";
                          Python3Dependency.cargs :=
                            Some (ExtraFrameworkDependency.get_compile_args w fw);
                          Python3Dependency.libs :=
                            Some (ExtraFrameworkDependency.get_link_args fw) |}
                     else self),
                 after_pkgconfig_attempt w "python3" environment kwargs st)
            end
          else (Ok self, after_pkgconfig_attempt w "python3" environment kwargs st)
      end).
  { unfold Python3Dependency.__init__.
    rewrite (Dependency_init_auto w _ _ kwargs Hm). unfold bind at 1. unfold lift at 1.
    cbn [Dependency.type_name Dependency.methods]. fold self.
    unfold bind at 1. rewrite python3_via_pkgconfig_enabled.
    2: { unfold self. cbn [Python3Dependency.methods get_methods]. rewrite Hwin.
         destruct (is_osx w); repeat constructor. }
    destruct (pkgconfig_finds w "python3" environment kwargs st) as [pc|]; [reflexivity|].
    subst self. cbn [Python3Dependency.methods get_methods]. rewrite Hwin. cbn [andb].
    destruct (is_osx w) eqn:Hosx; cbn [andb]; [|reflexivity].
    rewrite bool_decide_eq_true_2 by repeat constructor.
    unfold bind, lift, ret.
    destruct (ExtraFrameworkDependency.__init__ w "python" (VBool false) None kwargs)
      as [fw|e]; [|reflexivity].
    destruct (ExtraFrameworkDependency.found fw); reflexivity. }
  rewrite Hrun. clear Hrun.
  destruct (pkgconfig_finds w "python3" environment kwargs st) as [pc|].
  - eexists. split; [reflexivity|]. repeat split.
  - destruct (is_osx w).
    + destruct (ExtraFrameworkDependency.__init__ w "python" (VBool false) None kwargs)
        as [fw|e]; [|reflexivity].
      eexists. split; [reflexivity|].
      destruct (ExtraFrameworkDependency.found fw).
      * repeat split.
      * split; [reflexivity|]. split; [reflexivity|]. discriminate.
    + eexists. split; [reflexivity|]. repeat split.
Qed.

Lemma python3_detection_outcomes_witness :
  exists d st',
    Python3Dependency.__init__ no_sysconfig osx_host native_build ∅ initial_state
    = (Ok d, st')
    /\ Python3Dependency.found d = true
    /\ Python3Dependency.get_version d = "3"
    /\ Python3Dependency.libs d = Some ["-F/Library/Frameworks"; "-framework"; "Python"].
Proof.
  pose proof (python3_detection_outcomes no_sysconfig osx_host native_build ∅ initial_state
                eq_refl eq_refl) as H.
  vm_compute in H. destruct H as (d & Hinit & Hf & Hv & Hargs).
  destruct (Hargs eq_refl) as [_ Hl].
  exists d. eexists. split; [exact Hinit|]. split; [exact Hf|]. split; [exact Hv | exact Hl].
Defined.

(** ** ValgrindDependency through the dispatcher *)

(** X24. A request for valgrind, in whatever letter case the name is
    written, is served by [ValgrindDependency]: pkg-config is asked for
    the module [valgrind] in lower case, the object handed back has no
    link argument whatever pkg-config printed, and its compile
    arguments are those of pkg-config. *)
Theorem valgrind_never_links :
  forall k w name environment kwargs st dep st',
    Str.lower name = "valgrind" ->
    find_external_dependency k w name environment kwargs st = (Ok dep, st') ->
    exists d,
      dep = ValgrindObject d
      /\ PkgConfigDependency.__init__ w "valgrind" environment kwargs st = (Ok d, st')
      /\ get_link_args dep = []
      /\ get_compile_args w dep = PkgConfigDependency.get_compile_args d
      /\ (truthy (default (VBool true) (kwargs !! "required")) = true ->
          PkgConfigDependency.found d = true).
Proof.
  intros k w name environment kwargs st dep st' Hname.
  unfold find_external_dependency. cbv zeta. rewrite Hname.
  destruct (negb (is_bool (default (VBool true) (kwargs !! "required"))));
    [discriminate|].
  change (packages k !! "valgrind" : option constructor)
    with (Some ValgrindDependency.__init__ : option constructor).
  unfold bind at 1. unfold ValgrindDependency.__init__ at 1. unfold bind at 1.
  destruct (PkgConfigDependency.__init__ w "valgrind" environment kwargs st)
    as [[d|e] st1]; [|discriminate].
  unfold ret at 1. cbn [found].
  destruct (truthy (default (VBool true) (kwargs !! "required"))) eqn:Hr; cbn [andb].
  - destruct (PkgConfigDependency.found d) eqn:Hf; cbn [negb]; [|discriminate].
    intros [= <- <-]. exists d. repeat split. intros _. exact Hf.
  - intros [= <- <-]. exists d. repeat split. discriminate.
Qed.

Lemma valgrind_never_links_witness :
  exists d st',
    find_external_dependency no_kinds linux_valgrind "Valgrind" native_build ∅ initial_state
    = (Ok (ValgrindObject d), st')
    /\ PkgConfigDependency.get_link_args d = ["-L/usr/lib/valgrind"; "-lcoregrind"]
    /\ get_link_args (ValgrindObject d) = [].
Proof.
  destruct (find_external_dependency no_kinds linux_valgrind "Valgrind" native_build ∅
              initial_state) as [[dep|e] st'] eqn:E; [|vm_compute in E; discriminate E].
  destruct (valgrind_never_links no_kinds linux_valgrind "Valgrind" native_build ∅
              initial_state dep st' eq_refl E) as (d & -> & Hinit & Hl & _).
  exists d, st'. split; [reflexivity|]. split; [|exact Hl].
  vm_compute in Hinit. injection Hinit as <- _. reflexivity.
Defined.
